(** * A URL-shortening Lambda handler (package [main])

    Shallow embedding of the handler of [karlabo93/urlshortener]:
    [handleRequest], [createShortURL], [getOriginalURL] and
    [generateShortURL], together with the parts of their collaborators that
    the handler observes: [encoding/json], [time], [fmt], the DynamoDB
    client and the [attributevalue] codec. *)

From Stdlib Require Import ZArith NArith String Ascii List Lia.
From stdpp Require Import base option gmap strings list fin_maps.

Set Warnings "-register-all".
Open Scope string_scope.

(** ** Go values: results of fallible calls and panics *)

(** A Go call returning [(T, error)]. *)
Inductive result (A : Type) : Type :=
| Ok (a : A)
| Err (e : string).
Arguments Ok {A} a.
Arguments Err {A} e.

Definition result_ok {A : Type} (r : result A) : option A :=
  match r with
  | Ok a => Some a
  | Err _ => None
  end.

(** ** Bytes and UTF-8 (packages [unicode/utf8], [unicode/utf16]) *)

Module utf8.

Definition byte (c : ascii) : N := N_of_ascii c.

Definition chr (n : N) : ascii := ascii_of_N n.

(** The accept ranges of [utf8.DecodeRune]: for a lead byte, the length of
    the sequence and the interval its second byte must lie in. *)
Definition first (x : N) : option (nat * N * N) :=
  if ((0xC2 <=? x) && (x <=? 0xDF))%N then Some (2%nat, 0x80, 0xBF)%N
  else if (x =? 0xE0)%N then Some (3%nat, 0xA0, 0xBF)%N
  else if (x =? 0xED)%N then Some (3%nat, 0x80, 0x9F)%N
  else if ((0xE1 <=? x) && (x <=? 0xEF))%N then Some (3%nat, 0x80, 0xBF)%N
  else if (x =? 0xF0)%N then Some (4%nat, 0x90, 0xBF)%N
  else if (x =? 0xF4)%N then Some (4%nat, 0x80, 0x8F)%N
  else if ((0xF1 <=? x) && (x <=? 0xF3))%N then Some (4%nat, 0x80, 0xBF)%N
  else None.

Definition between (lo hi : N) (c : ascii) : bool :=
  ((lo <=? byte c) && (byte c <=? hi))%N.

(** [size c rest] is the length of the well-formed multi-byte sequence that
    starts with the lead byte [c] and goes on in [rest]; [None] is
    [DecodeRune]'s [(RuneError, 1)]. *)
Definition size (c : ascii) (rest : string) : option nat :=
  match first (byte c) with
  | None => None
  | Some (n, lo, hi) =>
    match n, rest with
    | 2%nat, String c2 _ =>
      if between lo hi c2 then Some 2%nat else None
    | 3%nat, String c2 (String c3 _) =>
      if between lo hi c2 && between 0x80 0xBF c3 then Some 3%nat else None
    | 4%nat, String c2 (String c3 (String c4 _)) =>
      if between lo hi c2 && between 0x80 0xBF c3 && between 0x80 0xBF c4
      then Some 4%nat else None
    | _, _ => None
    end
  end.

(** U+FFFD, [unicode.ReplacementChar], as bytes. *)
Definition RuneError : string :=
  String (chr 0xEF) (String (chr 0xBF) (String (chr 0xBD) "")).

(** [utf8.EncodeRune]. Surrogates and values past U+10FFFF are written as
    U+FFFD. *)
Definition EncodeRune (r : N) : string :=
  if (r <? 0x80)%N then String (chr r) ""
  else if (r <? 0x800)%N then
    String (chr (0xC0 + r / 64)) (String (chr (0x80 + r mod 64)) "")
  else if ((0xD800 <=? r) && (r <=? 0xDFFF))%N || (0x10FFFF <? r)%N then
    RuneError
  else if (r <? 0x10000)%N then
    String (chr (0xE0 + r / 4096))
      (String (chr (0x80 + (r / 64) mod 64))
         (String (chr (0x80 + r mod 64)) ""))
  else
    String (chr (0xF0 + r / 262144))
      (String (chr (0x80 + (r / 4096) mod 64))
         (String (chr (0x80 + (r / 64) mod 64))
            (String (chr (0x80 + r mod 64)) ""))).

(** [utf8.ValidString]. [k] counts the continuation bytes still owed by the
    sequence being read. *)
Fixpoint valid_from (k : nat) (s : string) : bool :=
  match s with
  | EmptyString => match k with O => true | S _ => false end
  | String c rest =>
    match k with
    | S k' => between 0x80 0xBF c && valid_from k' rest
    | O =>
      if (byte c <? 0x80)%N then valid_from 0 rest
      else match size c rest with
           | Some n => valid_from (Nat.pred n) rest
           | None => false
           end
    end
  end.

Definition ValidString (s : string) : bool := valid_from 0 s.

End utf8.

Module utf16.

Definition IsSurrogate (r : N) : bool := ((0xD800 <=? r) && (r <? 0xE000))%N.

(** [utf16.DecodeRune]: the code point of a surrogate pair, [None] standing
    for U+FFFD when the two halves do not pair up. *)
Definition DecodeRune (r1 r2 : N) : option N :=
  if ((0xD800 <=? r1) && (r1 <? 0xDC00) && (0xDC00 <=? r2) && (r2 <? 0xE000))%N
  then Some ((r1 - 0xD800) * 1024 + (r2 - 0xDC00) + 0x10000)%N
  else None.

End utf16.

(** ** Strings *)

(** The double quote, written by its code. *)
Definition dquote : ascii := "034"%char.

Definition quoted (s : string) : string := String dquote (s ++ String dquote "").

Fixpoint drop (n : nat) (s : string) : string :=
  match n, s with
  | S n', String _ rest => drop n' rest
  | _, _ => s
  end.

Fixpoint strip_prefix (p s : string) : option string :=
  match p, s with
  | EmptyString, _ => Some s
  | String a p', String b s' => if Ascii.eqb a b then strip_prefix p' s' else None
  | String _ _, EmptyString => None
  end.

Definition isDigit (c : ascii) : bool :=
  ((48 <=? utf8.byte c) && (utf8.byte c <=? 57))%N.

(** ** Integers as text (packages [fmt], [strconv]) *)

Module strconv.

Definition digit (z : Z) : ascii := ascii_of_N (48 + Z.to_N z).

(** The decimal digits of a non-negative [n], most significant first, in
    front of [acc]. Twenty rounds cover every 64-bit value. *)
Fixpoint digits (fuel : nat) (n : Z) (acc : string) : string :=
  match fuel with
  | O => acc
  | S fuel' =>
    let acc' := String (digit (n mod 10)) acc in
    if (n <? 10)%Z then acc' else digits fuel' (n / 10) acc'
  end.

(** [strconv.FormatInt(n, 10)], which is what [fmt.Sprintf("%d", n)]
    prints for an [int64]. *)
Definition FormatInt (n : Z) : string :=
  if (n <? 0)%Z then String "-" (digits 20 (- n) "") else digits 20 n "".

(** The value of a run of decimal digits. *)
Fixpoint value_of (acc : Z) (s : string) : option Z :=
  match s with
  | EmptyString => Some acc
  | String c rest =>
    if isDigit c then value_of (acc * 10 + (Z.of_N (utf8.byte c) - 48)) rest
    else None
  end.

End strconv.

(** ** Package [time] *)

Module time.

(** An instant: nanoseconds since 1970-01-01T00:00:00Z. The process runs
    with UTC as its local zone. *)
Abbreviation Time := Z.

Definition wrap64 (z : Z) : Z := (z + 2 ^ 63) mod 2 ^ 64 - 2 ^ 63.

(** [Time.UnixNano]: an [int64]. *)
Definition UnixNano (t : Time) : Z := wrap64 t.

(** The zero [time.Time], 0001-01-01T00:00:00Z. *)
Definition zero : Time := (-62135596800000000000)%Z.

(** Year, month and day of a day number counted from 1970-01-01. *)
Definition civil_from_days (days : Z) : Z * Z * Z :=
  let z := (days + 719468)%Z in
  let era := (z / 146097)%Z in
  let doe := (z - era * 146097)%Z in
  let yoe := ((doe - doe / 1460 + doe / 36524 - doe / 146096) / 365)%Z in
  let doy := (doe - (365 * yoe + yoe / 4 - yoe / 100))%Z in
  let mp := ((5 * doy + 2) / 153)%Z in
  let d := (doy - (153 * mp + 2) / 5 + 1)%Z in
  let m := (if (mp <? 10)%Z then mp + 3 else mp - 9)%Z in
  let y := (yoe + era * 400 + (if (m <=? 2)%Z then 1 else 0))%Z in
  (y, m, d).

Definition days_from_civil (y m d : Z) : Z :=
  let y' := (if (m <=? 2)%Z then y - 1 else y)%Z in
  let era := (y' / 400)%Z in
  let yoe := (y' - era * 400)%Z in
  let mp := (if (2 <? m)%Z then m - 3 else m + 9)%Z in
  let doy := ((153 * mp + 2) / 5 + d - 1)%Z in
  let doe := (yoe * 365 + yoe / 4 - yoe / 100 + doy)%Z in
  (era * 146097 + doe - 719468)%Z.

(** The last [width] decimal digits of [z]. *)
Fixpoint padded (width : nat) (z : Z) : string :=
  match width with
  | O => ""
  | S w => padded w (z / 10) ++ String (strconv.digit (z mod 10)) ""
  end.

Fixpoint trim_zeros (s : string) : string :=
  match s with
  | EmptyString => ""
  | String c rest =>
    match trim_zeros rest with
    | EmptyString => if Ascii.eqb c "0" then "" else String c ""
    | r => String c r
    end
  end.

(** [t.Format(time.RFC3339Nano)] in UTC. *)
Definition RFC3339Nano (t : Time) : string :=
  let secs := (t / 1000000000)%Z in
  let nsec := (t mod 1000000000)%Z in
  let '(y, m, d) := civil_from_days (secs / 86400) in
  let sod := (secs mod 86400)%Z in
  let frac := trim_zeros (padded 9 nsec) in
  padded 4 y ++ "-" ++ padded 2 m ++ "-" ++ padded 2 d ++ "T" ++
  padded 2 (sod / 3600) ++ ":" ++ padded 2 (sod / 60 mod 60) ++ ":" ++
  padded 2 (sod mod 60) ++
  (match frac with EmptyString => "" | _ => String "." frac end) ++ "Z".

(** [n] decimal digits at the head of [s]. *)
Definition number (n : nat) (s : string) : option (Z * string) :=
  if (n <=? String.length s)%nat then
    match strconv.value_of 0 (substring 0 n s) with
    | Some v => Some (v, drop n s)
    | None => None
    end
  else None.

Definition expect (c : ascii) (s : string) : option string :=
  match s with
  | String c' rest => if Ascii.eqb c c' then Some rest else None
  | EmptyString => None
  end.

Definition daysIn (y m : Z) : Z :=
  if (m =? 2)%Z then
    if ((y mod 4 =? 0) && (negb (y mod 100 =? 0) || (y mod 400 =? 0)))%Z
    then 29%Z else 28%Z
  else if ((m =? 4) || (m =? 6) || (m =? 9) || (m =? 11))%Z then 30%Z
  else 31%Z.

(** The fraction of a second written by the digits at the head of [s], in
    nanoseconds, and the text after them. *)
Fixpoint fraction (weight : Z) (s : string) : Z * string :=
  match s with
  | String c rest =>
    if isDigit c then
      let '(v, r) := fraction (weight / 10) rest in
      ((Z.of_N (utf8.byte c) - 48) * weight + v, r)%Z
    else (0%Z, s)
  | EmptyString => (0%Z, s)
  end.

(** The zone at the end of an RFC 3339 time: [Z] or a numeric offset, in
    seconds east of UTC. *)
Definition zone (s : string) : option Z :=
  match s with
  | String c rest =>
    if Ascii.eqb c "Z" then
      match rest with EmptyString => Some 0%Z | _ => None end
    else if Ascii.eqb c "+" || Ascii.eqb c "-" then
      match number 2 rest with
      | Some (hh, r1) =>
        match expect ":" r1 with
        | Some r2 =>
          match number 2 r2 with
          | Some (mm, EmptyString) =>
            if ((hh <? 24) && (mm <? 60))%Z then
              Some ((if Ascii.eqb c "-" then -1 else 1) * (hh * 3600 + mm * 60))%Z
            else None
          | _ => None
          end
        | None => None
        end
      | None => None
      end
    else None
  | EmptyString => None
  end.

(** [time.Parse(time.RFC3339, s)]. *)
Definition Parse (s : string) : result Time :=
  let bad := Err "parsing time: cannot parse as RFC 3339" in
  match number 4 s with
  | Some (y, s1) =>
  match expect "-" s1 with Some s2 =>
  match number 2 s2 with Some (m, s3) =>
  match expect "-" s3 with Some s4 =>
  match number 2 s4 with Some (d, s5) =>
  match expect "T" s5 with Some s6 =>
  match number 2 s6 with Some (hh, s7) =>
  match expect ":" s7 with Some s8 =>
  match number 2 s8 with Some (mi, s9) =>
  match expect ":" s9 with Some s10 =>
  match number 2 s10 with Some (ss, s11) =>
    let '(nsec, s12) :=
      match s11 with
      | String c (String c' rest) =>
        if Ascii.eqb c "." && isDigit c' then fraction 100000000 (String c' rest)
        else (0%Z, s11)
      | _ => (0%Z, s11)
      end in
    match zone s12 with
    | Some off =>
      if ((1 <=? m) && (m <=? 12) && (1 <=? d) && (d <=? daysIn y m)
          && (hh <? 24) && (mi <? 60) && (ss <? 60))%Z
      then Ok (((days_from_civil y m d * 86400 + hh * 3600 + mi * 60 + ss - off)
                * 1000000000 + nsec)%Z)
      else bad
    | None => bad
    end
  | None => bad end | None => bad end | None => bad end | None => bad end
  | None => bad end | None => bad end | None => bad end | None => bad end
  | None => bad end | None => bad end | None => bad end.

End time.

(** ** The program's types *)

(** URLMapping represents the structure of the DynamoDB items. *)
Record URLMapping : Type := {
  ShortURL : string;
  LongURL : string;
  CreatedAt : Z;
  AccessCount : Z
}.

(** CreateURLRequest represents the expected JSON structure for POST
    requests. *)
Module CreateURLRequest.
Record t : Type := { LongURL : string }.
End CreateURLRequest.

(** ** Package [encoding/json] *)

Module json.

Import utf8.

(** A parsed JSON text. A number keeps its literal. *)
Inductive value : Type :=
| Null
| Bool (b : bool)
| Number (lit : string)
| Str (s : string)
| Array (elems : list value)
| Object (members : list (string * value)).

Definition isSpace (c : ascii) : bool :=
  Ascii.eqb c " " || Ascii.eqb c "009" || Ascii.eqb c "010" || Ascii.eqb c "013".

Fixpoint skip_space (s : string) : string :=
  match s with
  | String c rest => if isSpace c then skip_space rest else s
  | EmptyString => s
  end.

(** *** String literals: [unquote] *)

Definition hexval (c : ascii) : option N :=
  let n := byte c in
  if ((48 <=? n) && (n <=? 57))%N then Some (n - 48)%N
  else if ((97 <=? n) && (n <=? 102))%N then Some (n - 87)%N
  else if ((65 <=? n) && (n <=? 70))%N then Some (n - 55)%N
  else None.

(** Four hexadecimal digits at the head of [s]. *)
Definition hex4 (s : string) : option N :=
  match s with
  | String a (String b (String c (String d _))) =>
    match hexval a, hexval b, hexval c, hexval d with
    | Some x, Some y, Some z, Some t => Some (((x * 16 + y) * 16 + z) * 16 + t)%N
    | _, _, _, _ => None
    end
  | _ => None
  end.

(** [getu4]: the value of a [\uXXXX] escape at the head of [s]. *)
Definition getu4 (s : string) : option N :=
  match s with
  | String b (String u t) =>
    if Ascii.eqb b "\" && Ascii.eqb u "u" then hex4 t else None
  | _ => None
  end.

(** The one-letter escapes. *)
Definition escape (e : ascii) : option ascii :=
  if Ascii.eqb e dquote || Ascii.eqb e "\" || Ascii.eqb e "/" then Some e
  else if Ascii.eqb e "b" then Some "008"%char
  else if Ascii.eqb e "f" then Some "012"%char
  else if Ascii.eqb e "n" then Some "010"%char
  else if Ascii.eqb e "r" then Some "013"%char
  else if Ascii.eqb e "t" then Some "009"%char
  else None.

(** What a reader or writer of string text still owes after a look-ahead:
    [Copy k] passes the next [k] bytes through, [Skip k] drops them. With
    [k = 0] both mean that the next byte is examined afresh. *)
Inductive pending : Type :=
| Copy (k : nat)
| Skip (k : nat).

Definition emit (pre : string) (r : option (string * string))
  : option (string * string) :=
  match r with
  | Some (out, rest) => Some (pre ++ out, rest)
  | None => None
  end.

(** [unquote p s] reads the inside of a string literal up to its closing
    quote and returns the decoded text and what follows the quote. It
    refuses what the scanner refuses (no closing quote, a control character,
    a bad escape) and decodes like [unquoteBytes]: escapes are replaced,
    surrogate halves are paired or become U+FFFD, bytes that are not
    UTF-8 become U+FFFD. *)
Fixpoint unquote (p : pending) (s : string) : option (string * string) :=
  match s with
  | EmptyString => None
  | String c rest =>
    match p with
    | Copy (S k) => emit (String c "") (unquote (Copy k) rest)
    | Skip (S k) => unquote (Skip k) rest
    | _ =>
      if Ascii.eqb c dquote then Some ("", rest)
      else if Ascii.eqb c "\" then
        match rest with
        | EmptyString => None
        | String e rest1 =>
          if Ascii.eqb e "u" then
            match hex4 rest1 with
            | None => None
            | Some rr =>
              if utf16.IsSurrogate rr then
                match
                  match getu4 (drop 4 rest1) with
                  | Some rr1 => utf16.DecodeRune rr rr1
                  | None => None
                  end
                with
                | Some dec => emit (EncodeRune dec) (unquote (Skip 10) rest1)
                | None => emit RuneError (unquote (Skip 4) rest1)
                end
              else emit (EncodeRune rr) (unquote (Skip 4) rest1)
            end
          else
            match escape e with
            | Some d => emit (String d "") (unquote (Copy 0) rest1)
            | None => None
            end
        end
      else if (byte c <? 0x20)%N then None
      else if (byte c <? 0x80)%N then emit (String c "") (unquote (Copy 0) rest)
      else
        match size c rest with
        | Some n => emit (String c "") (unquote (Copy (Nat.pred n)) rest)
        | None => emit RuneError (unquote (Copy 0) rest)
        end
    end
  end.

(** *** Numbers *)

Fixpoint skip_digits (s : string) : string :=
  match s with
  | String c rest => if isDigit c then skip_digits rest else s
  | EmptyString => s
  end.

Definition digits1 (s : string) : option string :=
  match s with
  | String c rest => if isDigit c then Some (skip_digits rest) else None
  | EmptyString => None
  end.

Definition scan_int (s : string) : option string :=
  match s with
  | String c rest =>
    if Ascii.eqb c "0" then Some rest
    else if isDigit c then Some (skip_digits rest)
    else None
  | EmptyString => None
  end.

Definition scan_frac (s : string) : option string :=
  match s with
  | String c rest => if Ascii.eqb c "." then digits1 rest else Some s
  | EmptyString => Some s
  end.

Definition scan_exp (s : string) : option string :=
  match s with
  | String c rest =>
    if Ascii.eqb c "e" || Ascii.eqb c "E" then
      match rest with
      | String sg rest' =>
        if Ascii.eqb sg "+" || Ascii.eqb sg "-" then digits1 rest'
        else digits1 rest
      | EmptyString => None
      end
    else Some s
  | EmptyString => Some s
  end.

(** The text after the number literal at the head of [s]. *)
Definition scan_number (s : string) : option string :=
  let s1 := match s with
            | String c rest => if Ascii.eqb c "-" then rest else s
            | EmptyString => s
            end in
  match scan_int s1 with
  | Some s2 => match scan_frac s2 with
               | Some s3 => scan_exp s3
               | None => None
               end
  | None => None
  end.

(** *** Values *)

Definition maxNestingDepth : N := 10000.

(** [parse_value fuel depth s] reads one value at the head of [s] (spaces
    already skipped) inside [depth] open arrays and objects.
    [parse_members] reads the members of an object from its first key to the
    closing brace, [parse_elements] the elements of an array to the closing
    bracket. Each call hands its callee a strictly shorter text, so a fuel
    above the length of the text is never used up. *)
Fixpoint parse_value (fuel : nat) (depth : N) (s : string) {struct fuel}
  : option (value * string) :=
  match fuel with
  | O => None
  | S fuel' =>
    match s with
    | EmptyString => None
    | String c rest =>
      if Ascii.eqb c "{" then
        if (maxNestingDepth <? N.succ depth)%N then None
        else
          match skip_space rest with
          | EmptyString => None
          | String c' rest' =>
            if Ascii.eqb c' "}" then Some (Object [], rest')
            else
              match parse_members fuel' (N.succ depth) (String c' rest') with
              | Some (ms, r) => Some (Object ms, r)
              | None => None
              end
          end
      else if Ascii.eqb c "[" then
        if (maxNestingDepth <? N.succ depth)%N then None
        else
          match skip_space rest with
          | EmptyString => None
          | String c' rest' =>
            if Ascii.eqb c' "]" then Some (Array [], rest')
            else
              match parse_elements fuel' (N.succ depth) (String c' rest') with
              | Some (vs, r) => Some (Array vs, r)
              | None => None
              end
          end
      else if Ascii.eqb c dquote then
        match unquote (Copy 0) rest with
        | Some (str, r) => Some (Str str, r)
        | None => None
        end
      else if Ascii.eqb c "t" then
        match strip_prefix "rue" rest with
        | Some r => Some (Bool true, r)
        | None => None
        end
      else if Ascii.eqb c "f" then
        match strip_prefix "alse" rest with
        | Some r => Some (Bool false, r)
        | None => None
        end
      else if Ascii.eqb c "n" then
        match strip_prefix "ull" rest with
        | Some r => Some (Null, r)
        | None => None
        end
      else
        match scan_number s with
        | Some r => Some (Number (substring 0 (String.length s - String.length r) s), r)
        | None => None
        end
    end
  end
with parse_members (fuel : nat) (depth : N) (s : string) {struct fuel}
  : option (list (string * value) * string) :=
  match fuel with
  | O => None
  | S fuel' =>
    match s with
    | EmptyString => None
    | String c rest =>
      if Ascii.eqb c dquote then
        match unquote (Copy 0) rest with
        | None => None
        | Some (key, r1) =>
          match skip_space r1 with
          | EmptyString => None
          | String c1 r2 =>
            if Ascii.eqb c1 ":" then
              match parse_value fuel' depth (skip_space r2) with
              | None => None
              | Some (v, r3) =>
                match skip_space r3 with
                | EmptyString => None
                | String c2 r4 =>
                  if Ascii.eqb c2 "," then
                    match parse_members fuel' depth (skip_space r4) with
                    | Some (ms, r5) => Some ((key, v) :: ms, r5)
                    | None => None
                    end
                  else if Ascii.eqb c2 "}" then Some ([(key, v)], r4)
                  else None
                end
              end
            else None
          end
        end
      else None
    end
  end
with parse_elements (fuel : nat) (depth : N) (s : string) {struct fuel}
  : option (list value * string) :=
  match fuel with
  | O => None
  | S fuel' =>
    match parse_value fuel' depth s with
    | None => None
    | Some (v, r1) =>
      match skip_space r1 with
      | EmptyString => None
      | String c r2 =>
        if Ascii.eqb c "," then
          match parse_elements fuel' depth (skip_space r2) with
          | Some (vs, r3) => Some (v :: vs, r3)
          | None => None
          end
        else if Ascii.eqb c "]" then Some ([v], r2)
        else None
      end
    end
  end.

(** A whole JSON text: one value between optional spaces ([checkValid]). *)
Definition parse (data : string) : option value :=
  match parse_value (S (String.length data)) 0 (skip_space data) with
  | Some (v, rest) =>
    match skip_space rest with
    | EmptyString => Some v
    | String _ _ => None
    end
  | None => None
  end.

(** *** Decoding into [CreateURLRequest] *)

Definition upper (c : ascii) : ascii :=
  if ((97 <=? byte c) && (byte c <=? 122))%N then chr (byte c - 32) else c.

(** The match of an object key with a field name: exact, or equal up to
    the case of ASCII letters. *)
Fixpoint equalFold (a b : string) : bool :=
  match a, b with
  | EmptyString, EmptyString => true
  | String x a', String y b' => Ascii.eqb (upper x) (upper y) && equalFold a' b'
  | _, _ => false
  end.

(** The members of an object stored into the struct, in their order: a
    later [long_url] replaces an earlier one, [null] leaves the field as it
    is, other keys are passed over, and a [long_url] that is not a string is
    an [UnmarshalTypeError]. *)
Fixpoint object (ms : list (string * value)) (req : CreateURLRequest.t)
  : result CreateURLRequest.t :=
  match ms with
  | [] => Ok req
  | (key, v) :: ms' =>
    if equalFold key "long_url" then
      match v with
      | Str s => object ms' {| CreateURLRequest.LongURL := s |}
      | Null => object ms' req
      | _ => Err "json: cannot unmarshal into Go struct field CreateURLRequest.long_url of type string"
      end
    else object ms' req
  end.

(** [json.Unmarshal(data, &createReq)] for a zero [createReq]. *)
Definition Unmarshal (data : string) : result CreateURLRequest.t :=
  let zero := {| CreateURLRequest.LongURL := "" |} in
  match parse data with
  | None => Err "invalid character or unexpected end of JSON input"
  | Some Null => Ok zero
  | Some (Object ms) => object ms zero
  | Some _ => Err "json: cannot unmarshal into Go value of type main.CreateURLRequest"
  end.

(** *** Encoding *)

Definition hex (n : N) : ascii :=
  if (n <? 10)%N then chr (48 + n) else chr (87 + n).

(** [htmlSafeSet]: the ASCII bytes written as they are. *)
Definition htmlSafe (c : ascii) : bool :=
  ((0x20 <=? byte c) && (byte c <? 0x80))%N
  && negb (Ascii.eqb c dquote || Ascii.eqb c "\" || Ascii.eqb c "<"
           || Ascii.eqb c ">" || Ascii.eqb c "&").

Definition escaped (c : ascii) : string :=
  if Ascii.eqb c "\" || Ascii.eqb c dquote then String "\" (String c "")
  else if Ascii.eqb c "008" then "\b"
  else if Ascii.eqb c "012" then "\f"
  else if Ascii.eqb c "010" then "\n"
  else if Ascii.eqb c "013" then "\r"
  else if Ascii.eqb c "009" then "\t"
  else "\u00" ++ String (hex (byte c / 16)) (String (hex (byte c mod 16)) "").

(** The bytes [0x80 0xA8] or [0x80 0xA9] after a lead byte [0xE2]: U+2028
    and U+2029. *)
Definition separator (c : ascii) (rest : string) : option ascii :=
  match rest with
  | String c2 (String c3 _) =>
    if ((byte c =? 0xE2) && (byte c2 =? 0x80)
        && ((byte c3 =? 0xA8) || (byte c3 =? 0xA9)))%N
    then Some (hex (byte c3 mod 16)) else None
  | _ => None
  end.

(** The inside of the string literal that [appendString] writes for [s],
    with HTML escaping on. *)
Fixpoint encode (p : pending) (s : string) : string :=
  match s with
  | EmptyString => ""
  | String c rest =>
    match p with
    | Copy (S k) => String c (encode (Copy k) rest)
    | Skip (S k) => encode (Skip k) rest
    | _ =>
      if (byte c <? 0x80)%N then
        if htmlSafe c then String c (encode (Copy 0) rest)
        else escaped c ++ encode (Copy 0) rest
      else
        match size c rest with
        | None => "\ufffd" ++ encode (Copy 0) rest
        | Some n =>
          match separator c rest with
          | Some h => "\u202" ++ String h (encode (Skip 2) rest)
          | None => String c (encode (Copy (Nat.pred n)) rest)
          end
        end
    end
  end.

(** [appendString]: the literal, quotes included. *)
Definition appendString (s : string) : string := quoted (encode (Copy 0) s).

(** [json.Marshal(urlMapping)]. *)
Definition Marshal (m : URLMapping) : string :=
  "{" ++ quoted "short_url" ++ ":" ++ appendString (ShortURL m) ++ ","
      ++ quoted "long_url" ++ ":" ++ appendString (LongURL m) ++ ","
      ++ quoted "created_at" ++ ":" ++ quoted (time.RFC3339Nano (CreatedAt m)) ++ ","
      ++ quoted "access_count" ++ ":" ++ strconv.FormatInt (AccessCount m) ++ "}".

(** [json.Marshal(CreateURLRequest{LongURL: s})]: the body a client sends. *)
Definition MarshalRequest (req : CreateURLRequest.t) : string :=
  "{" ++ quoted "long_url" ++ ":" ++ appendString (CreateURLRequest.LongURL req) ++ "}".

End json.

(** ** DynamoDB attribute values (package [dynamodb/types]) *)

Module types.

(** The members of [types.AttributeValue] that the program meets. A number
    travels as decimal text; the model keeps its value. *)
Inductive AttributeValue : Type :=
| AttributeValueMemberS (Value : string)
| AttributeValueMemberN (Value : Z)
| AttributeValueMemberNULL.

#[global] Instance AttributeValue_eq_dec : EqDecision AttributeValue.
Proof. solve_decision. Defined.

End types.

Import types.

(** An item, and also a key: attribute values by attribute name. *)
Abbreviation Item := (gmap string AttributeValue).

(** ** Events of the API gateway (package [events]) *)

Module events.

Module APIGatewayProxyRequest.
Record t : Type := {
  HTTPMethod : string;
  PathParameters : gmap string string;
  Body : string
}.
End APIGatewayProxyRequest.

Module APIGatewayProxyResponse.
Record t : Type := {
  StatusCode : Z;
  Headers : gmap string string;
  Body : string
}.
End APIGatewayProxyResponse.

End events.

Import events.

(** ** The world around an invocation *)

(** The requests that reach the table, as the client sends them. *)
Record UpdateItemInput : Type := {
  Key : Item;
  UpdateExpression : string;
  ExpressionAttributeValues : Item
}.

Inductive Call : Type :=
| PutItemCall (item : Item)
| GetItemCall (key : Item)
| UpdateItemCall (input : UpdateItemInput).

(** What an invocation can observe and change: the table behind
    [tableName], keyed by the value of its hash key; the wall clock, as the
    reading that the [n]-th call of [time.Now] gets; the service's
    availability, as the error, if any, that the [n]-th request to the table
    is answered with; the requests sent so far; the lines written to the
    log. *)
Record World : Type := {
  table : gmap string Item;
  clock : nat -> Z;
  ticks : nat;
  fault : nat -> option string;
  trace : list Call;
  logs : list string
}.

(** A Go function body either returns or panics. *)
Inductive outcome (A : Type) : Type :=
| Return (a : A)
| Panic (msg : string).
Arguments Return {A} a.
Arguments Panic {A} msg.

Definition M (A : Type) : Type := World -> outcome A * World.

#[global] Instance M_ret : MRet M := fun A a w => (Return a, w).

#[global] Instance M_bind : MBind M := fun A B f m w =>
  match m w with
  | (Return a, w') => f a w'
  | (Panic msg, w') => (Panic msg, w')
  end.

Definition panic {A : Type} (msg : string) : M A := fun w => (Panic msg, w).

(** The four ways the world moves on. *)
Definition ticked (w : World) : World :=
  {| table := table w; clock := clock w; ticks := S (ticks w);
     fault := fault w; trace := trace w; logs := logs w |}.

Definition sent (c : Call) (w : World) : World :=
  {| table := table w; clock := clock w; ticks := ticks w;
     fault := fault w; trace := trace w ++ [c]; logs := logs w |}.

Definition stored (t : gmap string Item) (w : World) : World :=
  {| table := t; clock := clock w; ticks := ticks w;
     fault := fault w; trace := trace w; logs := logs w |}.

Definition logged (line : string) (w : World) : World :=
  {| table := table w; clock := clock w; ticks := ticks w;
     fault := fault w; trace := trace w; logs := logs w ++ [line] |}.

(** [time.Now()]. *)
Definition time_Now : M Z := fun w => (Return (clock w (ticks w)), ticked w).

(** [log.Printf], the line already formatted. *)
Definition log_Printf (line : string) : M unit := fun w => (Return tt, logged line w).

(** ** The DynamoDB client (package [dynamodb]) *)

Module dynamodb.

(** The hash key of the table: the attribute the handler keys its lookups
    by. *)
Definition hashKey : string := "short_url".

(** The key value named by a [Key] parameter, which must consist of the
    hash key alone. *)
Definition key_of (key : Item) : option string :=
  match key !! hashKey with
  | Some (AttributeValueMemberS k) =>
    if decide (key = {[ hashKey := AttributeValueMemberS k ]}) then Some k else None
  | _ => None
  end.

(** Sends a request: it is recorded, and the service's answer to it is read
    off the script. *)
Definition send (c : Call) : M (option string) := fun w =>
  (Return (fault w (length (trace w))), sent c w).

Definition get_table : M (gmap string Item) := fun w => (Return (table w), w).

Definition set_table (t : gmap string Item) : M unit := fun w =>
  (Return tt, stored t w).

Definition validation : string := "ValidationException".

(** [ddbClient.PutItem]: creates the item or replaces the one with its
    key. *)
Definition PutItem (item : Item) : M (option string) :=
  err ← send (PutItemCall item);
  match err with
  | Some e => mret (Some e)
  | None =>
    match item !! hashKey with
    | Some (AttributeValueMemberS k) =>
      t ← get_table;
      _ ← set_table (<[ k := item ]> t);
      mret None
    | _ => mret (Some validation)
    end
  end.

(** [ddbClient.GetItem]: the output's [Item], [None] for Go's [nil], and
    the error. *)
Definition GetItem (key : Item) : M (option Item * option string) :=
  err ← send (GetItemCall key);
  match err with
  | Some e => mret (None, Some e)
  | None =>
    match key_of key with
    | Some k => t ← get_table; mret (t !! k, None)
    | None => mret (None, Some validation)
    end
  end.

(** [ddbClient.UpdateItem]. How the service reads the expression text is
    the service's affair and is left to the script: it may refuse the
    request (DynamoDB's grammar for [SET] is [path = value], and the text
    sent by [getOriginalURL] has no [=]), or it may carry out what the
    request is sent for and add the value of [:inc] to [access_count]. The
    properties proved below hold in both cases. *)
Definition UpdateItem (input : UpdateItemInput) : M (option string) :=
  err ← send (UpdateItemCall input);
  match err with
  | Some e => mret (Some e)
  | None =>
    match key_of (Key input) with
    | None => mret (Some validation)
    | Some k =>
      t ← get_table;
      match t !! k with
      | None => mret (Some validation)
      | Some item =>
        match item !! "access_count", ExpressionAttributeValues input !! ":inc" with
        | Some (AttributeValueMemberN n), Some (AttributeValueMemberN d) =>
          _ ← set_table (<[ k := <[ "access_count" := AttributeValueMemberN (n + d) ]> item ]> t);
          mret None
        | _, _ => mret (Some validation)
        end
      end
    end
  end.

End dynamodb.

(** ** The attribute value codec (package [attributevalue]) *)

Module attributevalue.

(** The three uses the handler makes of the package: [MarshalMap] of a
    [URLMapping], [MarshalMap] of a [map[string]string], [UnmarshalMap] into
    a [URLMapping]. *)
Class Codec : Type := {
  MarshalMap : URLMapping -> result Item;
  MarshalStringMap : gmap string string -> result Item;
  UnmarshalMap : Item -> result URLMapping
}.

(** What the handler relies on: the [dynamodbav] tags name the attributes,
    strings become [S] members and integers [N] members, and decoding
    recovers [long_url] whatever [access_count] holds. *)
Class CodecSpec (codec : Codec) : Prop := {
  marshal_short_url : forall m item,
    MarshalMap m = Ok item ->
    item !! "short_url" = Some (AttributeValueMemberS (ShortURL m));
  marshal_access_count : forall m item,
    MarshalMap m = Ok item ->
    item !! "access_count" = Some (AttributeValueMemberN (AccessCount m));
  marshal_string_map : forall k,
    MarshalStringMap k = Ok (AttributeValueMemberS <$> k);
  unmarshal_long_url : forall m item m',
    MarshalMap m = Ok item -> UnmarshalMap item = Ok m' -> LongURL m' = LongURL m;
  unmarshal_counted : forall item v m m',
    UnmarshalMap item = Ok m ->
    UnmarshalMap (<[ "access_count" := v ]> item) = Ok m' ->
    LongURL m' = LongURL m
}.

Definition string_field (item : Item) (name : string) : result string :=
  match item !! name with
  | Some (AttributeValueMemberS s) => Ok s
  | Some AttributeValueMemberNULL | None => Ok ""
  | Some (AttributeValueMemberN _) => Err "unmarshal failed, cannot unmarshal number into Go value type string"
  end.

Definition time_field (item : Item) (name : string) : result Z :=
  match item !! name with
  | Some (AttributeValueMemberS s) => time.Parse s
  | Some AttributeValueMemberNULL | None => Ok time.zero
  | Some (AttributeValueMemberN _) => Err "unmarshal failed, cannot unmarshal number into Go value type time.Time"
  end.

Definition int_field (item : Item) (name : string) : result Z :=
  match item !! name with
  | Some (AttributeValueMemberN n) =>
    if ((- 2 ^ 63 <=? n) && (n <? 2 ^ 63))%Z then Ok n
    else Err "unmarshal failed, number overflow"
  | Some AttributeValueMemberNULL | None => Ok 0%Z
  | Some (AttributeValueMemberS _) => Err "unmarshal failed, cannot unmarshal string into Go value type int"
  end.

(** The package as the program configures it: default options, times as
    RFC 3339 text. An attribute is matched with a field by its exact
    name. *)
Definition standard : Codec := {|
  MarshalMap m := Ok (
    <[ "short_url" := AttributeValueMemberS (ShortURL m) ]> (
    <[ "long_url" := AttributeValueMemberS (LongURL m) ]> (
    <[ "created_at" := AttributeValueMemberS (time.RFC3339Nano (CreatedAt m)) ]> (
    <[ "access_count" := AttributeValueMemberN (AccessCount m) ]> ∅))));
  MarshalStringMap k := Ok (AttributeValueMemberS <$> k);
  UnmarshalMap item :=
    match string_field item "short_url", string_field item "long_url",
          time_field item "created_at", int_field item "access_count" with
    | Ok short, Ok long, Ok created, Ok count =>
      Ok {| ShortURL := short; LongURL := long; CreatedAt := created; AccessCount := count |}
    | Err e, _, _, _ | _, Err e, _, _ | _, _, Err e, _ | _, _, _, Err e => Err e
    end
|}.

(** The package with an encoder that gives up, as one configured with a
    failing [EncodeTime] does. *)
Definition refusing (e : string) : Codec := {|
  MarshalMap _ := Err e;
  MarshalStringMap := @MarshalStringMap standard;
  UnmarshalMap := @UnmarshalMap standard
|}.

End attributevalue.

(** ** The handler (package [main]) *)

Section handler.

Context {codec : attributevalue.Codec}.

Import attributevalue APIGatewayProxyRequest APIGatewayProxyResponse.

Definition Response : Type := APIGatewayProxyResponse.t * option string.

(** [s[:n]]: panics when [s] has fewer than [n] bytes. *)
Definition slice_to (n : nat) (s : string) : M string :=
  if (n <=? String.length s)%nat then mret (substring 0 n s)
  else panic "runtime error: slice bounds out of range".

(** generateShortURL creates a new short URL. Uses a timestamp. *)
Definition generateShortURL : M string :=
  now ← time_Now;
  slice_to 8 (strconv.FormatInt (time.UnixNano now)).

(** createShortURL handles POST requests to create new short URLs. *)
Definition createShortURL (request : APIGatewayProxyRequest.t) : M Response :=
  match json.Unmarshal (APIGatewayProxyRequest.Body request) with
  | Err _ =>
    mret ({| StatusCode := 400; Headers := ∅; Body := "Invalid request body" |}, None)
  | Ok createReq =>
    shortURL ← generateShortURL;
    now ← time_Now;
    let urlMapping := {|
      ShortURL := shortURL;
      LongURL := CreateURLRequest.LongURL createReq;
      CreatedAt := now;
      AccessCount := 0
    |} in
    match MarshalMap urlMapping with
    | Err err =>
      mret ({| StatusCode := 500; Headers := ∅; Body := "Error marshaling item" |},
            Some err)
    | Ok item =>
      err ← dynamodb.PutItem item;
      match err with
      | Some err =>
        mret ({| StatusCode := 500; Headers := ∅; Body := "Error saving to DynamoDB" |},
              Some err)
      | None =>
        mret ({| StatusCode := 201;
                 Headers := {[ "Content-Type" := "application/json" ]};
                 Body := json.Marshal urlMapping |}, None)
      end
    end
  end.

(** getOriginalURL handles GET requests to redirect short URLs. *)
Definition getOriginalURL (request : APIGatewayProxyRequest.t) : M Response :=
  let shortURL := default "" (PathParameters request !! "shortURL") in
  match MarshalStringMap {[ "short_url" := shortURL ]} with
  | Err err =>
    mret ({| StatusCode := 500; Headers := ∅; Body := "Error creating key" |}, Some err)
  | Ok key =>
    '(result, err) ← dynamodb.GetItem key;
    match err with
    | Some err =>
      mret ({| StatusCode := 500; Headers := ∅; Body := "Error querying DynamoDB" |},
            Some err)
    | None =>
      match result with
      | None =>
        mret ({| StatusCode := 404; Headers := ∅; Body := "URL not found" |}, None)
      | Some item =>
        match UnmarshalMap item with
        | Err err =>
          mret ({| StatusCode := 500; Headers := ∅; Body := "Error unmarshaling item" |},
                Some err)
        | Ok urlMapping =>
          err ← dynamodb.UpdateItem {|
            Key := key;
            UpdateExpression := "SET access_count + :inc";
            ExpressionAttributeValues := {[ ":inc" := AttributeValueMemberN 1 ]}
          |};
          _ ← match err with
              | Some err => log_Printf ("Error updating access count :" ++ err)
              | None => mret tt
              end;
          mret ({| StatusCode := 301;
                   Headers := {[ "Location" := LongURL urlMapping ]};
                   Body := "" |}, None)
        end
      end
    end
  end.

(** handleRequest is the main Lambda handler function. It routes requests
    based on HTTP method. *)
Definition handleRequest (request : APIGatewayProxyRequest.t) : M Response :=
  if String.eqb (HTTPMethod request) "POST" then createShortURL request
  else if String.eqb (HTTPMethod request) "GET" then getOriginalURL request
  else mret ({| StatusCode := 405; Headers := ∅; Body := "Method not allowed" |}, None).

End handler.

(** ** Vocabulary of the properties *)

(** The short code a request asks for. *)
Definition shortURL_of (request : APIGatewayProxyRequest.t) : string :=
  default "" (APIGatewayProxyRequest.PathParameters request !! "shortURL").

(** The key that [getOriginalURL] looks a short code up by. *)
Definition key_for (shortURL : string) : Item :=
  {[ "short_url" := AttributeValueMemberS shortURL ]}.

(** The update that [getOriginalURL] sends. *)
Definition increment (key : Item) : UpdateItemInput :=
  {| Key := key;
     UpdateExpression := "SET access_count + :inc";
     ExpressionAttributeValues := {[ ":inc" := AttributeValueMemberN 1 ]} |}.

(** The responses of the handler. *)
Definition plain (code : Z) (body : string) : APIGatewayProxyResponse.t :=
  {| APIGatewayProxyResponse.StatusCode := code;
     APIGatewayProxyResponse.Headers := ∅;
     APIGatewayProxyResponse.Body := body |}.

Definition redirect (target : string) : APIGatewayProxyResponse.t :=
  {| APIGatewayProxyResponse.StatusCode := 301;
     APIGatewayProxyResponse.Headers := {[ "Location" := target ]};
     APIGatewayProxyResponse.Body := "" |}.

Definition created (m : URLMapping) : APIGatewayProxyResponse.t :=
  {| APIGatewayProxyResponse.StatusCode := 201;
     APIGatewayProxyResponse.Headers := {[ "Content-Type" := "application/json" ]};
     APIGatewayProxyResponse.Body := json.Marshal m |}.

(** The counter of the item stored under a short code, if there is one. *)
Definition access_count (w : World) (shortURL : string) : option Z :=
  match table w !! shortURL with
  | Some item =>
    match item !! "access_count" with
    | Some (AttributeValueMemberN n) => Some n
    | _ => None
    end
  | None => None
  end.

(** A text made of decimal digits only. *)
Fixpoint all_digits (s : string) : bool :=
  match s with
  | EmptyString => true
  | String c rest => isDigit c && all_digits rest
  end.

(** [n] calls of [getOriginalURL] with the same request, one after the
    other, and their responses in order. *)
Fixpoint resolves `{codec : attributevalue.Codec} (n : nat)
    (request : APIGatewayProxyRequest.t) : M (list Response) :=
  match n with
  | O => mret []
  | S n' =>
    r ← getOriginalURL request;
    rs ← resolves n' request;
    mret (r :: rs)
  end.

(** The target of a redirect. *)
Definition Location (r : Response) : option string :=
  APIGatewayProxyResponse.Headers r.1 !! "Location".

(** A world to run examples in: an empty table, a clock in November 2023
    that advances by a nanosecond per reading, a service that answers every
    request. *)
Definition fresh : World :=
  {| table := ∅;
     clock := fun n => (1700000000123456000 + Z.of_nat n)%Z;
     ticks := 0;
     fault := fun _ => None;
     trace := [];
     logs := [] |}.

(** The same world with a service that answers the [n]-th request with an
    error. *)
Definition failing_at (n : nat) (e : string) (w : World) : World :=
  {| table := table w; clock := clock w; ticks := ticks w;
     fault := fun i => if (i =? n)%nat then Some e else fault w i;
     trace := trace w; logs := logs w |}.

(** A text of ASCII bytes that JSON writes as they are. *)
Fixpoint all_safe (s : string) : bool :=
  match s with
  | EmptyString => true
  | String c rest => json.htmlSafe c && all_safe rest
  end.

(** The value of a member of a JSON object. *)
Fixpoint member (name : string) (ms : list (string * json.value)) : option json.value :=
  match ms with
  | [] => None
  | (key, v) :: ms' => if String.eqb key name then Some v else member name ms'
  end.

(** The short code that a client reads in the body of a response. *)
Definition returned_short_url (resp : APIGatewayProxyResponse.t) : option string :=
  match json.parse (APIGatewayProxyResponse.Body resp) with
  | Some (json.Object ms) =>
    match member "short_url" ms with
    | Some (json.Str code) => Some code
    | _ => None
    end
  | _ => None
  end.

Definition POST (body : string) : APIGatewayProxyRequest.t :=
  {| APIGatewayProxyRequest.HTTPMethod := "POST";
     APIGatewayProxyRequest.PathParameters := ∅;
     APIGatewayProxyRequest.Body := body |}.

Definition GET (shortURL : string) : APIGatewayProxyRequest.t :=
  {| APIGatewayProxyRequest.HTTPMethod := "GET";
     APIGatewayProxyRequest.PathParameters := {[ "shortURL" := shortURL ]};
     APIGatewayProxyRequest.Body := "" |}.

(** A GET request with the given path parameters. *)
Definition GET_with (parameters : gmap string string) : APIGatewayProxyRequest.t :=
  {| APIGatewayProxyRequest.HTTPMethod := "GET";
     APIGatewayProxyRequest.PathParameters := parameters;
     APIGatewayProxyRequest.Body := "" |}.

(** The scenario of the specification: the request that creates a short
    code for [https://example.com], the record that comes of it in
    [fresh], the item stored for it, and the world after the request. *)
Definition example_body : string :=
  json.MarshalRequest {| CreateURLRequest.LongURL := "https://example.com" |}.

Definition example_record : URLMapping :=
  {| ShortURL := "17000000";
     LongURL := "https://example.com";
     CreatedAt := 1700000000123456001;
     AccessCount := 0 |}.

Definition example_item : Item :=
  <[ "short_url" := AttributeValueMemberS "17000000" ]> (
  <[ "long_url" := AttributeValueMemberS "https://example.com" ]> (
  <[ "created_at" := AttributeValueMemberS "2023-11-14T22:13:20.123456001Z" ]> (
  <[ "access_count" := AttributeValueMemberN 0 ]> ∅))).

Definition seeded : World :=
  (@createShortURL attributevalue.standard (POST example_body) fresh).2.

(** ** More vocabulary *)

(** The package with a key encoder that gives up. *)
Definition keyless (e : string) : attributevalue.Codec := {|
  attributevalue.MarshalMap := @attributevalue.MarshalMap attributevalue.standard;
  attributevalue.MarshalStringMap _ := Err e;
  attributevalue.UnmarshalMap := @attributevalue.UnmarshalMap attributevalue.standard
|}.

(** [fresh] with a clock that stands a little more than a millisecond past
    the epoch. *)
Definition early : World :=
  {| table := ∅; clock := fun _ => 1234567%Z; ticks := 0;
     fault := fun _ => None; trace := []; logs := [] |}.

(** [seeded] with a number where the item of the scenario should have its
    [long_url]. *)
Definition garbled : World :=
  stored (<[ "17000000" := <[ "long_url" := AttributeValueMemberN 5 ]> example_item ]> ∅)
    seeded.

(** A second request, for another URL. *)
Definition other_body : string :=
  json.MarshalRequest {| CreateURLRequest.LongURL := "https://other.example/" |}.

(** The requests that an invocation has added to the trace. *)
Definition create_traffic (calls : list Call) : Prop :=
  calls = [] \/ exists item, calls = [PutItemCall item].

Definition resolve_traffic (calls : list Call) : Prop :=
  calls = []
  \/ exists key, calls = [GetItemCall key]
                 \/ calls = [GetItemCall key; UpdateItemCall (increment key)].


(** A second request in the same hundred seconds, and what it stores. *)
Definition other_record : URLMapping :=
  {| ShortURL := "17000000";
     LongURL := "https://other.example/";
     CreatedAt := 1700000000123456003;
     AccessCount := 0 |}.

Definition other_item : Item :=
  <[ "short_url" := AttributeValueMemberS "17000000" ]> (
  <[ "long_url" := AttributeValueMemberS "https://other.example/" ]> (
  <[ "created_at" := AttributeValueMemberS "2023-11-14T22:13:20.123456003Z" ]> (
  <[ "access_count" := AttributeValueMemberN 0 ]> ∅))).

Definition overwritten : World :=
  stored (<[ "17000000" := other_item ]> (table seeded))
    (sent (PutItemCall other_item) (ticked (ticked seeded))).

(** * Properties *)

Import events APIGatewayProxyRequest APIGatewayProxyResponse attributevalue.

(** ** The collaborators on small inputs *)

Example FormatInt_now :
  strconv.FormatInt 1700000000123456000 = "1700000000123456000".
Proof. reflexivity. Qed.

Example FormatInt_negative : strconv.FormatInt (-15) = "-15".
Proof. reflexivity. Qed.

Example FormatInt_min : strconv.FormatInt (- 2 ^ 63) = "-9223372036854775808".
Proof. reflexivity. Qed.

Example UnixNano_wraps : time.UnixNano (2 ^ 63) = (- 2 ^ 63)%Z.
Proof. reflexivity. Qed.

Example RFC3339Nano_now :
  time.RFC3339Nano 1700000000123456000 = "2023-11-14T22:13:20.123456Z".
Proof. reflexivity. Qed.

Example RFC3339Nano_leap_day : time.RFC3339Nano 1709164800000000000 = "2024-02-29T00:00:00Z".
Proof. reflexivity. Qed.

Example RFC3339Nano_before_epoch :
  time.RFC3339Nano (-1) = "1969-12-31T23:59:59.999999999Z".
Proof. reflexivity. Qed.

Example Parse_offset :
  time.Parse "2023-11-14T23:13:20.5+01:00" = Ok 1700000000500000000%Z.
Proof. reflexivity. Qed.

Example Parse_no_such_day :
  result_ok (time.Parse "2023-02-29T23:13:20Z") = None.
Proof. reflexivity. Qed.

Example parse_example_body :
  json.parse example_body
  = Some (json.Object [("long_url", json.Str "https://example.com")]).
Proof. reflexivity. Qed.

Example parse_nested :
  json.parse " [1, 2.5e+3, -0, true, false, null, {}] "
  = Some (json.Array [json.Number "1"; json.Number "2.5e+3"; json.Number "-0";
                      json.Bool true; json.Bool false; json.Null; json.Object []]).
Proof. reflexivity. Qed.

Example parse_leading_zero : json.parse "01" = None.
Proof. reflexivity. Qed.

Example parse_trailing_comma : json.parse "[1,]" = None.
Proof. reflexivity. Qed.

Example parse_empty : json.parse "" = None.
Proof. reflexivity. Qed.

(** A surrogate pair is one code point; a lone half is U+FFFD. *)
Example unquote_surrogates :
  json.unquote (json.Copy 0) ("😀\ud83d" ++ String dquote "")
  = Some (utf8.EncodeRune 0x1F600 ++ utf8.RuneError, "").
Proof. reflexivity. Qed.

(** A byte that is not UTF-8 is read as U+FFFD. *)
Example unquote_bad_byte :
  json.unquote (json.Copy 0) (String (utf8.chr 0xC0) (String dquote ""))
  = Some (utf8.RuneError, "").
Proof. reflexivity. Qed.

Example Unmarshal_example :
  json.Unmarshal example_body = Ok {| CreateURLRequest.LongURL := "https://example.com" |}.
Proof. reflexivity. Qed.

Example Unmarshal_other_case :
  json.Unmarshal ("{" ++ quoted "Long_URL" ++ ":" ++ quoted "x" ++ "}")
  = Ok {| CreateURLRequest.LongURL := "x" |}.
Proof. reflexivity. Qed.

Example Unmarshal_null : json.Unmarshal "null" = Ok {| CreateURLRequest.LongURL := "" |}.
Proof. reflexivity. Qed.

Example Unmarshal_null_member :
  json.Unmarshal ("{" ++ quoted "long_url" ++ ":null}")
  = Ok {| CreateURLRequest.LongURL := "" |}.
Proof. reflexivity. Qed.

Example Unmarshal_number : result_ok (json.Unmarshal ("{" ++ quoted "long_url" ++ ":5}")) = None.
Proof. reflexivity. Qed.

Example Unmarshal_array : result_ok (json.Unmarshal "[]") = None.
Proof. reflexivity. Qed.

Example Unmarshal_not_json : result_ok (json.Unmarshal "long_url=x") = None.
Proof. reflexivity. Qed.

Example Marshal_example :
  json.Marshal example_record
  = "{" ++ quoted "short_url" ++ ":" ++ quoted "17000000" ++ ","
        ++ quoted "long_url" ++ ":" ++ quoted "https://example.com" ++ ","
        ++ quoted "created_at" ++ ":" ++ quoted "2023-11-14T22:13:20.123456001Z" ++ ","
        ++ quoted "access_count" ++ ":0}".
Proof. reflexivity. Qed.

Example encode_html : json.encode (json.Copy 0) "a<b>&c" = "a\u003cb\u003e\u0026c".
Proof. reflexivity. Qed.

Example MarshalMap_example : @MarshalMap standard example_record = Ok example_item.
Proof. reflexivity. Qed.

(** Outside the range of [generateShortURL_eight_digits]: a clock that
    reads less than ten milliseconds past the epoch gives fewer than eight
    digits, and the slice panics. *)
Example generateShortURL_at_the_epoch :
  exists w,
    generateShortURL
      {| table := ∅; clock := fun _ => 1234567%Z; ticks := 0; fault := fun _ => None;
         trace := []; logs := [] |}
    = (Panic "runtime error: slice bounds out of range", w).
Proof. eexists. reflexivity. Qed.

(** ** The store *)

Ltac run :=
  unfold mbind, M_bind, mret, M_ret, dynamodb.send, dynamodb.get_table,
    dynamodb.set_table, log_Printf, time_Now, panic; cbn.

Lemma generateShortURL_run (w : World) :
  generateShortURL w
  = let text := strconv.FormatInt (time.UnixNano (clock w (ticks w))) in
    if (8 <=? String.length text)%nat then (Return (substring 0 8 text), ticked w)
    else (Panic "runtime error: slice bounds out of range", ticked w).
Proof.
  unfold generateShortURL, slice_to, time_Now, mbind, M_bind. cbv zeta.
  by destruct (8 <=? _)%nat.
Qed.

Lemma PutItem_run (item : Item) (w : World) :
  dynamodb.PutItem item w
  = match fault w (length (trace w)) with
    | Some e => (Return (Some e), sent (PutItemCall item) w)
    | None =>
      match item !! "short_url" with
      | Some (AttributeValueMemberS k) =>
        (Return None, stored (<[ k := item ]> (table w)) (sent (PutItemCall item) w))
      | _ => (Return (Some dynamodb.validation), sent (PutItemCall item) w)
      end
    end.
Proof.
  unfold dynamodb.PutItem, dynamodb.send, dynamodb.hashKey, mbind, M_bind.
  destruct (fault w (length (trace w))); [reflexivity|].
  by destruct (item !! "short_url") as [[]|].
Qed.

Lemma key_of_key_for (k : string) : dynamodb.key_of (key_for k) = Some k.
Proof.
  unfold dynamodb.key_of, key_for, dynamodb.hashKey.
  rewrite lookup_singleton_eq. by rewrite decide_True.
Qed.

Lemma marshal_key `{CodecSpec} (k : string) :
  MarshalStringMap {[ "short_url" := k ]} = Ok (key_for k).
Proof. rewrite marshal_string_map. unfold key_for. by rewrite map_fmap_singleton. Qed.

Lemma GetItem_answered (k : string) (w : World) :
  fault w (length (trace w)) = None ->
  dynamodb.GetItem (key_for k) w
  = (Return (table w !! k, None), sent (GetItemCall (key_for k)) w).
Proof.
  intros Hf. unfold dynamodb.GetItem. run. rewrite Hf, key_of_key_for. reflexivity.
Qed.

Lemma GetItem_refused (k e : string) (w : World) :
  fault w (length (trace w)) = Some e ->
  dynamodb.GetItem (key_for k) w
  = (Return (None, Some e), sent (GetItemCall (key_for k)) w).
Proof. intros Hf. unfold dynamodb.GetItem. run. by rewrite Hf. Qed.

(** An update always returns. Refused, it leaves the table as it is;
    accepted, it moves the counter of the item it is keyed by. *)
Lemma UpdateItem_cases (input : UpdateItemInput) (w : World) :
  (exists e, dynamodb.UpdateItem input w = (Return (Some e), sent (UpdateItemCall input) w))
  \/ (exists k item n d,
        dynamodb.key_of (Key input) = Some k /\ table w !! k = Some item
        /\ item !! "access_count" = Some (AttributeValueMemberN n)
        /\ ExpressionAttributeValues input !! ":inc" = Some (AttributeValueMemberN d)
        /\ dynamodb.UpdateItem input w
           = (Return None,
              stored (<[ k := <[ "access_count" := AttributeValueMemberN (n + d) ]> item ]> (table w))
                (sent (UpdateItemCall input) w))).
Proof.
  unfold dynamodb.UpdateItem. run.
  destruct (fault w (length (trace w))) as [e|]; [left; by exists e|].
  destruct (dynamodb.key_of (Key input)) as [k|]; [|left; by eexists].
  cbn. destruct (table w !! k) as [item|] eqn:Hk; [|left; by eexists].
  destruct (item !! "access_count") as [[?|n|]|] eqn:Hn; try (left; by eexists).
  destruct (ExpressionAttributeValues input !! ":inc") as [[?|d|]|] eqn:Hd;
    try (left; by eexists).
  right. exists k, item, n, d. by rewrite Hk.
Qed.

Lemma UpdateItem_returns (input : UpdateItemInput) (w : World) :
  exists err w', dynamodb.UpdateItem input w = (Return err, w')
    /\ trace w' = (trace w ++ [UpdateItemCall input])%list
    /\ logs w' = logs w /\ ticks w' = ticks w /\ clock w' = clock w /\ fault w' = fault w
    /\ (forall e, err = Some e -> table w' = table w).
Proof.
  destruct (UpdateItem_cases input w) as [[e ->]|(k & item & n & d & _ & _ & _ & _ & ->)].
  - by exists (Some e), (sent (UpdateItemCall input) w).
  - eexists None, _. split; [reflexivity|]. by repeat split.
Qed.

Lemma UpdateItem_refused (input : UpdateItemInput) (e : string) (w : World) :
  fault w (length (trace w)) = Some e ->
  dynamodb.UpdateItem input w = (Return (Some e), sent (UpdateItemCall input) w).
Proof. intros Hf. unfold dynamodb.UpdateItem. run. by rewrite Hf. Qed.

(** ** The handler's paths *)

Section paths.

Context `{spec : CodecSpec}.

(** What [getOriginalURL] does once the lookup has found an item that
    decodes: it sends the update, writes the update's error, if any, to the
    log, and redirects. *)
Lemma getOriginalURL_found request w item m :
  fault w (length (trace w)) = None ->
  table w !! shortURL_of request = Some item ->
  UnmarshalMap item = Ok m ->
  exists err w',
    dynamodb.UpdateItem (increment (key_for (shortURL_of request)))
      (sent (GetItemCall (key_for (shortURL_of request))) w) = (Return err, w')
    /\ getOriginalURL request w
       = (Return (redirect (LongURL m), None),
          match err with
          | Some e => logged ("Error updating access count :" ++ e) w'
          | None => w'
          end).
Proof.
  intros Hf Hit Hm.
  destruct (UpdateItem_returns (increment (key_for (shortURL_of request)))
              (sent (GetItemCall (key_for (shortURL_of request))) w))
    as (err & w' & Hu & _).
  exists err, w'. split; [exact Hu|].
  unfold getOriginalURL. fold (shortURL_of request). rewrite marshal_key.
  unfold mbind at 1, M_bind at 1. rewrite (GetItem_answered _ _ Hf), Hit, Hm.
  fold (increment (key_for (shortURL_of request))).
  unfold mbind at 1, M_bind at 1. rewrite Hu.
  destruct err; reflexivity.
Qed.

End paths.

(** ** The router *)

Section router.

Context {codec : Codec}.

Lemma GetItem_returns (key : Item) (w : World) :
  exists r, dynamodb.GetItem key w = (Return r, sent (GetItemCall key) w).
Proof.
  unfold dynamodb.GetItem. run.
  destruct (fault w (length (trace w))); [by eexists|].
  destruct (dynamodb.key_of key); by eexists.
Qed.

(** [getOriginalURL] never panics, never reads the clock, and answers with
    one of three status codes. *)
Lemma getOriginalURL_returns request w :
  exists resp err w',
    getOriginalURL request w = (Return (resp, err), w')
    /\ ticks w' = ticks w
    /\ (StatusCode resp = 500 \/ StatusCode resp = 404 \/ StatusCode resp = 301)%Z.
Proof.
  unfold getOriginalURL.
  destruct (MarshalStringMap _) as [key|e]; [|run; eexists _, _, _; eauto].
  unfold mbind at 1, M_bind at 1.
  destruct (GetItem_returns key w) as [[it err] ->].
  destruct err as [e|]; [run; eexists _, _, _; eauto|].
  destruct it as [item|]; [|run; eexists _, _, _; eauto 6].
  destruct (UnmarshalMap item) as [m|e]; [|run; eexists _, _, _; eauto].
  unfold mbind at 1, M_bind at 1.
  destruct (UpdateItem_returns (increment key) (sent (GetItemCall key) w))
    as (err & w' & Hu & _ & _ & Ht & _).
  unfold increment in Hu. rewrite Hu.
  destruct err; run; eexists _, _, _; (split; [reflexivity|]); cbn; eauto 6.
Qed.

(** [createShortURL] either refuses the body and leaves the world alone, or
    reads the clock. *)
Lemma createShortURL_400_or_ticks request w :
  createShortURL request w = (Return (plain 400 "Invalid request body", None), w)
  \/ (ticks w < ticks (createShortURL request w).2)%nat.
Proof.
  unfold createShortURL.
  destruct (json.Unmarshal _) as [createReq|e]; [right|by left].
  unfold mbind at 1, M_bind at 1. rewrite generateShortURL_run. cbv zeta.
  destruct (8 <=? _)%nat; [|cbn; lia].
  unfold mbind at 1, M_bind at 1, time_Now at 1.
  destruct (MarshalMap _) as [item|e]; [|cbn; lia].
  unfold mbind at 1, M_bind at 1. rewrite PutItem_run.
  destruct (fault _ _); [cbn; lia|].
  destruct (item !! "short_url") as [[]|]; cbn; lia.
Qed.

Lemma createShortURL_neq_getOriginalURL request :
  createShortURL request <> getOriginalURL request.
Proof.
  intros E.
  pose (w := {| table := ∅; clock := fun _ => 0%Z; ticks := 0;
                fault := fun _ => None; trace := []; logs := [] |}).
  clearbody w.
  destruct (getOriginalURL_returns request w) as (resp & err & w' & Hg & Ht & Hs).
  destruct (createShortURL_400_or_ticks request w) as [Hc|Hc]; rewrite E, Hg in Hc.
  - injection Hc as -> _ _. cbn in Hs. intuition discriminate.
  - cbn in Hc. lia.
Qed.

(** C5. The router hands a request to [createShortURL] exactly when its
    method is POST and to [getOriginalURL] exactly when its method is GET;
    a request with any other method is answered with 405 "Method not
    allowed" and the world, the table and the trace of store requests
    with it, stays as it was. *)
Theorem handleRequest_routes request :
  (handleRequest request = createShortURL request <-> HTTPMethod request = "POST")
  /\ (handleRequest request = getOriginalURL request <-> HTTPMethod request = "GET")
  /\ (HTTPMethod request <> "POST" -> HTTPMethod request <> "GET" ->
      forall w, handleRequest request w
                = (Return ({| StatusCode := 405; Headers := ∅;
                              Body := "Method not allowed" |}, None), w)).
Proof.
  pose (w := {| table := ∅; clock := fun _ => 0%Z; ticks := 0;
                fault := fun _ => None; trace := []; logs := [] |}).
  clearbody w.
  assert (Hnot : forall h : M Response,
             h = mret ({| StatusCode := 405; Headers := ∅;
                          Body := "Method not allowed" |}, None) ->
             h <> createShortURL request /\ h <> getOriginalURL request).
  { intros h ->. split; intros E.
    - destruct (createShortURL_400_or_ticks request w) as [Hc|Hc]; rewrite <- E in Hc.
      + discriminate Hc.
      + cbn in Hc. lia.
    - destruct (getOriginalURL_returns request w) as (resp & err & w' & Hg & _ & Hs).
      rewrite <- E in Hg. injection Hg as <- _ _. cbn in Hs. intuition discriminate. }
  unfold handleRequest.
  destruct (String.eqb_spec (HTTPMethod request) "POST") as [HP|HP].
  - repeat split; try done.
    + intros E. exfalso. by apply (createShortURL_neq_getOriginalURL request).
    + intros HG. rewrite HP in HG. discriminate.
  - destruct (String.eqb_spec (HTTPMethod request) "GET") as [HG|HG].
    + repeat split; try done.
      intros E. exfalso. by apply (createShortURL_neq_getOriginalURL request).
    + destruct (Hnot _ eq_refl) as [H1 H2]. repeat split; try done.
Qed.

End router.

(** ** The standard codec meets its specification *)

Lemma standard_marshal (m : URLMapping) (item : Item) :
  @MarshalMap standard m = Ok item ->
  item !! "short_url" = Some (AttributeValueMemberS (ShortURL m))
  /\ item !! "long_url" = Some (AttributeValueMemberS (LongURL m))
  /\ item !! "access_count" = Some (AttributeValueMemberN (AccessCount m)).
Proof. intros [= <-]. by repeat split. Qed.

#[global] Instance standard_spec : CodecSpec standard.
Proof.
  split.
  - intros m item Hm. by apply standard_marshal in Hm as (? & ? & ?).
  - intros m item Hm. by apply standard_marshal in Hm as (? & ? & ?).
  - reflexivity.
  - intros m item m' Hm. apply standard_marshal in Hm as (_ & Hl & _).
    cbn. unfold string_field at 2. rewrite Hl.
    destruct (string_field item "short_url"), (time_field item "created_at"),
      (int_field item "access_count"); by intros [= <-].
  - intros item v m m'. cbn.
    unfold string_field at 2 4. rewrite lookup_insert_ne by done.
    destruct (item !! "long_url") as [[]|];
      destruct (string_field item "short_url"), (time_field item "created_at"),
        (int_field item "access_count"),
        (string_field (<["access_count":=v]> item) "short_url"),
        (time_field (<["access_count":=v]> item) "created_at"),
        (int_field (<["access_count":=v]> item) "access_count");
      intros [= <-] [= <-]; reflexivity.
Qed.

(** ** Resolving *)

Section resolve.

Context `{spec : CodecSpec}.

(** Every path of [getOriginalURL], by what the lookup meets. *)
Lemma getOriginalURL_paths request w :
  let key := key_for (shortURL_of request) in
  let w0 := sent (GetItemCall key) w in
  match fault w (length (trace w)) with
  | Some e =>
    getOriginalURL request w = (Return (plain 500 "Error querying DynamoDB", Some e), w0)
  | None =>
    match table w !! shortURL_of request with
    | None => getOriginalURL request w = (Return (plain 404 "URL not found", None), w0)
    | Some item =>
      match UnmarshalMap item with
      | Err e =>
        getOriginalURL request w
        = (Return (plain 500 "Error unmarshaling item", Some e), w0)
      | Ok m =>
        exists err w1,
          dynamodb.UpdateItem (increment key) w0 = (Return err, w1)
          /\ getOriginalURL request w
             = (Return (redirect (LongURL m), None),
                match err with
                | Some e => logged ("Error updating access count :" ++ e) w1
                | None => w1
                end)
      end
    end
  end.
Proof.
  intros key w0.
  destruct (fault w (length (trace w))) as [e|] eqn:Hf.
  { unfold getOriginalURL. fold (shortURL_of request). rewrite marshal_key.
    unfold mbind at 1, M_bind at 1. by rewrite (GetItem_refused _ _ _ Hf). }
  destruct (table w !! shortURL_of request) as [item|] eqn:Hit.
  - destruct (UnmarshalMap item) as [m|e] eqn:Hm.
    + by apply (getOriginalURL_found request w item m).
    + unfold getOriginalURL. fold (shortURL_of request). rewrite marshal_key.
      unfold mbind at 1, M_bind at 1. by rewrite (GetItem_answered _ _ Hf), Hit, Hm.
  - unfold getOriginalURL. fold (shortURL_of request). rewrite marshal_key.
    unfold mbind at 1, M_bind at 1. by rewrite (GetItem_answered _ _ Hf), Hit.
Qed.

(** C6. When the lookup is answered and the table holds no item for the
    short code, [getOriginalURL] returns 404 "URL not found" with a nil
    error; it has sent the lookup and nothing else, and the table and the
    log are as before. *)
Theorem resolve_not_found request w :
  fault w (length (trace w)) = None ->
  table w !! shortURL_of request = None ->
  exists w',
    getOriginalURL request w
    = (Return ({| StatusCode := 404; Headers := ∅; Body := "URL not found" |}, None), w')
    /\ table w' = table w
    /\ trace w' = (trace w ++ [GetItemCall (key_for (shortURL_of request))])%list
    /\ logs w' = logs w.
Proof.
  intros Hf Hit. pose proof (getOriginalURL_paths request w) as H.
  cbv zeta in H. rewrite Hf, Hit in H. eexists. split; [exact H|]. by repeat split.
Qed.

(** C7. When the lookup is answered with an item that decodes to a record,
    [getOriginalURL] returns 301 with the single header [Location] set to
    the record's [long_url], an empty body and a nil error. *)
Theorem resolve_redirects request w item m :
  fault w (length (trace w)) = None ->
  table w !! shortURL_of request = Some item ->
  UnmarshalMap item = Ok m ->
  exists w',
    getOriginalURL request w
    = (Return ({| StatusCode := 301;
                  Headers := {[ "Location" := LongURL m ]};
                  Body := "" |}, None), w').
Proof.
  intros Hf Hit Hm.
  destruct (getOriginalURL_found request w item m Hf Hit Hm) as (err & w' & _ & ->).
  by eexists.
Qed.

(** C3. When the lookup has found a record, [getOriginalURL] sends one
    update that asks to add 1 to [access_count] under the record's key.
    Whatever the update returns, the response is the 301 redirect with a
    nil error; an error of the update shows in one line of the log and
    nowhere else, and the table is then as it was. *)
Theorem increment_failure_only_logged request w item m :
  fault w (length (trace w)) = None ->
  table w !! shortURL_of request = Some item ->
  UnmarshalMap item = Ok m ->
  let key := key_for (shortURL_of request) in
  exists err w1 w',
    dynamodb.UpdateItem (increment key) (sent (GetItemCall key) w) = (Return err, w1)
    /\ getOriginalURL request w
       = (Return ({| StatusCode := 301;
                     Headers := {[ "Location" := LongURL m ]};
                     Body := "" |}, None), w')
    /\ trace w' = (trace w ++ [GetItemCall key; UpdateItemCall (increment key)])%list
    /\ ExpressionAttributeValues (increment key) !! ":inc" = Some (AttributeValueMemberN 1)
    /\ (forall e, fault w (S (length (trace w))) = Some e -> err = Some e)
    /\ (forall e, err = Some e ->
          table w' = table w
          /\ logs w' = (logs w ++ [("Error updating access count :" ++ e)%string])%list)
    /\ (err = None -> logs w' = logs w).
Proof.
  intros Hf Hit Hm key.
  destruct (getOriginalURL_found request w item m Hf Hit Hm) as (err & w1 & Hu & Hg).
  fold key in Hu.
  destruct (UpdateItem_returns (increment key) (sent (GetItemCall key) w))
    as (err' & w1' & Hu' & Htr & Hlg & _ & _ & _ & Htb).
  rewrite Hu in Hu'. injection Hu' as <- <-.
  exists err, w1, (match err with
                   | Some e => logged ("Error updating access count :" ++ e) w1
                   | None => w1
                   end).
  split; [exact Hu|]. split; [exact Hg|].
  split; [destruct err; cbn; rewrite Htr; cbn; by rewrite <- app_assoc|].
  split; [reflexivity|].
  split; [|split].
  - intros e He.
    rewrite (UpdateItem_refused (increment key) e) in Hu; [congruence|].
    cbn. rewrite length_app. cbn. by rewrite Nat.add_1_r.
  - intros e ->. cbn. split; [by apply (Htb e)|by rewrite Hlg].
  - intros ->. exact Hlg.
Qed.

(** C10. A request without a [shortURL] path parameter is resolved like
    one whose parameter is the empty string: the first thing
    [getOriginalURL] does is to look the empty key up in the table, and its
    answer is one of 500, 404 and 301, as for any other short code. *)
Theorem resolve_without_shortURL request w :
  PathParameters request !! "shortURL" = None ->
  shortURL_of request = ""
  /\ getOriginalURL request = getOriginalURL (GET "")
  /\ exists resp err w' calls,
       getOriginalURL request w = (Return (resp, err), w')
       /\ trace w' = (trace w ++ GetItemCall (key_for "") :: calls)%list
       /\ (StatusCode resp = 500 \/ StatusCode resp = 404 \/ StatusCode resp = 301)%Z.
Proof.
  intros Hp.
  assert (Hs : shortURL_of request = "") by (unfold shortURL_of; by rewrite Hp).
  split; [exact Hs|]. split.
  { unfold getOriginalURL. fold (shortURL_of request). by rewrite Hs. }
  pose proof (getOriginalURL_paths request w) as H. cbv zeta in H. rewrite Hs in H.
  destruct (fault w (length (trace w))) as [e|].
  { eexists _, _, _, []. split; [exact H|]. split; [reflexivity|by left]. }
  destruct (table w !! "") as [item|].
  - destruct (UnmarshalMap item) as [m|e].
    + destruct H as (err & w1 & Hu & Hg).
      destruct (UpdateItem_returns (increment (key_for "")) (sent (GetItemCall (key_for "")) w))
        as (err' & w1' & Hu' & Htr & _).
      rewrite Hu in Hu'. injection Hu' as <- <-.
      eexists _, _, _, [_]. split; [exact Hg|]. split; [|by right; right].
      destruct err; cbn; rewrite Htr; cbn; by rewrite <- app_assoc.
    + eexists _, _, _, []. split; [exact H|]. split; [reflexivity|by left].
  - eexists _, _, _, []. split; [exact H|]. split; [reflexivity|]. right. by left.
Qed.

End resolve.

(** ** Strings and decimal text *)

(** The reduction tactics leave [String.append] folded; these two
    equations unfold it. *)
Lemma append_nil_l (s : string) : "" ++ s = s.
Proof. reflexivity. Qed.

Lemma append_cons (c : ascii) (a b : string) : String c a ++ b = String c (a ++ b).
Proof. reflexivity. Qed.

Lemma append_assoc (a b c : string) : (a ++ b) ++ c = a ++ (b ++ c).
Proof.
  induction a as [|x a IH]; [reflexivity|]. rewrite !append_cons. by rewrite IH.
Qed.

Lemma append_nil_r (a : string) : a ++ "" = a.
Proof. induction a as [|x a IH]; [reflexivity|]. rewrite append_cons. by rewrite IH. Qed.

Lemma length_append (a b : string) :
  String.length (a ++ b) = (String.length a + String.length b)%nat.
Proof.
  induction a as [|x a IH]; [reflexivity|]. rewrite append_cons. cbn. by rewrite IH.
Qed.

Lemma all_digits_append (a b : string) :
  all_digits (a ++ b) = all_digits a && all_digits b.
Proof.
  induction a as [|x a IH]; [reflexivity|]. rewrite append_cons. cbn [all_digits].
  rewrite IH. by rewrite andb_assoc.
Qed.

Lemma length_substring_0 (n : nat) (s : string) :
  (n <= String.length s)%nat -> String.length (substring 0 n s) = n.
Proof.
  revert s. induction n as [|n IH]; intros [|c s] Hn; cbn in *; try lia; try reflexivity.
  rewrite IH; lia.
Qed.

Lemma all_digits_substring_0 (n : nat) (s : string) :
  all_digits s = true -> all_digits (substring 0 n s) = true.
Proof.
  revert s. induction n as [|n IH]; intros [|c s] Hs; cbn in *; try reflexivity.
  apply andb_true_iff in Hs as [-> Hs]. by apply IH.
Qed.

Lemma byte_digit (n : Z) :
  (0 <= n < 10)%Z -> utf8.byte (strconv.digit n) = (48 + Z.to_N n)%N.
Proof.
  intros Hn. unfold utf8.byte, strconv.digit. apply N_ascii_embedding. lia.
Qed.

Lemma isDigit_digit (n : Z) : (0 <= n < 10)%Z -> isDigit (strconv.digit n) = true.
Proof.
  intros Hn. unfold isDigit. rewrite byte_digit by exact Hn.
  apply andb_true_iff. split; apply N.leb_le; lia.
Qed.

(** The digits written for [n] are decimal digits, as many as [n] needs,
    and they read back as [n]. *)
Lemma digits_spec (fuel : nat) (n : Z) (acc : string) :
  (0 < fuel)%nat -> (0 <= n < 10 ^ Z.of_nat fuel)%Z ->
  exists ds,
    strconv.digits fuel n acc = ds ++ acc
    /\ all_digits ds = true
    /\ (n < 10 ^ Z.of_nat (String.length ds))%Z
    /\ forall a rest,
         strconv.value_of a (ds ++ rest)
         = strconv.value_of (a * 10 ^ Z.of_nat (String.length ds) + n) rest.
Proof.
  revert n acc. induction fuel as [|fuel IH]; intros n acc Hfuel Hn; [lia|].
  cbn [strconv.digits]. destruct (Z.ltb_spec n 10) as [Hlt|Hge].
  - exists (String (strconv.digit (n mod 10)) "").
    rewrite Z.mod_small by lia. rewrite append_cons, append_nil_l.
    cbn [String.length all_digits].
    rewrite isDigit_digit by lia. repeat split; [lia|].
    intros a rest. rewrite append_cons, append_nil_l.
    cbn [strconv.value_of]. rewrite isDigit_digit, byte_digit by lia.
    f_equal. lia.
  - assert (Hf : (0 < fuel)%nat).
    { destruct fuel; [|lia]. cbn in Hn. lia. }
    assert (Hdiv : (0 <= n / 10 < 10 ^ Z.of_nat fuel)%Z).
    { split; [apply Z.div_pos; lia|].
      apply Z.div_lt_upper_bound; [lia|].
      replace (Z.of_nat (S fuel)) with (Z.of_nat fuel + 1)%Z in Hn by lia.
      rewrite Z.pow_add_r in Hn by lia. lia. }
    destruct (IH (n / 10)%Z (String (strconv.digit (n mod 10)) acc) Hf Hdiv)
      as (ds & Hds & Hall & Hlen & Hval).
    pose proof (Z.mod_pos_bound n 10 ltac:(lia)) as Hmod.
    exists (ds ++ String (strconv.digit (n mod 10)) "").
    rewrite Hds, append_assoc, all_digits_append, Hall, length_append.
    cbn [String.length all_digits]. rewrite isDigit_digit by lia.
    replace (Z.of_nat (String.length ds + 1)) with (Z.of_nat (String.length ds) + 1)%Z by lia.
    rewrite Z.pow_add_r by lia.
    repeat split.
    + pose proof (Z.div_mod n 10 ltac:(lia)). lia.
    + intros a rest. rewrite append_assoc, append_cons, append_nil_l. rewrite Hval.
      cbn [strconv.value_of]. rewrite isDigit_digit, byte_digit by lia.
      f_equal. pose proof (Z.div_mod n 10 ltac:(lia)). lia.
Qed.

Lemma wrap64_range (z : Z) : (- 2 ^ 63 <= time.wrap64 z < 2 ^ 63)%Z.
Proof.
  unfold time.wrap64. pose proof (Z.mod_pos_bound (z + 2 ^ 63) (2 ^ 64) ltac:(lia)). lia.
Qed.

(** [FormatInt] of a non-negative 64-bit value. *)
Lemma FormatInt_spec (n : Z) :
  (0 <= n < 2 ^ 63)%Z ->
  all_digits (strconv.FormatInt n) = true
  /\ (n < 10 ^ Z.of_nat (String.length (strconv.FormatInt n)))%Z
  /\ strconv.value_of 0 (strconv.FormatInt n) = Some n.
Proof.
  intros Hn. unfold strconv.FormatInt.
  destruct (Z.ltb_spec n 0) as [|_]; [lia|].
  destruct (digits_spec 20 n "" ltac:(lia) ltac:(lia)) as (ds & Hds & Hall & Hlen & Hval).
  rewrite Hds, append_nil_r. split; [exact Hall|]. split; [exact Hlen|].
  rewrite <- (append_nil_r ds), Hval. cbn [strconv.value_of]. f_equal; lia.
Qed.

(** C4. [generateShortURL] reads the clock once, takes the reading as a
    count of nanoseconds, writes it in decimal and keeps the first eight
    characters. With a clock that reads ten milliseconds past the epoch or
    later, it returns, and the short code is eight decimal digits. *)
Theorem generateShortURL_eight_digits (w : World) :
  let now := time.UnixNano (clock w (ticks w)) in
  (10 ^ 7 <= now)%Z ->
  exists code,
    generateShortURL w = (Return code, ticked w)
    /\ strconv.value_of 0 (strconv.FormatInt now) = Some now
    /\ code = substring 0 8 (strconv.FormatInt now)
    /\ String.length code = 8%nat
    /\ all_digits code = true.
Proof.
  intros now Hnow.
  pose proof (wrap64_range (clock w (ticks w))) as Hr. fold (time.UnixNano (clock w (ticks w))) in Hr.
  fold now in Hr.
  destruct (FormatInt_spec now ltac:(lia)) as (Hall & Hlen & Hval).
  assert (H8 : (8 <= String.length (strconv.FormatInt now))%nat).
  { destruct (Nat.le_gt_cases 8 (String.length (strconv.FormatInt now))) as [|Hlt]; [done|].
    exfalso. assert (10 ^ Z.of_nat (String.length (strconv.FormatInt now)) <= 10 ^ 7)%Z.
    { apply Z.pow_le_mono_r; lia. }
    lia. }
  exists (substring 0 8 (strconv.FormatInt now)).
  rewrite generateShortURL_run. cbv zeta. fold now.
  apply Nat.leb_le in H8 as H8'. rewrite H8'.
  split; [reflexivity|]. split; [exact Hval|]. split; [reflexivity|].
  split; [by apply length_substring_0|by apply all_digits_substring_0].
Qed.

(** ** Creating *)

Section create.

Context {codec : Codec}.

(** Every path of [createShortURL]. *)
Lemma createShortURL_paths request w :
  createShortURL request w
  = match json.Unmarshal (APIGatewayProxyRequest.Body request) with
    | Err _ => (Return (plain 400 "Invalid request body", None), w)
    | Ok createReq =>
      let text := strconv.FormatInt (time.UnixNano (clock w (ticks w))) in
      let w2 := ticked (ticked w) in
      let m := {| ShortURL := substring 0 8 text;
                  LongURL := CreateURLRequest.LongURL createReq;
                  CreatedAt := clock w (S (ticks w));
                  AccessCount := 0 |} in
      if (8 <=? String.length text)%nat then
        match MarshalMap m with
        | Err e => (Return (plain 500 "Error marshaling item", Some e), w2)
        | Ok item =>
          match fault w (length (trace w)) with
          | Some e =>
            (Return (plain 500 "Error saving to DynamoDB", Some e),
             sent (PutItemCall item) w2)
          | None =>
            match item !! "short_url" with
            | Some (AttributeValueMemberS k) =>
              (Return (created m, None),
               stored (<[ k := item ]> (table w)) (sent (PutItemCall item) w2))
            | _ =>
              (Return (plain 500 "Error saving to DynamoDB", Some dynamodb.validation),
               sent (PutItemCall item) w2)
            end
          end
        end
      else (Panic "runtime error: slice bounds out of range", ticked w)
    end.
Proof.
  unfold createShortURL.
  destruct (json.Unmarshal _) as [createReq|e]; [|reflexivity].
  cbv zeta. unfold mbind at 1, M_bind at 1. rewrite generateShortURL_run. cbv zeta.
  destruct (8 <=? _)%nat; [|reflexivity].
  unfold mbind at 1, M_bind at 1, time_Now at 1. cbn [ticked ticks clock].
  destruct (MarshalMap _) as [item|e]; [|reflexivity].
  unfold mbind at 1, M_bind at 1. rewrite PutItem_run. cbn [ticked fault trace].
  destruct (fault w (length (trace w))); [reflexivity|].
  by destruct (item !! "short_url") as [[]|].
Qed.

(** C9. When the body has been decoded and the short code generated and
    [MarshalMap] then fails on the record, [createShortURL] returns 500
    "Error marshaling item" together with the encoder's error; no request
    has been sent to the table, which is as it was. *)
Theorem create_marshal_failure request w createReq shortURL e :
  json.Unmarshal (APIGatewayProxyRequest.Body request) = Ok createReq ->
  generateShortURL w = (Return shortURL, ticked w) ->
  MarshalMap {| ShortURL := shortURL;
                LongURL := CreateURLRequest.LongURL createReq;
                CreatedAt := clock w (S (ticks w));
                AccessCount := 0 |} = Err e ->
  exists w',
    createShortURL request w
    = (Return ({| StatusCode := 500; Headers := ∅; Body := "Error marshaling item" |},
               Some e), w')
    /\ table w' = table w
    /\ trace w' = trace w.
Proof.
  intros Hj Hg Hm. rewrite createShortURL_paths, Hj. cbv zeta.
  rewrite generateShortURL_run in Hg. cbv zeta in Hg.
  destruct (8 <=? _)%nat; [|discriminate Hg]. injection Hg as <-.
  rewrite Hm. eexists. split; [reflexivity|]. by split.
Qed.

(** C2, as the code has it. A body that [json.Unmarshal] refuses (text that
    is not JSON, a JSON value that is neither an object nor [null], an
    object whose [long_url] is neither a string nor [null]) is answered
    with 400 "Invalid request body" and a nil error, and the world is left
    exactly as it was: no request goes to the table. A body that decodes
    is never answered with 400, and an object none of whose keys is
    [long_url] decodes, to an empty [long_url]. *)
Theorem create_rejects_undecodable_body request w :
  (forall e, json.Unmarshal (APIGatewayProxyRequest.Body request) = Err e ->
     createShortURL request w
     = (Return ({| StatusCode := 400; Headers := ∅; Body := "Invalid request body" |},
                None), w))
  /\ (forall createReq resp err w',
        json.Unmarshal (APIGatewayProxyRequest.Body request) = Ok createReq ->
        createShortURL request w = (Return (resp, err), w') ->
        StatusCode resp <> 400%Z)
  /\ (forall ms,
        json.parse (APIGatewayProxyRequest.Body request) = Some (json.Object ms) ->
        (forall key v, (key, v) ∈ ms -> json.equalFold key "long_url" = false) ->
        json.Unmarshal (APIGatewayProxyRequest.Body request)
        = Ok {| CreateURLRequest.LongURL := "" |}).
Proof.
  rewrite createShortURL_paths. split; [|split].
  - intros e He. by rewrite He.
  - intros createReq resp err w' Hj. rewrite Hj. cbv zeta.
    destruct (8 <=? _)%nat; [|discriminate].
    destruct (MarshalMap _) as [item|e]; [|by intros [= <- _ _]].
    destruct (fault w (length (trace w))); [by intros [= <- _ _]|].
    destruct (item !! "short_url") as [[]|]; by intros [= <- _ _].
  - intros ms Hp Hms. unfold json.Unmarshal. rewrite Hp. clear Hp.
    generalize {| CreateURLRequest.LongURL := "" |}.
    induction ms as [|[key v] ms IH]; intros req; [reflexivity|].
    cbn [json.object]. rewrite (Hms key v) by apply list_elem_of_here.
    apply IH. intros key' v' Hin. apply (Hms key' v'). by apply list_elem_of_further.
Qed.

End create.

(** C2, as the specification has it, fails: the body [{}] has no
    [long_url], and [createShortURL] answers it with 201 and puts a record
    with an empty [long_url] into the table. *)
Lemma create_accepts_missing_long_url :
  json.parse "{}" = Some (json.Object [])
  /\ exists m w',
       @createShortURL standard (POST "{}") fresh = (Return (created m, None), w')
       /\ StatusCode (created m) = 201%Z
       /\ LongURL m = ""
       /\ table fresh !! ShortURL m = None
       /\ table w' !! ShortURL m
          = Some (<[ "short_url" := AttributeValueMemberS (ShortURL m) ]> (
                  <[ "long_url" := AttributeValueMemberS "" ]> (
                  <[ "created_at" := AttributeValueMemberS (time.RFC3339Nano (CreatedAt m)) ]> (
                  <[ "access_count" := AttributeValueMemberN 0 ]> ∅))))
       /\ ~ (exists resp err w'',
               @createShortURL standard (POST "{}") fresh = (Return (resp, err), w'')
               /\ StatusCode resp = 400%Z /\ trace w'' = trace fresh).
Proof.
  split; [reflexivity|].
  pose (m := {| ShortURL := "17000000"; LongURL := ""; CreatedAt := 1700000000123456001;
                AccessCount := 0 |}).
  assert (H : @createShortURL standard (POST "{}") fresh
              = (Return (created m, None),
                 stored (<[ "17000000" := default ∅ (result_ok (@MarshalMap standard m)) ]> ∅)
                   (sent (PutItemCall (default ∅ (result_ok (@MarshalMap standard m))))
                      (ticked (ticked fresh))))).
  { reflexivity. }
  exists m. eexists. split; [exact H|].
  split; [reflexivity|]. split; [reflexivity|]. split; [reflexivity|].
  split; [vm_compute; reflexivity|].
  intros (resp & err & w'' & Hc & Hs & _). rewrite H in Hc.
  injection Hc as <- _ _. discriminate Hs.
Qed.

(** ** JSON strings: what [encode] writes, [unquote] reads back *)

Section json_strings.

Import utf8 json.

Lemma eqb_byte (c d : ascii) : Ascii.eqb c d = (byte c =? byte d)%N.
Proof.
  destruct (Ascii.eqb_spec c d) as [->|Hne].
  - by rewrite N.eqb_refl.
  - symmetry. apply N.eqb_neq. intros E. apply Hne.
    rewrite <- (ascii_N_embedding c), <- (ascii_N_embedding d). unfold byte in E. by rewrite E.
Qed.

Lemma chr_byte (c : ascii) : chr (byte c) = c.
Proof. apply ascii_N_embedding. Qed.

Lemma byte_eq (c : ascii) (n : N) : byte c = n -> c = chr n.
Proof. intros <-. by rewrite chr_byte. Qed.

Lemma emit_Some (pre out rest : string) :
  emit pre (Some (out, rest)) = Some (pre ++ out, rest).
Proof. reflexivity. Qed.

Lemma unquote_Skip0 (s : string) : unquote (Skip 0) s = unquote (Copy 0) s.
Proof. by destruct s. Qed.

Lemma encode_Skip0 (s : string) : encode (Skip 0) s = encode (Copy 0) s.
Proof. by destruct s. Qed.

Lemma unquote_Copy (k : nat) (c : ascii) (s : string) :
  unquote (Copy (S k)) (String c s) = emit (String c "") (unquote (Copy k) s).
Proof. reflexivity. Qed.

(** A byte written as it is and read as it is. *)
Lemma unquote_plain (c : ascii) (s : string) :
  Ascii.eqb c dquote = false -> Ascii.eqb c "\" = false ->
  (byte c <? 0x20)%N = false -> (byte c <? 0x80)%N = true ->
  unquote (Copy 0) (String c s) = emit (String c "") (unquote (Copy 0) s).
Proof. intros H1 H2 H3 H4. cbn [unquote]. by rewrite H1, H2, H3, H4. Qed.

(** A lead byte and the sequence behind it. *)
Lemma unquote_lead (c : ascii) (s : string) (n : nat) :
  (byte c <? 0x80)%N = false -> size c s = Some n ->
  unquote (Copy 0) (String c s) = emit (String c "") (unquote (Copy (Nat.pred n)) s).
Proof.
  intros Hc Hn. cbn [unquote]. rewrite !eqb_byte.
  apply N.ltb_ge in Hc as Hc'.
  replace (byte c =? byte dquote)%N with false
    by (symmetry; apply N.eqb_neq; change (byte dquote) with 34%N; lia).
  replace (byte c =? byte "\")%N with false
    by (symmetry; apply N.eqb_neq; change (byte "\") with 92%N; lia).
  replace (byte c <? 0x20)%N with false by (symmetry; apply N.ltb_ge; lia).
  by rewrite Hc, Hn.
Qed.

(** An escaped ASCII byte. *)
Lemma unquote_escaped (c : ascii) (s : string) :
  (byte c <? 0x80)%N = true -> htmlSafe c = false ->
  unquote (Copy 0) (escaped c ++ s) = emit (String c "") (unquote (Copy 0) s).
Proof.
  intros Hc Hs.
  destruct c as [[] [] [] [] [] [] [] []]; try discriminate Hc; try discriminate Hs;
    first [reflexivity | rewrite <- (unquote_Skip0 s); reflexivity].
Qed.

(** U+2028 and U+2029, which are written as escapes. *)
Lemma unquote_separator (c c2 c3 h : ascii) (s t : string) :
  separator c (String c2 (String c3 s)) = Some h ->
  unquote (Copy 0) (("\u202" ++ String h "") ++ t)
  = emit (String c (String c2 (String c3 ""))) (unquote (Copy 0) t).
Proof.
  unfold separator. intros H.
  destruct (byte c =? 0xE2)%N eqn:E1; [|discriminate H].
  destruct (byte c2 =? 0x80)%N eqn:E2; [|discriminate H].
  apply N.eqb_eq, byte_eq in E1 as ->. apply N.eqb_eq, byte_eq in E2 as ->.
  rewrite <- (unquote_Skip0 t).
  destruct (byte c3 =? 0xA8)%N eqn:E3.
  - apply N.eqb_eq in E3. rewrite E3 in H. apply byte_eq in E3 as ->.
    injection H as <-. reflexivity.
  - destruct (byte c3 =? 0xA9)%N eqn:E4; [|discriminate H].
    apply N.eqb_eq in E4. rewrite E4 in H. apply byte_eq in E4 as ->.
    injection H as <-. reflexivity.
Qed.

Lemma separator_size (c h : ascii) (s : string) :
  separator c s = Some h ->
  exists c2 c3 s', s = String c2 (String c3 s') /\ size c s = Some 3%nat.
Proof.
  destruct s as [|c2 [|c3 s']]; try discriminate. intros H.
  exists c2, c3, s'. split; [reflexivity|]. unfold separator in H.
  destruct (byte c =? 0xE2)%N eqn:E1; [|discriminate H].
  destruct (byte c2 =? 0x80)%N eqn:E2; [|discriminate H].
  destruct ((byte c3 =? 0xA8) || (byte c3 =? 0xA9))%N eqn:E3; [|discriminate H].
  apply N.eqb_eq in E1, E2. unfold size, between. rewrite E1, E2. cbn.
  apply orb_true_iff in E3 as [E3|E3]; apply N.eqb_eq in E3; by rewrite E3.
Qed.

(** The look-ahead of the reader sees the continuation bytes that the
    writer passes through. *)
Lemma size_encode (c : ascii) (s t : string) (n : nat) :
  size c s = Some n -> size c (encode (Copy (Nat.pred n)) s ++ t) = Some n.
Proof.
  unfold size. destruct (first (byte c)) as [[[m lo] hi]|]; [|discriminate].
  destruct m as [|[|[|[|[|m]]]]]; try discriminate;
    destruct s as [|c2 [|c3 [|c4 s]]]; try discriminate;
    intros H;
    match type of H with
    | (if ?b then _ else _) = _ => destruct b eqn:E; [|discriminate H]
    end;
    injection H as <-; cbn [Nat.pred encode]; rewrite ?append_cons; by rewrite E.
Qed.

Lemma valid_from_drop (c : ascii) (s : string) :
  size c s = Some 3%nat -> valid_from 2 s = true ->
  (2 <= String.length s)%nat /\ valid_from 0 (drop 2 s) = true.
Proof.
  destruct s as [|c2 [|c3 s']]; cbn; intros _ H; try discriminate.
  - by rewrite andb_false_r in H.
  - apply andb_true_iff in H as [_ H]. apply andb_true_iff in H as [_ H].
    split; [lia|exact H].
Qed.

(** The round trip, for text that is UTF-8: from any state of the writer
    that the reader shares. *)
Lemma unquote_encode (s : string) :
  (forall k rest,
     valid_from k s = true ->
     unquote (Copy k) (encode (Copy k) s ++ String dquote rest) = Some (s, rest))
  /\ (forall j rest,
        (j <= String.length s)%nat -> valid_from 0 (drop j s) = true ->
        unquote (Copy 0) (encode (Skip j) s ++ String dquote rest) = Some (drop j s, rest)).
Proof.
  induction s as [|c s [IHA IHC]].
  { split.
    - intros [|k] rest H; [reflexivity|discriminate H].
    - intros [|j] rest Hj H; [reflexivity|cbn in Hj; lia]. }
  assert (A : forall k rest,
             valid_from k (String c s) = true ->
             unquote (Copy k) (encode (Copy k) (String c s) ++ String dquote rest)
             = Some (String c s, rest)).
  { intros [|k] rest H.
    - cbn [valid_from] in H. cbn [encode].
      destruct (byte c <? 0x80)%N eqn:Hc.
      + destruct (htmlSafe c) eqn:Hs.
        * rewrite append_cons. unfold htmlSafe in Hs.
          apply andb_true_iff in Hs as [Hr Hn]. apply andb_true_iff in Hr as [Hlo _].
          apply negb_true_iff in Hn. repeat (apply orb_false_iff in Hn as [Hn ?]).
          rewrite unquote_plain, IHA by (done || apply N.ltb_ge; by apply N.leb_le).
          reflexivity.
        * rewrite append_assoc, unquote_escaped, IHA by done. reflexivity.
      + destruct (size c s) as [n|] eqn:Hn; [|discriminate H].
        destruct (separator c s) as [h|] eqn:Hsep.
        * destruct (separator_size _ _ _ Hsep) as (c2 & c3 & s' & -> & Hn').
          rewrite Hn in Hn'. injection Hn' as ->. cbn [Nat.pred] in H.
          destruct (valid_from_drop _ _ Hn H) as [Hlen Hv].
          change ("\u202" ++ String h (encode (Skip 2) (String c2 (String c3 s'))))
            with (("\u202" ++ String h "") ++ encode (Skip 2) (String c2 (String c3 s'))).
          rewrite append_assoc, (unquote_separator _ _ _ _ _ _ Hsep), IHC by done.
          reflexivity.
        * rewrite append_cons, (unquote_lead c _ n Hc) by (by apply size_encode).
          rewrite IHA by done. reflexivity.
    - cbn [valid_from] in H. apply andb_true_iff in H as [_ H].
      cbn [encode]. rewrite append_cons, unquote_Copy, IHA by done. reflexivity. }
  split; [exact A|].
  intros [|j] rest Hj H.
  - rewrite encode_Skip0. by apply A.
  - cbn [encode drop]. cbn in Hj. apply IHC; [lia|exact H].
Qed.

(** The string that [json.Marshal] writes for UTF-8 text is read back as
    that text. *)
Lemma unquote_String (s rest : string) :
  ValidString s = true ->
  unquote (Copy 0) (encode (Copy 0) s ++ String dquote rest) = Some (s, rest).
Proof. intros H. by apply (unquote_encode s). Qed.

End json_strings.

(** ** JSON texts of the program *)

Section json_texts.

Import utf8 json.

(** An object opens, and its members follow. *)
Lemma parse_value_object (fuel : nat) (X : string) :
  parse_value (S fuel) 0 (String "{" (String dquote X))
  = match parse_members fuel 1 (String dquote X) with
    | Some (ms, r) => Some (Object ms, r)
    | None => None
    end.
Proof. reflexivity. Qed.

(** A member whose value is a string, before a comma. *)
Lemma parse_members_string_comma (fuel : nat) (d : N) (K V key v r : string) :
  unquote (Copy 0) K = Some (key, String ":" (String dquote V)) ->
  unquote (Copy 0) V = Some (v, String "," (String dquote r)) ->
  parse_members (S (S fuel)) d (String dquote K)
  = match parse_members (S fuel) d (String dquote r) with
    | Some (ms, r') => Some ((key, Str v) :: ms, r')
    | None => None
    end.
Proof. intros HK HV. cbn [parse_members]. rewrite HK. cbn. by rewrite HV. Qed.

(** A member whose value is a string, the last of its object. *)
Lemma parse_members_string_last (fuel : nat) (d : N) (K V key v r : string) :
  unquote (Copy 0) K = Some (key, String ":" (String dquote V)) ->
  unquote (Copy 0) V = Some (v, String "}" r) ->
  parse_members (S (S fuel)) d (String dquote K) = Some ([(key, Str v)], r).
Proof. intros HK HV. cbn [parse_members]. rewrite HK. cbn. by rewrite HV. Qed.

(** The body that [json.Marshal] writes for a request with UTF-8 text
    decodes to that request. *)
Lemma Unmarshal_MarshalRequest (s : string) :
  ValidString s = true ->
  Unmarshal (MarshalRequest {| CreateURLRequest.LongURL := s |})
  = Ok {| CreateURLRequest.LongURL := s |}.
Proof.
  intros Hs. unfold Unmarshal, parse.
  set (V := encode (Copy 0) s ++ String dquote "}").
  replace (MarshalRequest {| CreateURLRequest.LongURL := s |})
    with (String "{" (String dquote ("long_url" ++ String dquote (String ":" (String dquote V)))))
    by (unfold MarshalRequest, appendString, quoted, V; cbn [CreateURLRequest.LongURL];
        rewrite (append_cons dquote (encode _ _ ++ _)), (append_assoc (encode _ _));
        reflexivity).
  cbn [skip_space isSpace Ascii.eqb Bool.eqb orb String.length].
  rewrite parse_value_object.
  rewrite (parse_members_string_last _ _ _ V "long_url" s "").
  - reflexivity.
  - reflexivity.
  - by apply unquote_String.
Qed.

End json_texts.

Section json_response.

Import utf8 json.

Lemma htmlSafe_ascii (c : ascii) :
  htmlSafe c = true -> (byte c <? 0x80)%N = true.
Proof.
  unfold htmlSafe. intros H. apply andb_true_iff in H as [H _].
  by apply andb_true_iff in H as [_ H].
Qed.

Lemma encode_safe (s : string) : all_safe s = true -> encode (Copy 0) s = s.
Proof.
  induction s as [|c s IH]; [reflexivity|]. cbn [all_safe encode]. intros H.
  apply andb_true_iff in H as [Hc Hs]. by rewrite (htmlSafe_ascii c Hc), Hc, IH.
Qed.

Lemma valid_safe (s : string) : all_safe s = true -> ValidString s = true.
Proof.
  unfold ValidString. induction s as [|c s IH]; [reflexivity|]. cbn [all_safe valid_from].
  intros H. apply andb_true_iff in H as [Hc Hs]. by rewrite (htmlSafe_ascii c Hc), IH.
Qed.

Lemma unquote_safe (s rest : string) :
  all_safe s = true -> unquote (Copy 0) (s ++ String dquote rest) = Some (s, rest).
Proof.
  intros H. rewrite <- (encode_safe s H) at 1. by apply unquote_String, valid_safe.
Qed.

Lemma all_safe_append (a b : string) : all_safe (a ++ b) = all_safe a && all_safe b.
Proof.
  induction a as [|x a IH]; [reflexivity|]. rewrite append_cons. cbn [all_safe].
  rewrite IH. by rewrite andb_assoc.
Qed.

Lemma htmlSafe_digit (c : ascii) : isDigit c = true -> htmlSafe c = true.
Proof.
  unfold isDigit, htmlSafe. intros H. apply andb_true_iff in H as [Hlo Hhi].
  apply N.leb_le in Hlo, Hhi. rewrite !eqb_byte.
  change (byte dquote) with 34%N. change (byte "\") with 92%N.
  change (byte "<") with 60%N. change (byte ">") with 62%N. change (byte "&") with 38%N.
  repeat match goal with
         | |- context [(byte c =? ?n)%N] =>
           replace (byte c =? n)%N with false by (symmetry; apply N.eqb_neq; lia)
         end.
  cbn [orb negb]. rewrite andb_true_r.
  apply andb_true_iff. split; [apply N.leb_le|apply N.ltb_lt]; lia.
Qed.

Lemma all_safe_digits (s : string) : all_digits s = true -> all_safe s = true.
Proof.
  induction s as [|c s IH]; [reflexivity|]. cbn [all_digits all_safe]. intros H.
  apply andb_true_iff in H as [Hc Hs]. by rewrite (htmlSafe_digit c Hc), IH.
Qed.

Lemma all_safe_substring_0 (n : nat) (s : string) :
  all_safe s = true -> all_safe (substring 0 n s) = true.
Proof.
  revert s. induction n as [|n IH]; intros [|c s] Hs; cbn in *; try reflexivity.
  apply andb_true_iff in Hs as [-> Hs]. by apply IH.
Qed.

Lemma all_digits_digits (fuel : nat) (n : Z) (acc : string) :
  all_digits acc = true -> all_digits (strconv.digits fuel n acc) = true.
Proof.
  revert n acc. induction fuel as [|fuel IH]; intros n acc Hacc; [exact Hacc|].
  cbn [strconv.digits].
  assert (H : all_digits (String (strconv.digit (n mod 10)) acc) = true).
  { cbn [all_digits]. rewrite isDigit_digit, Hacc; [reflexivity|].
    apply Z.mod_pos_bound. lia. }
  destruct (n <? 10)%Z; [exact H|by apply IH].
Qed.

Lemma all_safe_FormatInt (n : Z) : all_safe (strconv.FormatInt n) = true.
Proof.
  unfold strconv.FormatInt. destruct (n <? 0)%Z.
  - cbn [all_safe]. rewrite all_safe_digits; [reflexivity|]. by apply all_digits_digits.
  - apply all_safe_digits. by apply all_digits_digits.
Qed.

Lemma all_digits_padded (width : nat) (z : Z) : all_digits (time.padded width z) = true.
Proof.
  revert z. induction width as [|w IH]; intros z; [reflexivity|].
  cbn [time.padded]. rewrite all_digits_append, IH. cbn [all_digits].
  rewrite isDigit_digit; [reflexivity|]. apply Z.mod_pos_bound. lia.
Qed.

Lemma all_safe_trim_zeros (s : string) :
  all_safe s = true -> all_safe (time.trim_zeros s) = true.
Proof.
  induction s as [|c s IH]; [reflexivity|]. cbn [all_safe time.trim_zeros]. intros H.
  apply andb_true_iff in H as [Hc Hs]. specialize (IH Hs).
  destruct (time.trim_zeros s) as [|c' s'].
  - destruct (Ascii.eqb c "0"); [reflexivity|]. cbn [all_safe]. by rewrite Hc.
  - cbn [all_safe] in *. by rewrite Hc, IH.
Qed.

Lemma all_safe_RFC3339Nano (t : Z) : all_safe (time.RFC3339Nano t) = true.
Proof.
  unfold time.RFC3339Nano. destruct (time.civil_from_days _) as [[y m] d].
  assert (Hp : forall w z, all_safe (time.padded w z) = true)
    by (intros; apply all_safe_digits, all_digits_padded).
  pose proof (all_safe_trim_zeros (time.padded 9 (t mod 1000000000)) (Hp _ _)) as Hf.
  rewrite !all_safe_append, !Hp.
  destruct (time.trim_zeros _); [reflexivity|].
  cbn [all_safe] in *. rewrite Hf. reflexivity.
Qed.

(** The body of a 201 response parses, and its [short_url] is the record's. *)
Lemma returned_short_url_created (m : URLMapping) :
  all_safe (ShortURL m) = true -> ValidString (LongURL m) = true -> AccessCount m = 0%Z ->
  returned_short_url (created m) = Some (ShortURL m).
Proof.
  intros Hshort Hlong Hcount. unfold returned_short_url, created, parse.
  cbn [APIGatewayProxyResponse.Body].
  set (R4 := "access_count" ++ String dquote ":0}").
  set (V3 := time.RFC3339Nano (CreatedAt m) ++ String dquote (String "," (String dquote R4))).
  set (R3 := "created_at" ++ String dquote (String ":" (String dquote V3))).
  set (V2 := encode (Copy 0) (LongURL m) ++ String dquote (String "," (String dquote R3))).
  set (R2 := "long_url" ++ String dquote (String ":" (String dquote V2))).
  set (V1 := encode (Copy 0) (ShortURL m) ++ String dquote (String "," (String dquote R2))).
  replace (Marshal m)
    with (String "{" (String dquote ("short_url" ++ String dquote (String ":" (String dquote V1))))).
  2:{ unfold Marshal, appendString, quoted, V1, R2, V2, R3, V3, R4. rewrite Hcount.
      change (strconv.FormatInt 0) with "0".
      repeat (rewrite append_cons || rewrite append_assoc || rewrite append_nil_l).
      reflexivity. }
  cbn [skip_space isSpace Ascii.eqb Bool.eqb orb String.length].
  rewrite length_append. cbn [String.length Nat.add].
  rewrite parse_value_object.
  rewrite (parse_members_string_comma _ _ _ V1 "short_url" (ShortURL m) R2);
    [|reflexivity|by apply unquote_String, valid_safe].
  rewrite (parse_members_string_comma _ _ _ V2 "long_url" (LongURL m) R3);
    [|reflexivity|by apply unquote_String].
  rewrite (parse_members_string_comma _ _ _ V3 "created_at" (time.RFC3339Nano (CreatedAt m)) R4);
    [|reflexivity|by apply unquote_safe, all_safe_RFC3339Nano].
  reflexivity.
Qed.

End json_response.

(** ** Create, then resolve *)

Section round_trip.

Context `{spec : CodecSpec}.

Lemma shortURL_of_GET (code : string) : shortURL_of (GET code) = code.
Proof. unfold shortURL_of, GET. cbn. by rewrite lookup_singleton_eq. Qed.

(** What a 201 of [createShortURL] says about the record and the world. *)
Lemma createShortURL_created request w resp err w' :
  createShortURL request w = (Return (resp, err), w') ->
  StatusCode resp = 201%Z ->
  exists createReq m item,
    json.Unmarshal (APIGatewayProxyRequest.Body request) = Ok createReq
    /\ m = {| ShortURL := substring 0 8 (strconv.FormatInt (time.UnixNano (clock w (ticks w))));
              LongURL := CreateURLRequest.LongURL createReq;
              CreatedAt := clock w (S (ticks w));
              AccessCount := 0 |}
    /\ MarshalMap m = Ok item
    /\ resp = created m /\ err = None
    /\ w' = stored (<[ ShortURL m := item ]> (table w))
              (sent (PutItemCall item) (ticked (ticked w))).
Proof.
  rewrite createShortURL_paths.
  destruct (json.Unmarshal _) as [createReq|e]; [|by intros [= <- _ _] [=]].
  cbv zeta. destruct (8 <=? _)%nat; [|discriminate].
  destruct (MarshalMap _) as [item|e] eqn:Hm; [|by intros [= <- _ _] [=]].
  pose proof (marshal_short_url _ _ Hm) as Hk. cbn [ShortURL] in Hk.
  destruct (fault w (length (trace w))); [by intros [= <- _ _] [=]|].
  rewrite Hk. intros [= <- <- <-] _.
  by eexists createReq, _, item.
Qed.

(** C1. For a [long_url] that is UTF-8 text, sent as the body that
    [json.Marshal] writes for it: when [createShortURL] answers 201, the
    body of its response carries a short code, and [getOriginalURL] on
    that code, once the table answers the lookup and the stored item
    decodes, returns the 301 redirect whose [Location] is the [long_url]
    that was sent. *)
Theorem create_then_resolve (long_url : string) (w : World) resp1 err1 w1 :
  utf8.ValidString long_url = true ->
  createShortURL (POST (json.MarshalRequest {| CreateURLRequest.LongURL := long_url |})) w
  = (Return (resp1, err1), w1) ->
  StatusCode resp1 = 201%Z ->
  exists code,
    returned_short_url resp1 = Some code
    /\ (fault w1 (length (trace w1)) = None ->
        (forall item, table w1 !! code = Some item -> exists m, UnmarshalMap item = Ok m) ->
        exists w2,
          getOriginalURL (GET code) w1
          = (Return ({| StatusCode := 301;
                        Headers := {[ "Location" := long_url ]};
                        Body := "" |}, None), w2)).
Proof.
  intros Hvalid Hcreate H201.
  destruct (createShortURL_created _ _ _ _ _ Hcreate H201)
    as (createReq & m & item & Hj & Hm & Hitem & -> & -> & ->).
  cbn [POST APIGatewayProxyRequest.Body] in Hj.
  rewrite (Unmarshal_MarshalRequest _ Hvalid) in Hj. injection Hj as <-.
  cbn [CreateURLRequest.LongURL] in Hm.
  exists (ShortURL m). split.
  - apply returned_short_url_created.
    + subst m. cbn [ShortURL]. apply all_safe_substring_0, all_safe_FormatInt.
    + by subst m.
    + by subst m.
  - intros Hf Hdec.
    assert (Hit : table (stored (<[ShortURL m:=item]> (table w))
                           (sent (PutItemCall item) (ticked (ticked w))))
                  !! shortURL_of (GET (ShortURL m)) = Some item).
    { rewrite shortURL_of_GET. cbn [table stored]. by rewrite lookup_insert_eq. }
    destruct (Hdec item) as [m' Hm']; [by rewrite shortURL_of_GET in Hit|].
    destruct (getOriginalURL_found _ _ item m' Hf Hit Hm') as (err & w2 & _ & Hg).
    rewrite (unmarshal_long_url m item m' Hitem Hm') in Hg.
    replace (LongURL m) with long_url in Hg by (by subst m).
    by eexists.
Qed.

(** One more [getOriginalURL] on a short code whose item has a counter.
    When the table answers the lookup and the item decodes, the response
    is the redirect to the [long_url] that the item decodes to, and two
    requests have been sent; otherwise it is a 500 with an error and the
    counter is what it was. In both cases the counter has gone up by one at
    most and the item is otherwise the same. *)
Lemma getOriginalURL_step request w item0 c :
  table w !! shortURL_of request
  = Some (<[ "access_count" := AttributeValueMemberN c ]> item0) ->
  exists r w' c',
    getOriginalURL request w = (Return r, w')
    /\ (c <= c' <= c + 1)%Z
    /\ table w' !! shortURL_of request
       = Some (<[ "access_count" := AttributeValueMemberN c' ]> item0)
    /\ fault w' = fault w
    /\ match fault w (length (trace w)),
             UnmarshalMap (<[ "access_count" := AttributeValueMemberN c ]> item0) with
       | None, Ok m =>
         r = (redirect (LongURL m), None)
         /\ length (trace w') = (length (trace w) + 2)%nat
       | _, _ => StatusCode r.1 = 500%Z /\ is_Some r.2 /\ c' = c
       end.
Proof.
  intros Hit. pose proof (getOriginalURL_paths request w) as H. cbv zeta in H.
  destruct (fault w (length (trace w))) as [e|].
  { eexists _, _, c. split; [exact H|]. split; [lia|]. split; [exact Hit|].
    split; [reflexivity|]. split; [reflexivity|]. split; [by eexists|reflexivity]. }
  rewrite Hit in H.
  destruct (UnmarshalMap _) as [m|e] eqn:Hm.
  2:{ eexists _, _, c. split; [exact H|]. split; [lia|]. split; [exact Hit|].
      split; [reflexivity|]. split; [reflexivity|]. split; [by eexists|reflexivity]. }
  destruct H as (err & w1 & Hu & Hg).
  destruct (UpdateItem_cases (increment (key_for (shortURL_of request)))
              (sent (GetItemCall (key_for (shortURL_of request))) w))
    as [[e He]|(k & item & n & d & Hk & Htk & Hn & Hd & Hacc)].
  - rewrite He in Hu. injection Hu as <- <-.
    eexists _, _, c. split; [exact Hg|]. split; [lia|]. split; [exact Hit|].
    split; [reflexivity|]. split; [reflexivity|].
    cbn [trace logged sent]. rewrite !length_app. cbn [length]. lia.
  - rewrite Hacc in Hu. injection Hu as <- <-.
    cbn [increment Key] in Hk. rewrite key_of_key_for in Hk. injection Hk as <-.
    cbn [table sent] in Htk. rewrite Hit in Htk. injection Htk as <-.
    rewrite lookup_insert_eq in Hn. injection Hn as <-.
    cbn [increment ExpressionAttributeValues] in Hd.
    rewrite lookup_singleton_eq in Hd. injection Hd as <-.
    eexists _, _, (c + 1)%Z. split; [exact Hg|]. split; [lia|]. split.
    { cbn [table stored]. by rewrite lookup_insert_eq, insert_insert_eq. }
    split; [reflexivity|]. split; [reflexivity|].
    cbn [trace stored sent]. rewrite !length_app. cbn [length]. lia.
Qed.

(** Any number of calls, whatever the table answers: each response is a
    500 with an error or the redirect to the [long_url] of the item as it
    was before the first call. *)
Lemma resolves_steps n request w item0 c :
  table w !! shortURL_of request
  = Some (<[ "access_count" := AttributeValueMemberN c ]> item0) ->
  exists rs w' c',
    resolves n request w = (Return rs, w')
    /\ length rs = n
    /\ (c <= c' <= c + Z.of_nat n)%Z
    /\ table w' !! shortURL_of request
       = Some (<[ "access_count" := AttributeValueMemberN c' ]> item0)
    /\ Forall (fun r =>
         (StatusCode r.1 = 500%Z /\ is_Some r.2)
         \/ exists m,
              UnmarshalMap (<[ "access_count" := AttributeValueMemberN c ]> item0) = Ok m
              /\ r = (redirect (LongURL m), None)) rs.
Proof.
  revert w c. induction n as [|n IH]; intros w c Hit.
  { exists [], w, c. split; [reflexivity|]. split; [reflexivity|]. split; [lia|]. by split. }
  destruct (getOriginalURL_step request w item0 c Hit)
    as (r & w1 & c1 & Hg & Hc1 & Hit1 & _ & Hr).
  destruct (IH w1 c1 Hit1) as (rs & w' & c' & Hrs & Hlen & Hc' & Hit' & Hall).
  exists (r :: rs), w', c'. split.
  { cbn [resolves]. unfold mbind at 1, M_bind at 1. rewrite Hg.
    unfold mbind at 1, M_bind at 1. by rewrite Hrs. }
  split; [cbn; by rewrite Hlen|]. split; [lia|]. split; [exact Hit'|].
  assert (Hcase : (StatusCode r.1 = 500%Z /\ is_Some r.2 /\ c1 = c)
                  \/ exists m,
                       UnmarshalMap (<[ "access_count" := AttributeValueMemberN c ]> item0)
                       = Ok m
                       /\ r = (redirect (LongURL m), None)).
  { destruct (fault w (length (trace w))) as [e|]; [by left|].
    destruct (UnmarshalMap (<[ "access_count" := AttributeValueMemberN c ]> item0))
      as [m|e]; [|by left].
    right. exists m. by destruct Hr as [-> _]. }
  clear Hr. destruct Hcase as [(H500 & He & ->)|(m & Hm & ->)].
  { constructor; [by left|exact Hall]. }
  constructor; [right; by exists m|].
  eapply Forall_impl; [exact Hall|].
  intros r' [H500|(m1 & Hm1 & ->)]; [by left|]. right. exists m. split; [exact Hm|].
  rewrite <- (insert_insert_eq item0 "access_count" (AttributeValueMemberN c1)
                (AttributeValueMemberN c)) in Hm1.
  by rewrite (unmarshal_counted _ _ _ _ Hm Hm1).
Qed.

(** Any number of calls whose lookups the table answers, on an item that
    decodes at every value its counter can take: every response is the
    redirect to the [long_url] of the item. *)
Lemma resolves_answered n request w item0 c m :
  table w !! shortURL_of request
  = Some (<[ "access_count" := AttributeValueMemberN c ]> item0) ->
  UnmarshalMap (<[ "access_count" := AttributeValueMemberN c ]> item0) = Ok m ->
  (forall i, (i < n)%nat -> fault w (length (trace w) + 2 * i) = None) ->
  (forall c', (c <= c' <= c + Z.of_nat n)%Z ->
     exists m', UnmarshalMap (<[ "access_count" := AttributeValueMemberN c' ]> item0) = Ok m') ->
  exists w' c',
    resolves n request w = (Return (replicate n (redirect (LongURL m), None)), w')
    /\ (c <= c' <= c + Z.of_nat n)%Z
    /\ table w' !! shortURL_of request
       = Some (<[ "access_count" := AttributeValueMemberN c' ]> item0).
Proof.
  revert w c m. induction n as [|n IH]; intros w c m Hit Hm Hf Hdec.
  { exists w, c. split; [reflexivity|]. split; [lia|exact Hit]. }
  destruct (getOriginalURL_step request w item0 c Hit)
    as (r & w1 & c1 & Hg & Hc1 & Hit1 & Hf1 & Hr).
  pose proof (Hf 0%nat ltac:(lia)) as Hf0.
  replace (length (trace w) + 2 * 0)%nat with (length (trace w)) in Hf0 by lia.
  rewrite Hf0, Hm in Hr. destruct Hr as [-> Hlen].
  destruct (Hdec c1 ltac:(lia)) as [m1 Hm1].
  destruct (IH w1 c1 m1 Hit1 Hm1) as (w' & c' & Hrs & Hc' & Hit').
  { intros i Hi. rewrite Hf1, Hlen.
    replace (length (trace w) + 2 + 2 * i)%nat with (length (trace w) + 2 * S i)%nat by lia.
    apply Hf. lia. }
  { intros c'' Hc''. apply Hdec. lia. }
  assert (Hlong : LongURL m1 = LongURL m).
  { rewrite <- (insert_insert_eq item0 "access_count" (AttributeValueMemberN c1)
                  (AttributeValueMemberN c)) in Hm1.
    exact (unmarshal_counted _ _ _ _ Hm Hm1). }
  rewrite Hlong in Hrs.
  exists w', c'. split.
  { cbn [resolves replicate]. unfold mbind at 1, M_bind at 1. rewrite Hg.
    unfold mbind at 1, M_bind at 1. by rewrite Hrs. }
  split; [lia|exact Hit'].
Qed.

(** C8. A record that [createShortURL] has put into the table, its 201
    returned, has [access_count] 0. For a short code whose item has a
    counter, calling [getOriginalURL] on it any number [n] of times returns
    every time; the counter in the table is afterwards at least what it was
    before and at most [n] more; and every response is either a 500 with an
    error or the 301 redirect, with a nil error, to the [long_url] that the
    stored item decodes to: never a 404, never another target. And when the
    table answers each of the [n] lookups and the item decodes at the values
    its counter can take, all [n] responses are that redirect to the stored
    [long_url], whether the updates of the counter are carried out or
    refused. *)
Theorem access_count_starts_at_zero_and_never_decreases :
  (forall request w resp err w',
     createShortURL request w = (Return (resp, err), w') ->
     StatusCode resp = 201%Z ->
     exists m,
       resp = created m /\ AccessCount m = 0%Z
       /\ access_count w' (ShortURL m) = Some 0%Z)
  /\ (forall n request w item c,
        table w !! shortURL_of request = Some item ->
        item !! "access_count" = Some (AttributeValueMemberN c) ->
        exists rs w' c',
          resolves n request w = (Return rs, w')
          /\ length rs = n
          /\ access_count w' (shortURL_of request) = Some c'
          /\ (c <= c' <= c + Z.of_nat n)%Z
          /\ forall r, r ∈ rs ->
               (StatusCode r.1 = 500%Z /\ is_Some r.2)
               \/ exists m, UnmarshalMap item = Ok m
                            /\ r = (redirect (LongURL m), None))
  /\ (forall n request w item c m,
        table w !! shortURL_of request = Some item ->
        item !! "access_count" = Some (AttributeValueMemberN c) ->
        UnmarshalMap item = Ok m ->
        (forall i, (i < n)%nat -> fault w (length (trace w) + 2 * i) = None) ->
        (forall c', (c <= c' <= c + Z.of_nat n)%Z ->
           exists m', UnmarshalMap (<[ "access_count" := AttributeValueMemberN c' ]> item)
                      = Ok m') ->
        exists w' c',
          resolves n request w
          = (Return (replicate n (redirect (LongURL m), None)), w')
          /\ access_count w' (shortURL_of request) = Some c'
          /\ (c <= c' <= c + Z.of_nat n)%Z).
Proof.
  split; [|split].
  - intros request w resp err w' Hc H201.
    destruct (createShortURL_created _ _ _ _ _ Hc H201)
      as (createReq & m & item & _ & Hm & Hitem & -> & _ & ->).
    exists m. split; [reflexivity|]. split; [by subst m|].
    unfold access_count. cbn [table stored]. rewrite lookup_insert_eq.
    rewrite (marshal_access_count _ _ Hitem). by subst m.
  - intros n request w item c Hit Hc.
    pose proof (insert_id item "access_count" (AttributeValueMemberN c) Hc) as Hid.
    rewrite <- Hid in Hit.
    destruct (resolves_steps n request w item c Hit)
      as (rs & w' & c' & Hrs & Hlen & Hle & Hit' & Hall).
    exists rs, w', c'. split; [exact Hrs|]. split; [exact Hlen|]. split.
    { unfold access_count. by rewrite Hit', lookup_insert_eq. }
    split; [exact Hle|].
    intros r Hr. rewrite Forall_forall in Hall. rewrite Hid in Hall. by apply Hall.
  - intros n request w item c m Hit Hc Hm Hf Hdec.
    pose proof (insert_id item "access_count" (AttributeValueMemberN c) Hc) as Hid.
    rewrite <- Hid in Hit, Hm.
    destruct (resolves_answered n request w item c m Hit Hm Hf Hdec)
      as (w' & c' & Hrs & Hle & Hit').
    exists w', c'. split; [exact Hrs|]. split; [|exact Hle].
    unfold access_count. by rewrite Hit', lookup_insert_eq.
Qed.

End round_trip.

(** ** The parser's fuel is never the reason for a refusal *)

Section fuel.

Import utf8 json.

Lemma skip_space_length (s : string) :
  (String.length (skip_space s) <= String.length s)%nat.
Proof.
  induction s as [|c s IH]; [reflexivity|]. cbn [skip_space].
  destruct (isSpace c); cbn [String.length]; lia.
Qed.

Lemma emit_inv (pre : string) (x : option (string * string)) (out r : string) :
  emit pre x = Some (out, r) -> exists out', x = Some (out', r).
Proof. destruct x as [[out' r']|]; [|discriminate]. intros [= _ <-]. by exists out'. Qed.

Lemma unquote_length (n : nat) :
  forall s p out r,
    (String.length s <= n)%nat -> unquote p s = Some (out, r) ->
    (String.length r < String.length s)%nat.
Proof.
  induction n as [|n IH]; intros [|c rest] p out r Hn H; try discriminate H.
  { cbn in Hn. lia. }
  cbn [String.length] in *.
  assert (Hrest : forall p' out', unquote p' rest = Some (out', r) ->
                                  (String.length r < S (String.length rest))%nat).
  { intros p' out' H'. apply IH in H'; lia. }
  assert (Hemit : forall p' pre, emit pre (unquote p' rest) = Some (out, r) ->
                                 (String.length r < S (String.length rest))%nat).
  { intros p' pre H'. apply emit_inv in H' as [out' H']. by apply (Hrest p' out'). }
  cbn [unquote] in H.
  destruct p as [[|k]|[|k]];
    [ | by apply Hemit in H | | by apply Hrest in H ].
  all: destruct (Ascii.eqb c dquote); [injection H as _ <-; lia|].
  all: destruct (Ascii.eqb c "\");
    [ | destruct (byte c <? 0x20)%N; [discriminate H|];
        destruct (byte c <? 0x80)%N; [by apply Hemit in H|];
        destruct (size c rest); by apply Hemit in H ].
  all: destruct rest as [|e rest1]; [discriminate H|].
  all: assert (Hemit1 : forall p' pre,
                 emit pre (unquote p' rest1) = Some (out, r) ->
                 (String.length r < S (String.length (String e rest1)))%nat)
    by (intros p' pre H'; apply emit_inv in H' as [out' H'];
        apply IH in H'; cbn [String.length] in *; lia).
  all: destruct (Ascii.eqb e "u");
    [ | destruct (escape e); [by apply Hemit1 in H|discriminate H] ].
  all: destruct (hex4 rest1) as [rr|]; [|discriminate H].
  all: destruct (utf16.IsSurrogate rr); [|by apply Hemit1 in H].
  all: destruct (match getu4 (drop 4 rest1) with
                 | Some rr1 => utf16.DecodeRune rr rr1
                 | None => None
                 end); by apply Hemit1 in H.
Qed.

Lemma skip_digits_length (s : string) :
  (String.length (skip_digits s) <= String.length s)%nat.
Proof.
  induction s as [|c s IH]; [reflexivity|]. cbn [skip_digits].
  destruct (isDigit c); cbn [String.length]; lia.
Qed.

Lemma digits1_length (s r : string) :
  digits1 s = Some r -> (String.length r < String.length s)%nat.
Proof.
  destruct s as [|c s]; [discriminate|]. cbn [digits1 String.length].
  destruct (isDigit c); [|discriminate]. intros [= <-].
  pose proof (skip_digits_length s). lia.
Qed.

Lemma scan_number_length (s r : string) :
  scan_number s = Some r -> (String.length r < String.length s)%nat.
Proof.
  unfold scan_number.
  set (s1 := match s with
             | String c rest => if Ascii.eqb c "-" then rest else s
             | EmptyString => s
             end).
  assert (H1 : (String.length s1 <= String.length s)%nat).
  { subst s1. destruct s as [|c rest]; [reflexivity|].
    destruct (Ascii.eqb c "-"); cbn [String.length]; lia. }
  destruct (scan_int s1) as [s2|] eqn:H2; [|discriminate].
  assert (String.length s2 < String.length s1)%nat.
  { unfold scan_int in H2. destruct s1 as [|c rest]; [discriminate H2|].
    cbn [String.length]. destruct (Ascii.eqb c "0"); [injection H2 as <-; lia|].
    destruct (isDigit c); [|discriminate H2]. injection H2 as <-.
    pose proof (skip_digits_length rest). lia. }
  destruct (scan_frac s2) as [s3|] eqn:H3; [|discriminate].
  assert (String.length s3 <= String.length s2)%nat.
  { unfold scan_frac in H3. destruct s2 as [|c rest]; [injection H3 as <-; lia|].
    destruct (Ascii.eqb c ".").
    - apply digits1_length in H3. cbn [String.length]. lia.
    - injection H3 as <-. lia. }
  intros H4.
  assert (String.length r <= String.length s3)%nat; [|lia].
  unfold scan_exp in H4. destruct s3 as [|c rest]; [injection H4 as <-; lia|].
  destruct (Ascii.eqb c "e" || Ascii.eqb c "E"); [|injection H4 as <-; lia].
  destruct rest as [|sg rest']; [discriminate H4|].
  destruct (Ascii.eqb sg "+" || Ascii.eqb sg "-");
    apply digits1_length in H4; cbn [String.length] in *; lia.
Qed.

Lemma strip_prefix_length (p s r : string) :
  strip_prefix p s = Some r -> (String.length r <= String.length s)%nat.
Proof.
  revert s. induction p as [|a p IH]; intros [|b s] H; cbn in H; try discriminate.
  - injection H as <-. lia.
  - injection H as <-. lia.
  - destruct (Ascii.eqb a b); [|discriminate]. apply IH in H. cbn [String.length]. lia.
Qed.

(** A successful parse has used up some of the text, and any fuel that
    covers what it has used up gives the same parse. *)
Lemma parse_enough (big : nat) :
  forall d s,
    (forall v r, parse_value big d s = Some (v, r) ->
       (String.length r < String.length s)%nat
       /\ forall fuel, (String.length s - String.length r <= fuel)%nat ->
                       parse_value fuel d s = Some (v, r))
    /\ (forall ms r, parse_members big d s = Some (ms, r) ->
          (String.length r < String.length s)%nat
          /\ forall fuel, (String.length s - String.length r <= fuel)%nat ->
                          parse_members fuel d s = Some (ms, r))
    /\ (forall vs r, parse_elements big d s = Some (vs, r) ->
          (String.length r < String.length s)%nat
          /\ forall fuel, (String.length s - String.length r <= fuel)%nat ->
                          parse_elements fuel d s = Some (vs, r)).
Proof.
  induction big as [|big IH]; intros d s; [by repeat split|].
  split; [|split].
  - (* values *)
    intros v r H. destruct s as [|c rest]; [discriminate H|].
    cbn [parse_value] in H. cbn [String.length].
    destruct (Ascii.eqb c "{") eqn:Ec1.
    { destruct (maxNestingDepth <? N.succ d)%N eqn:Ed; [discriminate H|].
      pose proof (skip_space_length rest) as Hsp.
      destruct (skip_space rest) as [|c' rest'] eqn:Es; [discriminate H|].
      cbn [String.length] in Hsp.
      destruct (Ascii.eqb c' "}") eqn:Ec'.
      - injection H as <- <-. split; [lia|]. intros [|fuel] Hf; [lia|].
        cbn [parse_value]. by rewrite Ec1, Ed, Es, Ec'.
      - destruct (parse_members big (N.succ d) (String c' rest')) as [[ms r']|] eqn:Hm;
          [|discriminate H].
        injection H as <- <-.
        destruct (proj1 (proj2 (IH (N.succ d) (String c' rest'))) ms r' Hm) as [Hl He].
        cbn [String.length] in Hl, He. split; [lia|]. intros [|fuel] Hf; [lia|].
        cbn [parse_value]. rewrite Ec1, Ed, Es, Ec', He by lia. reflexivity. }
    destruct (Ascii.eqb c "[") eqn:Ec2.
    { destruct (maxNestingDepth <? N.succ d)%N eqn:Ed; [discriminate H|].
      pose proof (skip_space_length rest) as Hsp.
      destruct (skip_space rest) as [|c' rest'] eqn:Es; [discriminate H|].
      cbn [String.length] in Hsp.
      destruct (Ascii.eqb c' "]") eqn:Ec'.
      - injection H as <- <-. split; [lia|]. intros [|fuel] Hf; [lia|].
        cbn [parse_value]. by rewrite Ec1, Ec2, Ed, Es, Ec'.
      - destruct (parse_elements big (N.succ d) (String c' rest')) as [[vs r']|] eqn:Hm;
          [|discriminate H].
        injection H as <- <-.
        destruct (proj2 (proj2 (IH (N.succ d) (String c' rest'))) vs r' Hm) as [Hl He].
        cbn [String.length] in Hl, He. split; [lia|]. intros [|fuel] Hf; [lia|].
        cbn [parse_value]. rewrite Ec1, Ec2, Ed, Es, Ec', He by lia. reflexivity. }
    destruct (Ascii.eqb c dquote) eqn:Ec3.
    { destruct (unquote (Copy 0) rest) as [[str r']|] eqn:Hu; [|discriminate H].
      injection H as <- <-.
      pose proof (unquote_length _ _ _ _ _ (Nat.le_refl _) Hu) as Hl.
      split; [lia|]. intros [|fuel] Hf; [lia|].
      cbn [parse_value]. by rewrite Ec1, Ec2, Ec3, Hu. }
    destruct (Ascii.eqb c "t") eqn:Ec4.
    { destruct (strip_prefix "rue" rest) as [r'|] eqn:Hp; [|discriminate H].
      injection H as <- <-. pose proof (strip_prefix_length _ _ _ Hp) as Hl.
      split; [lia|]. intros [|fuel] Hf; [lia|].
      cbn [parse_value]. by rewrite Ec1, Ec2, Ec3, Ec4, Hp. }
    destruct (Ascii.eqb c "f") eqn:Ec5.
    { destruct (strip_prefix "alse" rest) as [r'|] eqn:Hp; [|discriminate H].
      injection H as <- <-. pose proof (strip_prefix_length _ _ _ Hp) as Hl.
      split; [lia|]. intros [|fuel] Hf; [lia|].
      cbn [parse_value]. by rewrite Ec1, Ec2, Ec3, Ec4, Ec5, Hp. }
    destruct (Ascii.eqb c "n") eqn:Ec6.
    { destruct (strip_prefix "ull" rest) as [r'|] eqn:Hp; [|discriminate H].
      injection H as <- <-. pose proof (strip_prefix_length _ _ _ Hp) as Hl.
      split; [lia|]. intros [|fuel] Hf; [lia|].
      cbn [parse_value]. by rewrite Ec1, Ec2, Ec3, Ec4, Ec5, Ec6, Hp. }
    destruct (scan_number (String c rest)) as [r'|] eqn:Hn; [|discriminate H].
    injection H as <- <-. pose proof (scan_number_length _ _ Hn) as Hl.
    cbn [String.length] in Hl. split; [lia|]. intros [|fuel] Hf; [lia|].
    cbn [parse_value]. by rewrite Ec1, Ec2, Ec3, Ec4, Ec5, Ec6, Hn.
  - (* members *)
    intros ms r H. destruct s as [|c rest]; [discriminate H|].
    cbn [parse_members] in H. cbn [String.length].
    destruct (Ascii.eqb c dquote) eqn:Ec; [|discriminate H].
    destruct (unquote (Copy 0) rest) as [[key r1]|] eqn:Hu; [|discriminate H].
    pose proof (unquote_length _ _ _ _ _ (Nat.le_refl _) Hu) as Hl1.
    pose proof (skip_space_length r1) as Hsp1.
    destruct (skip_space r1) as [|c1 r2] eqn:Es1; [discriminate H|].
    cbn [String.length] in Hsp1.
    destruct (Ascii.eqb c1 ":") eqn:Ec1; [|discriminate H].
    pose proof (skip_space_length r2) as Hsp2.
    destruct (parse_value big d (skip_space r2)) as [[v r3]|] eqn:Hv; [|discriminate H].
    destruct (proj1 (IH d (skip_space r2)) v r3 Hv) as [Hl3 He3].
    pose proof (skip_space_length r3) as Hsp3.
    destruct (skip_space r3) as [|c2 r4] eqn:Es3; [discriminate H|].
    cbn [String.length] in Hsp3.
    destruct (Ascii.eqb c2 ",") eqn:Ec2.
    + pose proof (skip_space_length r4) as Hsp4.
      destruct (parse_members big d (skip_space r4)) as [[ms' r5]|] eqn:Hm; [|discriminate H].
      injection H as <- <-.
      destruct (proj1 (proj2 (IH d (skip_space r4))) ms' r5 Hm) as [Hl5 He5].
      split; [lia|]. intros [|fuel] Hf; [lia|].
      cbn [parse_members]. rewrite Ec, Hu, Es1, Ec1, He3 by lia.
      rewrite Es3, Ec2, He5 by lia. reflexivity.
    + destruct (Ascii.eqb c2 "}") eqn:Ec3; [|discriminate H].
      injection H as <- <-. split; [lia|]. intros [|fuel] Hf; [lia|].
      cbn [parse_members]. rewrite Ec, Hu, Es1, Ec1, He3 by lia.
      by rewrite Es3, Ec2, Ec3.
  - (* elements *)
    intros vs r H. cbn [parse_elements] in H.
    destruct (parse_value big d s) as [[v r1]|] eqn:Hv; [|discriminate H].
    destruct (proj1 (IH d s) v r1 Hv) as [Hl1 He1].
    pose proof (skip_space_length r1) as Hsp1.
    destruct (skip_space r1) as [|c r2] eqn:Es1; [discriminate H|].
    cbn [String.length] in Hsp1.
    destruct (Ascii.eqb c ",") eqn:Ec.
    + pose proof (skip_space_length r2) as Hsp2.
      destruct (parse_elements big d (skip_space r2)) as [[vs' r3]|] eqn:Hm; [|discriminate H].
      injection H as <- <-.
      destruct (proj2 (proj2 (IH d (skip_space r2))) vs' r3 Hm) as [Hl3 He3].
      split; [lia|]. intros [|fuel] Hf; [lia|].
      cbn [parse_elements]. rewrite He1 by lia. rewrite Es1, Ec, He3 by lia. reflexivity.
    + destruct (Ascii.eqb c "]") eqn:Ec'; [|discriminate H].
      injection H as <- <-. split; [lia|]. intros [|fuel] Hf; [lia|].
      cbn [parse_elements]. rewrite He1 by lia. by rewrite Es1, Ec, Ec'.
Qed.

(** The fuel that [parse] hands out is as good as any larger one: when
    [parse] refuses a text, the text is not JSON. *)
Lemma parse_fuel (data : string) (fuel : nat) :
  (String.length data < fuel)%nat ->
  parse_value fuel 0 (skip_space data)
  = parse_value (S (String.length data)) 0 (skip_space data).
Proof.
  intros Hf. pose proof (skip_space_length data) as Hs.
  destruct (parse_value fuel 0 (skip_space data)) as [[v r]|] eqn:H1.
  - destruct (proj1 (parse_enough fuel 0 (skip_space data)) v r H1) as [_ He].
    symmetry. apply He. lia.
  - destruct (parse_value (S (String.length data)) 0 (skip_space data)) as [[v r]|] eqn:H2;
      [|reflexivity].
    destruct (proj1 (parse_enough _ 0 (skip_space data)) v r H2) as [_ He].
    rewrite He in H1 by lia. discriminate H1.
Qed.

End fuel.

(** ** The scenario, run *)

(** The request of the scenario is answered with 201 and leaves [seeded]. *)
Lemma create_in_fresh :
  @createShortURL standard (POST example_body) fresh
  = (Return (created example_record, None), seeded).
Proof. reflexivity. Qed.

(** The table then holds the item of the scenario. *)
Lemma seeded_table : table seeded !! "17000000" = Some example_item.
Proof. vm_compute. reflexivity. Qed.

(** The item decodes to the record it was made from. *)
Lemma example_item_decodes : @UnmarshalMap standard example_item = Ok example_record.
Proof. vm_compute. reflexivity. Qed.

(** The scenario: the short code read in the 201 resolves to
    [https://example.com]. *)
Lemma create_then_resolve_witness :
  exists code,
    returned_short_url (created example_record) = Some code
    /\ exists w2,
         @getOriginalURL standard (GET code) seeded
         = (Return ({| StatusCode := 301;
                       Headers := {[ "Location" := "https://example.com" ]};
                       Body := "" |}, None), w2).
Proof.
  destruct (create_then_resolve (spec := standard_spec) "https://example.com" fresh
              (created example_record) None seeded)
    as (code & Hcode & Hres).
  - vm_compute. reflexivity.
  - exact create_in_fresh.
  - reflexivity.
  - exists code. split; [exact Hcode|]. apply Hres.
    + reflexivity.
    + vm_compute in Hcode. injection Hcode as <-.
      intros item Hit. rewrite seeded_table in Hit. injection Hit as <-.
      exists example_record. exact example_item_decodes.
Defined.

(** A service that throttles the update: the redirect is the same, the
    error is in the log, the table is as it was. *)
Lemma increment_failure_only_logged_witness :
  exists w',
    @getOriginalURL standard (GET "17000000") (failing_at 2 "ThrottlingException" seeded)
    = (Return ({| StatusCode := 301;
                  Headers := {[ "Location" := "https://example.com" ]};
                  Body := "" |}, None), w')
    /\ table w' = table seeded
    /\ logs w' = ["Error updating access count :ThrottlingException"].
Proof.
  destruct (increment_failure_only_logged (spec := standard_spec) (GET "17000000")
              (failing_at 2 "ThrottlingException" seeded) example_item example_record)
    as (err & w1 & w' & _ & Hg & _ & _ & Hf & Hlog & _).
  - reflexivity.
  - vm_compute. reflexivity.
  - exact example_item_decodes.
  - specialize (Hf "ThrottlingException" eq_refl). destruct (Hlog _ Hf) as [Ht Hl].
    exists w'. split; [exact Hg|]. split; [exact Ht|exact Hl].
Defined.

(** The short code of the clock of [fresh]. *)
Lemma generateShortURL_eight_digits_witness :
  generateShortURL fresh = (Return "17000000", ticked fresh).
Proof.
  destruct (generateShortURL_eight_digits fresh) as (code & Hg & _ & Hc & _).
  - vm_compute. discriminate.
  - rewrite Hc in Hg. exact Hg.
Defined.

(** A short code that was never created. *)
Lemma resolve_not_found_witness :
  exists w',
    @getOriginalURL standard (GET "00000000") seeded
    = (Return ({| StatusCode := 404; Headers := ∅; Body := "URL not found" |}, None), w')
    /\ table w' = table seeded
    /\ trace w' = (trace seeded ++ [GetItemCall (key_for (shortURL_of (GET "00000000")))])%list
    /\ logs w' = logs seeded.
Proof.
  apply (resolve_not_found (spec := standard_spec) (GET "00000000") seeded).
  - reflexivity.
  - vm_compute. reflexivity.
Defined.

(** The short code of the scenario. *)
Lemma resolve_redirects_witness :
  exists w',
    @getOriginalURL standard (GET "17000000") seeded
    = (Return ({| StatusCode := 301;
                  Headers := {[ "Location" := LongURL example_record ]};
                  Body := "" |}, None), w').
Proof.
  apply (resolve_redirects (spec := standard_spec) (GET "17000000") seeded example_item).
  - reflexivity.
  - vm_compute. reflexivity.
  - exact example_item_decodes.
Defined.

(** Three calls on the short code of the scenario: three redirects to
    [https://example.com]. *)
Lemma access_count_witness :
  exists w' c',
    @resolves standard 3 (GET "17000000") seeded
    = (Return [(redirect "https://example.com", None);
               (redirect "https://example.com", None);
               (redirect "https://example.com", None)], w')
    /\ access_count w' "17000000" = Some c'
    /\ (0 <= c' <= 3)%Z.
Proof.
  destruct (proj2 (proj2 (access_count_starts_at_zero_and_never_decreases
                            (spec := standard_spec)))
              3%nat (GET "17000000") seeded example_item 0%Z example_record)
    as (w' & c' & Hrs & Hc & Hle).
  - vm_compute. reflexivity.
  - vm_compute. reflexivity.
  - exact example_item_decodes.
  - intros i _. reflexivity.
  - intros c' Hc'.
    assert (Hcases : c' = 0%Z \/ c' = 1%Z \/ c' = 2%Z \/ c' = 3%Z) by lia.
    destruct Hcases as [-> | [-> | [-> | ->]]]; eexists; vm_compute; reflexivity.
  - exists w', c'. split; [exact Hrs|]. split; [exact Hc|exact Hle].
Defined.

(** The request of the scenario with an encoder that gives up. *)
Lemma create_marshal_failure_witness :
  exists w',
    @createShortURL (refusing "unsupported type") (POST example_body) fresh
    = (Return ({| StatusCode := 500; Headers := ∅; Body := "Error marshaling item" |},
               Some "unsupported type"), w')
    /\ table w' = table fresh
    /\ trace w' = trace fresh.
Proof.
  apply (create_marshal_failure (codec := refusing "unsupported type") (POST example_body) fresh
           {| CreateURLRequest.LongURL := "https://example.com" |} "17000000").
  - vm_compute. reflexivity.
  - reflexivity.
  - reflexivity.
Defined.

(** A GET request without path parameters. *)
Lemma resolve_without_shortURL_witness :
  shortURL_of (GET_with ∅) = ""
  /\ @getOriginalURL standard (GET_with ∅) = @getOriginalURL standard (GET "")
  /\ exists resp err w' calls,
       @getOriginalURL standard (GET_with ∅) seeded = (Return (resp, err), w')
       /\ trace w' = (trace seeded ++ GetItemCall (key_for "") :: calls)%list
       /\ (StatusCode resp = 500 \/ StatusCode resp = 404 \/ StatusCode resp = 301)%Z.
Proof.
  apply (resolve_without_shortURL (spec := standard_spec)). reflexivity.
Defined.

(** * Further properties of the handler *)

(** ** Every path of [getOriginalURL], for any codec *)

Section outcomes.

Context {codec : Codec}.

Lemma GetItem_run (key : Item) (w : World) :
  dynamodb.GetItem key w
  = (Return (match fault w (length (trace w)) with
             | Some e => (None, Some e)
             | None =>
               match dynamodb.key_of key with
               | Some k => (table w !! k, None)
               | None => (None, Some dynamodb.validation)
               end
             end), sent (GetItemCall key) w).
Proof.
  unfold dynamodb.GetItem, dynamodb.send, dynamodb.get_table, mbind, M_bind.
  destruct (fault w (length (trace w))); [reflexivity|].
  by destruct (dynamodb.key_of key).
Qed.

Lemma getOriginalURL_run request w :
  getOriginalURL request w
  = match MarshalStringMap {[ "short_url" := shortURL_of request ]} with
    | Err e => (Return (plain 500 "Error creating key", Some e), w)
    | Ok key =>
      let w0 := sent (GetItemCall key) w in
      match fault w (length (trace w)) with
      | Some e => (Return (plain 500 "Error querying DynamoDB", Some e), w0)
      | None =>
        match dynamodb.key_of key with
        | None => (Return (plain 500 "Error querying DynamoDB", Some dynamodb.validation), w0)
        | Some k =>
          match table w !! k with
          | None => (Return (plain 404 "URL not found", None), w0)
          | Some item =>
            match UnmarshalMap item with
            | Err e => (Return (plain 500 "Error unmarshaling item", Some e), w0)
            | Ok m =>
              match dynamodb.UpdateItem (increment key) w0 with
              | (Return (Some e), w1) =>
                (Return (redirect (LongURL m), None),
                 logged ("Error updating access count :" ++ e) w1)
              | (Return None, w1) => (Return (redirect (LongURL m), None), w1)
              | (Panic msg, w1) => (Panic msg, w1)
              end
            end
          end
        end
      end
    end.
Proof.
  unfold getOriginalURL. fold (shortURL_of request).
  destruct (MarshalStringMap _) as [key|e]; [|reflexivity].
  cbv zeta. unfold mbind at 1, M_bind at 1. rewrite GetItem_run.
  destruct (fault w (length (trace w))) as [e|]; [reflexivity|].
  destruct (dynamodb.key_of key) as [k|]; [|reflexivity].
  destruct (table w !! k) as [item|]; [|reflexivity].
  destruct (UnmarshalMap item) as [m|e]; [|reflexivity].
  fold (increment key). unfold mbind at 1, M_bind at 1.
  by destruct (dynamodb.UpdateItem _ _) as [[[e|]|msg] w1].
Qed.

Lemma getOriginalURL_outcome request w :
  match MarshalStringMap {[ "short_url" := shortURL_of request ]} with
  | Err e => getOriginalURL request w = (Return (plain 500 "Error creating key", Some e), w)
  | Ok key =>
    let w0 := sent (GetItemCall key) w in
    match fault w (length (trace w)) with
    | Some e =>
      getOriginalURL request w = (Return (plain 500 "Error querying DynamoDB", Some e), w0)
    | None =>
      match dynamodb.key_of key with
      | None =>
        getOriginalURL request w
        = (Return (plain 500 "Error querying DynamoDB", Some dynamodb.validation), w0)
      | Some k =>
        match table w !! k with
        | None => getOriginalURL request w = (Return (plain 404 "URL not found", None), w0)
        | Some item =>
          match UnmarshalMap item with
          | Err e =>
            getOriginalURL request w
            = (Return (plain 500 "Error unmarshaling item", Some e), w0)
          | Ok m =>
            exists uerr w1,
              dynamodb.UpdateItem (increment key) w0 = (Return uerr, w1)
              /\ getOriginalURL request w
                 = (Return (redirect (LongURL m), None),
                    match uerr with
                    | Some e => logged ("Error updating access count :" ++ e) w1
                    | None => w1
                    end)
          end
        end
      end
    end
  end.
Proof.
  rewrite getOriginalURL_run.
  destruct (MarshalStringMap _) as [key|e]; [|reflexivity].
  cbv zeta. destruct (fault w (length (trace w))) as [e|]; [reflexivity|].
  destruct (dynamodb.key_of key) as [k|]; [|reflexivity].
  destruct (table w !! k) as [item|]; [|reflexivity].
  destruct (UnmarshalMap item) as [m|e]; [|reflexivity].
  destruct (UpdateItem_returns (increment key) (sent (GetItemCall key) w))
    as (uerr & w1 & Hu & _).
  exists uerr, w1. split; [exact Hu|]. rewrite Hu. by destruct uerr.
Qed.

(** What one call of [getOriginalURL] comes to: it returns; it has sent
    nothing, a lookup, or a lookup and the update; the log has grown by at
    most the line of a failed update, and only beside a redirect; the error
    is there exactly with a 500; the table is as before or differs in the
    counter of one item. *)
Lemma getOriginalURL_summary request w :
  exists resp err w' calls,
    getOriginalURL request w = (Return (resp, err), w')
    /\ trace w' = (trace w ++ calls)%list /\ resolve_traffic calls
    /\ (is_Some err <-> StatusCode resp = 500%Z)
    /\ (StatusCode resp = 500 \/ StatusCode resp = 404 \/ StatusCode resp = 301)%Z
    /\ (logs w' = logs w
        \/ StatusCode resp = 301%Z
           /\ exists e, logs w' = (logs w ++ [("Error updating access count :" ++ e)%string])%list)
    /\ (table w' = table w
        \/ StatusCode resp = 301%Z
           /\ exists k item n d,
                table w !! k = Some item
                /\ item !! "access_count" = Some (AttributeValueMemberN n)
                /\ table w'
                   = <[ k := <[ "access_count" := AttributeValueMemberN (n + d) ]> item ]>
                       (table w)).
Proof.
  pose proof (getOriginalURL_outcome request w) as H.
  assert (E500 : forall e : string, is_Some (Some e) <-> (500 = 500)%Z) by (by split; eauto).
  assert (Enil : forall c : Z, c <> 500%Z -> is_Some (@None string) <-> c = 500%Z).
  { intros c Hc. split; [by intros [? ?]|done]. }
  destruct (MarshalStringMap _) as [key|e].
  2:{ exists (plain 500 "Error creating key"), (Some e), w, [].
      rewrite app_nil_r. repeat split; eauto; by left. }
  cbv zeta in H. destruct (fault w (length (trace w))) as [e|].
  { eexists _, _, _, [_]. split; [exact H|]. split; [reflexivity|].
    split; [right; eexists; by left|]. repeat split; eauto. }
  destruct (dynamodb.key_of key) as [k|].
  2:{ eexists _, _, _, [_]. split; [exact H|]. split; [reflexivity|].
      split; [right; eexists; by left|]. repeat split; eauto. }
  destruct (table w !! k) as [item|] eqn:Hk.
  2:{ eexists _, _, _, [_]. split; [exact H|]. split; [reflexivity|].
      split; [right; eexists; by left|]. split; [by apply Enil|]. repeat split; eauto. }
  destruct (UnmarshalMap item) as [m|e].
  2:{ eexists _, _, _, [_]. split; [exact H|]. split; [reflexivity|].
      split; [right; eexists; by left|]. repeat split; eauto. }
  destruct H as (uerr & w1 & Hu & Hg).
  destruct (UpdateItem_cases (increment key) (sent (GetItemCall key) w))
    as [[e He]|(k' & item' & n & d & Hk' & Htk & Hn & _ & Hacc)].
  - rewrite He in Hu. injection Hu as <- <-.
    eexists _, _, _, [_; _]. split; [exact Hg|]. split; [cbn; by rewrite <- app_assoc|].
    split; [right; eexists; by right|]. split; [by apply Enil|].
    split; [eauto|]. split; [right; split; [reflexivity|by exists e]|by left].
  - rewrite Hacc in Hu. injection Hu as <- <-.
    eexists _, _, _, [_; _]. split; [exact Hg|]. split; [cbn; by rewrite <- app_assoc|].
    split; [right; eexists; by right|]. split; [by apply Enil|].
    split; [eauto|]. split; [by left|].
    right. split; [reflexivity|]. by exists k', item', n, d.
Qed.

(** The same for [createShortURL], which may also panic. *)
Lemma createShortURL_summary request w :
  (exists w',
     createShortURL request w = (Panic "runtime error: slice bounds out of range", w')
     /\ trace w' = trace w /\ table w' = table w /\ logs w' = logs w
     /\ exists createReq,
          json.Unmarshal (APIGatewayProxyRequest.Body request) = Ok createReq
          /\ (String.length (strconv.FormatInt (time.UnixNano (clock w (ticks w)))) < 8)%nat)
  \/ (exists resp err w' calls,
        createShortURL request w = (Return (resp, err), w')
        /\ trace w' = (trace w ++ calls)%list /\ create_traffic calls
        /\ (is_Some err <-> StatusCode resp = 500%Z)
        /\ (StatusCode resp = 400 \/ StatusCode resp = 500 \/ StatusCode resp = 201)%Z
        /\ logs w' = logs w
        /\ (table w' = table w
            \/ StatusCode resp = 201%Z
               /\ exists k item, calls = [PutItemCall item]
                                 /\ table w' = <[ k := item ]> (table w))).
Proof.
  rewrite createShortURL_paths.
  assert (Enil : forall c : Z, c <> 500%Z -> is_Some (@None string) <-> c = 500%Z).
  { intros c Hc. split; [by intros [? ?]|done]. }
  destruct (json.Unmarshal _) as [createReq|e] eqn:Hj.
  2:{ right. eexists _, _, _, []. split; [reflexivity|]. rewrite app_nil_r.
      split; [reflexivity|]. split; [by left|]. split; [by apply Enil|].
      repeat split; eauto. }
  cbv zeta. destruct (8 <=? _)%nat eqn:H8.
  2:{ left. eexists. split; [reflexivity|]. repeat split.
      exists createReq. split; [reflexivity|]. by apply Nat.leb_gt. }
  right. destruct (MarshalMap _) as [item|e].
  2:{ eexists _, _, _, []. split; [reflexivity|]. rewrite app_nil_r.
      split; [reflexivity|]. split; [by left|]. repeat split; eauto. }
  destruct (fault w (length (trace w))) as [e|].
  { eexists _, _, _, [_]. split; [reflexivity|]. split; [reflexivity|].
    split; [right; by eexists|]. repeat split; eauto. }
  destruct (item !! "short_url") as [[k| |]|].
  - eexists _, _, _, [_]. split; [reflexivity|]. split; [reflexivity|].
    split; [right; by eexists|]. split; [by apply Enil|]. split; [eauto|].
    split; [reflexivity|]. right. split; [reflexivity|]. by exists k, item.
  - eexists _, _, _, [_]. split; [reflexivity|]. split; [reflexivity|].
    split; [right; by eexists|]. repeat split; eauto.
  - eexists _, _, _, [_]. split; [reflexivity|]. split; [reflexivity|].
    split; [right; by eexists|]. repeat split; eauto.
  - eexists _, _, _, [_]. split; [reflexivity|]. split; [reflexivity|].
    split; [right; by eexists|]. repeat split; eauto.
Qed.

End outcomes.

(** ** The paths of [createShortURL] and [getOriginalURL] that end in 500 or 201 *)

Section more_paths.

Context `{spec : CodecSpec}.

(** X1. When the body decodes, the short code is generated, the record
    is encoded and the table accepts the write, [createShortURL] answers
    201 with the header [Content-Type: application/json], the JSON of the
    record as body and a nil error. It has sent one [PutItem] with the
    encoded record; the table holds that item under the short code and is
    elsewhere as before; the log is as before. *)
Theorem create_stores_the_record request w createReq shortURL item :
  json.Unmarshal (APIGatewayProxyRequest.Body request) = Ok createReq ->
  generateShortURL w = (Return shortURL, ticked w) ->
  MarshalMap {| ShortURL := shortURL;
                LongURL := CreateURLRequest.LongURL createReq;
                CreatedAt := clock w (S (ticks w));
                AccessCount := 0 |} = Ok item ->
  fault w (length (trace w)) = None ->
  exists w',
    createShortURL request w
    = (Return ({| StatusCode := 201;
                  Headers := {[ "Content-Type" := "application/json" ]};
                  Body := json.Marshal {| ShortURL := shortURL;
                                          LongURL := CreateURLRequest.LongURL createReq;
                                          CreatedAt := clock w (S (ticks w));
                                          AccessCount := 0 |} |}, None), w')
    /\ table w' !! shortURL = Some item
    /\ (forall k, k <> shortURL -> table w' !! k = table w !! k)
    /\ trace w' = (trace w ++ [PutItemCall item])%list
    /\ logs w' = logs w.
Proof.
  intros Hj Hg Hm Hf. rewrite createShortURL_paths, Hj. cbv zeta.
  rewrite generateShortURL_run in Hg. cbv zeta in Hg.
  destruct (8 <=? _)%nat; [|discriminate Hg]. injection Hg as <-.
  rewrite Hm, Hf. pose proof (marshal_short_url _ _ Hm) as Hk. cbn [ShortURL] in Hk.
  rewrite Hk. eexists. split; [reflexivity|]. cbn [table stored sent trace logs ticked].
  split; [by rewrite lookup_insert_eq|]. split; [|by split].
  intros k Hne. by rewrite lookup_insert_ne.
Qed.

(** X2. When the table answers the lookup with an error,
    [getOriginalURL] returns 500 "Error querying DynamoDB" together with
    that error. It has sent the lookup and no update; table and log are as
    before. *)
Theorem resolve_query_failure request w e :
  fault w (length (trace w)) = Some e ->
  exists w',
    getOriginalURL request w
    = (Return ({| StatusCode := 500; Headers := ∅; Body := "Error querying DynamoDB" |},
               Some e), w')
    /\ table w' = table w
    /\ trace w' = (trace w ++ [GetItemCall (key_for (shortURL_of request))])%list
    /\ logs w' = logs w.
Proof.
  intros Hf. pose proof (getOriginalURL_paths request w) as H. cbv zeta in H.
  rewrite Hf in H. eexists. split; [exact H|]. by repeat split.
Qed.

(** X3. When the lookup finds an item that does not decode into a
    [URLMapping], [getOriginalURL] returns 500 "Error unmarshaling item"
    together with the decoder's error. No update is sent: the counter of an
    item that cannot be read is not touched. *)
Theorem resolve_undecodable_item request w item e :
  fault w (length (trace w)) = None ->
  table w !! shortURL_of request = Some item ->
  UnmarshalMap item = Err e ->
  exists w',
    getOriginalURL request w
    = (Return ({| StatusCode := 500; Headers := ∅; Body := "Error unmarshaling item" |},
               Some e), w')
    /\ table w' = table w
    /\ trace w' = (trace w ++ [GetItemCall (key_for (shortURL_of request))])%list
    /\ logs w' = logs w.
Proof.
  intros Hf Hit Hm. pose proof (getOriginalURL_paths request w) as H. cbv zeta in H.
  rewrite Hf, Hit, Hm in H. eexists. split; [exact H|]. by repeat split.
Qed.

(** X4. A call of [getOriginalURL] leaves the table as it was, or it
    has added 1 to the [access_count] of the item under the requested short
    code and changed nothing else: no other attribute of that item, no
    other item, and the set of short codes stays the same. *)
Theorem resolve_changes_only_the_counter request w r w' :
  getOriginalURL request w = (Return r, w') ->
  table w' = table w
  \/ exists item n,
       table w !! shortURL_of request = Some item
       /\ item !! "access_count" = Some (AttributeValueMemberN n)
       /\ table w'
          = <[ shortURL_of request
               := <[ "access_count" := AttributeValueMemberN (n + 1) ]> item ]> (table w).
Proof.
  intros Hg. pose proof (getOriginalURL_paths request w) as H. cbv zeta in H.
  destruct (fault w (length (trace w))); [rewrite H in Hg; injection Hg as _ <-; by left|].
  destruct (table w !! shortURL_of request) as [item|] eqn:Hit;
    [|rewrite H in Hg; injection Hg as _ <-; by left].
  destruct (UnmarshalMap item); [|rewrite H in Hg; injection Hg as _ <-; by left].
  destruct H as (uerr & w1 & Hu & Hg'). rewrite Hg' in Hg. injection Hg as _ <-.
  destruct (UpdateItem_cases (increment (key_for (shortURL_of request)))
              (sent (GetItemCall (key_for (shortURL_of request))) w))
    as [[e He]|(k & item' & n & d & Hk & Htk & Hn & Hd & Hacc)].
  - rewrite He in Hu. injection Hu as <- <-. by left.
  - rewrite Hacc in Hu. injection Hu as <- <-.
    cbn [increment Key] in Hk. rewrite key_of_key_for in Hk. injection Hk as <-.
    cbn [table sent] in Htk. rewrite Hit in Htk. injection Htk as <-.
    cbn [increment ExpressionAttributeValues] in Hd.
    rewrite lookup_singleton_eq in Hd. injection Hd as <-.
    right. by exists item, n.
Qed.

(** X5. Two requests whose clock readings begin with the same eight
    digits get the same short code, and the second 201 replaces the record
    of the first: the table then holds the second record under the code,
    and resolving the code redirects to the [long_url] of the second
    request. Nothing tells the second client, or the first. *)
Theorem second_create_overwrites request1 request2 w resp1 err1 w1 resp2 err2 w2 :
  createShortURL request1 w = (Return (resp1, err1), w1) ->
  StatusCode resp1 = 201%Z ->
  createShortURL request2 w1 = (Return (resp2, err2), w2) ->
  StatusCode resp2 = 201%Z ->
  substring 0 8 (strconv.FormatInt (time.UnixNano (clock w1 (ticks w1))))
  = substring 0 8 (strconv.FormatInt (time.UnixNano (clock w (ticks w)))) ->
  exists m1 m2 createReq2 item2,
    resp1 = created m1 /\ resp2 = created m2
    /\ ShortURL m2 = ShortURL m1
    /\ json.Unmarshal (APIGatewayProxyRequest.Body request2) = Ok createReq2
    /\ LongURL m2 = CreateURLRequest.LongURL createReq2
    /\ MarshalMap m2 = Ok item2
    /\ table w2 !! ShortURL m1 = Some item2
    /\ (fault w2 (length (trace w2)) = None ->
        forall m, UnmarshalMap item2 = Ok m ->
        exists w3,
          getOriginalURL (GET (ShortURL m1)) w2
          = (Return ({| StatusCode := 301;
                        Headers := {[ "Location" := CreateURLRequest.LongURL createReq2 ]};
                        Body := "" |}, None), w3)).
Proof.
  intros Hc1 H1 Hc2 H2 Hsame.
  destruct (createShortURL_created _ _ _ _ _ Hc1 H1)
    as (createReq1 & m1 & item1 & _ & Hm1 & _ & -> & _ & _).
  destruct (createShortURL_created _ _ _ _ _ Hc2 H2)
    as (createReq2 & m2 & item2 & Hj2 & Hm2 & Hitem2 & -> & _ & ->).
  assert (Hcode : ShortURL m2 = ShortURL m1) by (subst m1 m2; exact Hsame).
  exists m1, m2, createReq2, item2.
  split; [reflexivity|]. split; [reflexivity|]. split; [exact Hcode|].
  split; [exact Hj2|]. split; [by subst m2|]. split; [exact Hitem2|].
  assert (Hit : table (stored (<[ShortURL m2:=item2]> (table w1))
                         (sent (PutItemCall item2) (ticked (ticked w1))))
                !! ShortURL m1 = Some item2).
  { cbn [table stored]. rewrite <- Hcode. by rewrite lookup_insert_eq. }
  split; [exact Hit|]. intros Hf m Hm.
  rewrite <- (shortURL_of_GET (ShortURL m1)) in Hit.
  destruct (getOriginalURL_found _ _ item2 m Hf Hit Hm) as (uerr & w3 & _ & Hg).
  rewrite (unmarshal_long_url m2 item2 m Hitem2 Hm) in Hg.
  replace (LongURL m2) with (CreateURLRequest.LongURL createReq2) in Hg by (by subst m2).
  by eexists.
Qed.

End more_paths.

Section more_paths_any_codec.

Context {codec : Codec}.

(** X6. When the table answers the write with an error,
    [createShortURL] returns 500 "Error saving to DynamoDB" together with
    that error; the table is as before, and so a client that gets this
    500 has created nothing. *)
Theorem create_store_failure request w createReq shortURL item e :
  json.Unmarshal (APIGatewayProxyRequest.Body request) = Ok createReq ->
  generateShortURL w = (Return shortURL, ticked w) ->
  MarshalMap {| ShortURL := shortURL;
                LongURL := CreateURLRequest.LongURL createReq;
                CreatedAt := clock w (S (ticks w));
                AccessCount := 0 |} = Ok item ->
  fault w (length (trace w)) = Some e ->
  exists w',
    createShortURL request w
    = (Return ({| StatusCode := 500; Headers := ∅; Body := "Error saving to DynamoDB" |},
               Some e), w')
    /\ table w' = table w
    /\ trace w' = (trace w ++ [PutItemCall item])%list
    /\ logs w' = logs w.
Proof.
  intros Hj Hg Hm Hf. rewrite createShortURL_paths, Hj. cbv zeta.
  rewrite generateShortURL_run in Hg. cbv zeta in Hg.
  destruct (8 <=? _)%nat; [|discriminate Hg]. injection Hg as <-.
  rewrite Hm, Hf. eexists. split; [reflexivity|]. by repeat split.
Qed.

(** X7. When the key cannot be encoded, [getOriginalURL] returns 500
    "Error creating key" together with the encoder's error and has done
    nothing else: the world is as it was. *)
Theorem resolve_key_failure request w e :
  MarshalStringMap {[ "short_url" := shortURL_of request ]} = Err e ->
  getOriginalURL request w
  = (Return ({| StatusCode := 500; Headers := ∅; Body := "Error creating key" |}, Some e), w).
Proof. intros Hk. rewrite getOriginalURL_run. by rewrite Hk. Qed.

(** What one call of [handleRequest] comes to, from the two summaries. *)
Lemma handleRequest_summary request w :
  (exists w',
     handleRequest request w = (Panic "runtime error: slice bounds out of range", w')
     /\ trace w' = trace w /\ table w' = table w /\ logs w' = logs w
     /\ HTTPMethod request = "POST"
     /\ exists createReq,
          json.Unmarshal (APIGatewayProxyRequest.Body request) = Ok createReq
          /\ (String.length (strconv.FormatInt (time.UnixNano (clock w (ticks w)))) < 8)%nat)
  \/ (exists resp err w' calls,
        handleRequest request w = (Return (resp, err), w')
        /\ trace w' = (trace w ++ calls)%list
        /\ (HTTPMethod request = "POST" /\ create_traffic calls
            \/ HTTPMethod request = "GET" /\ resolve_traffic calls
            \/ HTTPMethod request <> "POST" /\ HTTPMethod request <> "GET" /\ calls = []
               /\ StatusCode resp = 405%Z)
        /\ (is_Some err <-> StatusCode resp = 500%Z)
        /\ (logs w' = logs w
            \/ StatusCode resp = 301%Z
               /\ exists e, logs w'
                            = (logs w ++ [("Error updating access count :" ++ e)%string])%list)
        /\ (table w' = table w
            \/ (StatusCode resp = 201 \/ StatusCode resp = 301)%Z
               /\ exists k item, table w' = <[ k := item ]> (table w))).
Proof.
  unfold handleRequest.
  destruct (String.eqb_spec (HTTPMethod request) "POST") as [HP|HP].
  { destruct (createShortURL_summary request w)
      as [(w' & Hc & Ht & Htb & Hl & Hx)
         |(resp & err & w' & calls & Hc & Ht & Htr & He & _ & Hl & Htb)].
    - left. exists w'. by repeat split.
    - right. exists resp, err, w', calls. split; [exact Hc|]. split; [exact Ht|].
      split; [by left|]. split; [exact He|]. split; [by left|].
      destruct Htb as [Htb|(H201 & k & item & _ & Htb)]; [by left|].
      right. split; [by left|]. by exists k, item. }
  destruct (String.eqb_spec (HTTPMethod request) "GET") as [HG|HG].
  { right. destruct (getOriginalURL_summary request w)
      as (resp & err & w' & calls & Hc & Ht & Htr & He & _ & Hl & Htb).
    exists resp, err, w', calls. split; [exact Hc|]. split; [exact Ht|].
    split; [right; by left|]. split; [exact He|]. split; [exact Hl|].
    destruct Htb as [Htb|(H301 & k & item & n & d & _ & _ & Htb)]; [by left|].
    right. split; [by right|]. by eexists k, _. }
  right. eexists _, _, w, []. split; [reflexivity|]. rewrite app_nil_r.
  split; [reflexivity|]. split; [right; right; by repeat split|].
  split; [split; [by intros [? ?]|discriminate]|]. split; by left.
Qed.

(** X8. Whatever the request, [handleRequest] returns a non-nil error
    exactly when the status of its response is 500: a 201, 301, 400, 404
    or 405 never comes with an error, and a 500 never without one. *)
Theorem error_exactly_with_500 request w resp err w' :
  handleRequest request w = (Return (resp, err), w') ->
  is_Some err <-> StatusCode resp = 500%Z.
Proof.
  intros H. destruct (handleRequest_summary request w)
    as [(w0 & Hp & _)|(resp0 & err0 & w0 & calls & Hr & _ & _ & He & _)].
  - rewrite Hp in H. discriminate H.
  - rewrite Hr in H. by injection H as <- <- _.
Qed.

(** X9. Whatever the request and however the invocation ends, the
    table is as it was unless the response is a 201 or a 301: a request
    that is refused, not found, not allowed or failed has written
    nothing. *)
Theorem table_changes_only_with_201_or_301 request w o w' :
  handleRequest request w = (o, w') ->
  table w' = table w
  \/ exists resp, o = Return (resp, None)
                  /\ (StatusCode resp = 201 \/ StatusCode resp = 301)%Z.
Proof.
  intros H. destruct (handleRequest_summary request w)
    as [(w0 & Hp & _ & Htb & _)|(resp0 & err0 & w0 & calls & Hr & _ & _ & He & _ & Htb)].
  - rewrite Hp in H. injection H as _ <-. by left.
  - rewrite Hr in H. injection H as <- <-.
    destruct Htb as [Htb|[Hs _]]; [by left|]. right. exists resp0. split; [|exact Hs].
    destruct err0 as [e|]; [|reflexivity].
    assert (StatusCode resp0 = 500%Z) by (apply He; by eexists). lia.
Qed.

(** X10. No invocation removes a record: a short code that has an item
    before a call of [handleRequest] has one after it. *)
Theorem records_are_never_removed request w o w' k :
  handleRequest request w = (o, w') ->
  is_Some (table w !! k) -> is_Some (table w' !! k).
Proof.
  intros H Hk. destruct (handleRequest_summary request w)
    as [(w0 & Hp & _ & Htb & _)|(resp0 & err0 & w0 & calls & Hr & _ & _ & _ & _ & Htb)].
  - rewrite Hp in H. injection H as _ <-. by rewrite Htb.
  - rewrite Hr in H. injection H as _ <-.
    destruct Htb as [->|(_ & k' & item & ->)]; [exact Hk|].
    destruct (decide (k' = k)) as [->|Hne].
    + rewrite lookup_insert_eq. by eexists.
    + by rewrite lookup_insert_ne.
Qed.

(** X11. The only line that [handleRequest] ever writes to the log is
    the one for a failed update of the counter, and it writes it beside a
    301 with a nil error; after any other outcome the log is as it was. *)
Theorem log_grows_only_by_a_failed_update request w o w' :
  handleRequest request w = (o, w') ->
  logs w' = logs w
  \/ exists resp e,
       o = Return (resp, None) /\ StatusCode resp = 301%Z
       /\ logs w' = (logs w ++ [("Error updating access count :" ++ e)%string])%list.
Proof.
  intros H. destruct (handleRequest_summary request w)
    as [(w0 & Hp & _ & _ & Hl & _)|(resp0 & err0 & w0 & calls & Hr & _ & _ & He & Hl & _)].
  - rewrite Hp in H. injection H as _ <-. by left.
  - rewrite Hr in H. injection H as <- <-.
    destruct Hl as [Hl|(Hs & e & Hl)]; [by left|]. right. exists resp0, e.
    split; [|by split]. destruct err0 as [e'|]; [|reflexivity].
    assert (StatusCode resp0 = 500%Z) by (apply He; by eexists). lia.
Qed.

(** X12. What an invocation sends to the table is decided by the
    method: a POST sends nothing or one [PutItem]; a GET sends nothing, one
    [GetItem], or one [GetItem] followed by the update of the counter under
    the same key; any other method sends nothing. Requests already sent
    stay in the trace. *)
Theorem store_traffic_by_method request w o w' :
  handleRequest request w = (o, w') ->
  exists calls,
    trace w' = (trace w ++ calls)%list
    /\ (HTTPMethod request = "POST" -> create_traffic calls)
    /\ (HTTPMethod request = "GET" -> resolve_traffic calls)
    /\ (HTTPMethod request <> "POST" -> HTTPMethod request <> "GET" -> calls = []).
Proof.
  intros H. destruct (handleRequest_summary request w)
    as [(w0 & Hp & Ht & _ & _ & HP & _)|(resp0 & err0 & w0 & calls & Hr & Ht & Hm & _)].
  - rewrite Hp in H. injection H as _ <-. exists []. rewrite app_nil_r.
    split; [exact Ht|]. split; [intros _; by left|]. split; [intros _; by left|done].
  - rewrite Hr in H. injection H as _ <-. exists calls. split; [exact Ht|].
    destruct Hm as [[HP Hc]|[[HG Hc]|(HP & HG & Hc & _)]].
    + split; [done|]. split; [|done]. intros HG. rewrite HP in HG. discriminate HG.
    + split; [|split; [done|done]]. intros HP. rewrite HG in HP. discriminate HP.
    + subst calls. split; [done|]. split; [done|done].
Qed.

End more_paths_any_codec.

(** ** How long the decimal text of the clock is *)

Lemma digits_length_le (fuel : nat) (n : Z) (acc : string) (k : nat) :
  (1 <= k)%nat -> (0 <= n < 10 ^ Z.of_nat k)%Z ->
  (String.length (strconv.digits fuel n acc) <= k + String.length acc)%nat.
Proof.
  revert n acc k. induction fuel as [|fuel IH]; intros n acc k Hk Hn; [cbn; lia|].
  cbn [strconv.digits]. destruct (Z.ltb_spec n 10) as [Hlt|Hge]; [cbn [String.length]; lia|].
  destruct k as [|[|k]]; [lia|cbn in Hn; lia|].
  assert (Hdiv : (0 <= n / 10 < 10 ^ Z.of_nat (S k))%Z).
  { split; [apply Z.div_pos; lia|]. apply Z.div_lt_upper_bound; [lia|].
    replace (Z.of_nat (S (S k))) with (Z.of_nat (S k) + 1)%Z in Hn by lia.
    rewrite Z.pow_add_r in Hn by lia. lia. }
  specialize (IH (n / 10)%Z (String (strconv.digit (n mod 10)) acc) (S k) ltac:(lia) Hdiv).
  cbn [String.length] in IH. lia.
Qed.

Lemma digits_acc (fuel : nat) (n : Z) (acc : string) :
  strconv.digits fuel n acc = strconv.digits fuel n "" ++ acc.
Proof.
  revert n acc. induction fuel as [|fuel IH]; intros n acc; [reflexivity|].
  cbn [strconv.digits]. destruct (n <? 10)%Z; [reflexivity|].
  rewrite IH, (IH _ (String _ "")), append_assoc. reflexivity.
Qed.

(** More fuel than the digits need changes nothing. *)
Lemma digits_fuel (fuel fuel' : nat) (n : Z) (acc : string) :
  (0 < fuel <= fuel')%nat -> (0 <= n < 10 ^ Z.of_nat fuel)%Z ->
  strconv.digits fuel n acc = strconv.digits fuel' n acc.
Proof.
  revert fuel' n acc. induction fuel as [|fuel IH]; intros fuel' n acc Hf Hn; [lia|].
  destruct fuel' as [|fuel']; [lia|]. cbn [strconv.digits].
  destruct (Z.ltb_spec n 10) as [Hlt|Hge]; [reflexivity|].
  assert (0 < fuel)%nat by (destruct fuel; [cbn in Hn; lia|lia]).
  apply IH; [lia|]. split; [apply Z.div_pos; lia|].
  apply Z.div_lt_upper_bound; [lia|].
  replace (Z.of_nat (S fuel)) with (Z.of_nat fuel + 1)%Z in Hn by lia.
  rewrite Z.pow_add_r in Hn by lia. lia.
Qed.

(** The last [k] digits of a number that has more than [k]. *)
Lemma digits_div (k fuel : nat) (n : Z) (acc : string) :
  (10 ^ Z.of_nat k <= n)%Z ->
  exists t, String.length t = k
            /\ strconv.digits (k + fuel) n acc
               = strconv.digits fuel (n / 10 ^ Z.of_nat k) (t ++ acc).
Proof.
  revert n acc. induction k as [|k IH]; intros n acc Hn.
  { exists "". split; [reflexivity|]. cbn. by rewrite Z.div_1_r. }
  replace (Z.of_nat (S k)) with (Z.of_nat k + 1)%Z in * by lia.
  rewrite Z.pow_add_r in * by lia. change (10 ^ 1)%Z with 10%Z in *.
  assert (H1 : (1 <= 10 ^ Z.of_nat k)%Z)
    by (pose proof (Z.pow_pos_nonneg 10 (Z.of_nat k) ltac:(lia) ltac:(lia)); lia).
  cbn [Nat.add strconv.digits]. destruct (Z.ltb_spec n 10) as [Hlt|Hge]; [lia|].
  destruct (IH (n / 10)%Z (String (strconv.digit (n mod 10)) acc)) as (t & Ht & Hd).
  { apply Z.div_le_lower_bound; lia. }
  exists (t ++ String (strconv.digit (n mod 10)) ""). split.
  - rewrite length_append. cbn. lia.
  - rewrite Hd, append_assoc, append_cons, append_nil_l.
    by rewrite Z.div_div, (Z.mul_comm 10) by lia.
Qed.

Lemma substring_0_append (a b : string) :
  substring 0 (String.length a) (a ++ b) = a.
Proof.
  induction a as [|c a IH]; [by destruct b|]. rewrite append_cons. cbn. by rewrite IH.
Qed.

(** The text of a 64-bit value has fewer than eight characters exactly
    when the value lies strictly between -10^6 and 10^7. *)
Lemma FormatInt_short (n : Z) :
  (- 2 ^ 63 <= n < 2 ^ 63)%Z ->
  (String.length (strconv.FormatInt n) < 8)%nat <-> (- 10 ^ 6 < n < 10 ^ 7)%Z.
Proof.
  intros Hn. unfold strconv.FormatInt. destruct (Z.ltb_spec n 0) as [Hneg|Hpos].
  - cbn [String.length].
    destruct (digits_spec 20 (- n) "" ltac:(lia) ltac:(lia)) as (ds & Hds & _ & Hlen & _).
    rewrite append_nil_r in Hds. rewrite Hds. split.
    + intros Hl. split; [|lia].
      assert (10 ^ Z.of_nat (String.length ds) <= 10 ^ 6)%Z by (apply Z.pow_le_mono_r; lia).
      lia.
    + intros [Hlo _]. rewrite <- Hds.
      pose proof (digits_length_le 20 (- n) "" 6 ltac:(lia) ltac:(lia)) as Hle.
      cbn [String.length] in Hle. lia.
  - destruct (digits_spec 20 n "" ltac:(lia) ltac:(lia)) as (ds & Hds & _ & Hlen & _).
    rewrite append_nil_r in Hds. rewrite Hds. split.
    + intros Hl. split; [lia|].
      assert (10 ^ Z.of_nat (String.length ds) <= 10 ^ 7)%Z by (apply Z.pow_le_mono_r; lia).
      lia.
    + intros [_ Hhi]. rewrite <- Hds.
      pose proof (digits_length_le 20 n "" 7 ltac:(lia) ltac:(lia)) as Hle.
      cbn [String.length] in Hle. lia.
Qed.

(** X13. With a clock of today, whose count of nanoseconds has 19
    digits (from September 2001 on), the short code is the decimal text of
    the count divided by 10^11: the number of the 100-second period that
    the request falls in. All requests of one such period get the same
    short code. *)
Theorem short_code_is_the_hundred_second_period (w : World) :
  let now := time.UnixNano (clock w (ticks w)) in
  (10 ^ 18 <= now)%Z ->
  generateShortURL w = (Return (strconv.FormatInt (now / 10 ^ 11)), ticked w).
Proof.
  intros now Hnow.
  pose proof (wrap64_range (clock w (ticks w))) as Hr.
  fold (time.UnixNano (clock w (ticks w))) in Hr. fold now in Hr.
  assert (Hq : (10 ^ 7 <= now / 10 ^ 11 < 10 ^ 8)%Z).
  { split; [apply Z.div_le_lower_bound; lia|apply Z.div_lt_upper_bound; lia]. }
  assert (Htext : exists t, String.length t = 11%nat
                            /\ strconv.FormatInt now = strconv.FormatInt (now / 10 ^ 11) ++ t).
  { unfold strconv.FormatInt.
    destruct (Z.ltb_spec now 0) as [|_]; [lia|].
    destruct (Z.ltb_spec (now / 10 ^ 11) 0) as [|_]; [lia|].
    destruct (digits_div 11 9 now "" ltac:(lia)) as (t & Ht & Hd).
    exists t. split; [exact Ht|]. change (11 + 9)%nat with 20%nat in Hd.
    rewrite Hd, append_nil_r, digits_acc. f_equal.
    apply digits_fuel; [lia|]. change (Z.of_nat 11) with 11%Z. lia. }
  destruct Htext as (t & Ht & Htext).
  assert (Hlen : String.length (strconv.FormatInt (now / 10 ^ 11)) = 8%nat).
  { destruct (FormatInt_spec (now / 10 ^ 11) ltac:(lia)) as (_ & Hlo & _).
    assert (Hhi : (String.length (strconv.FormatInt (now / 10 ^ 11)) <= 8)%nat).
    { unfold strconv.FormatInt. destruct (Z.ltb_spec (now / 10 ^ 11) 0) as [|_]; [lia|].
      pose proof (digits_length_le 20 (now / 10 ^ 11) "" 8 ltac:(lia) ltac:(lia)) as H.
      cbn [String.length] in H. lia. }
    destruct (Nat.le_gt_cases 8 (String.length (strconv.FormatInt (now / 10 ^ 11))));
      [lia|].
    assert (10 ^ Z.of_nat (String.length (strconv.FormatInt (now / 10 ^ 11))) <= 10 ^ 7)%Z
      by (apply Z.pow_le_mono_r; lia).
    lia. }
  rewrite generateShortURL_run. cbv zeta. fold now.
  rewrite Htext, length_append, Hlen, Ht. cbn [Nat.add Nat.leb].
  rewrite <- Hlen at 1. by rewrite substring_0_append.
Qed.

Section panics.

Context {codec : Codec}.

(** X14. [handleRequest] panics in one situation only: the method is
    POST, the body decodes, and the clock reads a count of nanoseconds
    strictly between -10^6 and 10^7, whose text is too short for the slice
    [[:8]]. The panic comes before anything is sent to the table. *)
Theorem handleRequest_panics_only_near_the_epoch request w :
  ((exists msg w', handleRequest request w = (Panic msg, w'))
   <-> HTTPMethod request = "POST"
       /\ (exists createReq,
             json.Unmarshal (APIGatewayProxyRequest.Body request) = Ok createReq)
       /\ (- 10 ^ 6 < time.UnixNano (clock w (ticks w)) < 10 ^ 7)%Z)
  /\ (forall msg w', handleRequest request w = (Panic msg, w') ->
        trace w' = trace w /\ table w' = table w).
Proof.
  pose proof (FormatInt_short _ (wrap64_range (clock w (ticks w)))) as Hshort.
  fold (time.UnixNano (clock w (ticks w))) in Hshort.
  destruct (handleRequest_summary request w)
    as [(w0 & Hp & Ht & Htb & _ & HP & createReq & Hj & Hl)
       |(resp0 & err0 & w0 & calls & Hr & _)].
  - split.
    + split; [intros _|intros _; by eexists _, _].
      split; [exact HP|]. split; [by exists createReq|by apply Hshort].
    + intros msg w' H. rewrite Hp in H. by injection H as _ <-.
  - split; [|intros msg w' H; rewrite Hr in H; discriminate H].
    split; [intros (msg & w' & H); rewrite Hr in H; discriminate H|].
    intros (HP & (createReq & Hj) & Hnow). exfalso.
    apply Hshort in Hnow. apply Nat.leb_gt in Hnow.
    unfold handleRequest in Hr. rewrite HP in Hr. cbn [String.eqb Ascii.eqb Bool.eqb] in Hr.
    rewrite createShortURL_paths, Hj in Hr.
    cbv zeta in Hr. rewrite Hnow in Hr. discriminate Hr.
Qed.

End panics.

(** ** The JSON of the program's two types *)

Section json_round_trips.

Import utf8 json.

(** X15. The JSON tags of [CreateURLRequest] round-trip: the body that
    [json.Marshal] writes for a request whose [long_url] is UTF-8 text,
    with every escape that the encoder applies (quotes, backslashes,
    control characters, the HTML characters, U+2028 and U+2029), is decoded
    by [json.Unmarshal] to the same request, byte for byte. *)
Theorem request_body_round_trip (long_url : string) :
  ValidString long_url = true ->
  Unmarshal (MarshalRequest {| CreateURLRequest.LongURL := long_url |})
  = Ok {| CreateURLRequest.LongURL := long_url |}.
Proof. intros H. by apply Unmarshal_MarshalRequest. Qed.

(** X16. The body of a 201 is well-formed JSON: for a record as
    [createShortURL] builds it (counter 0) whose strings are UTF-8 text,
    what [json.Marshal] writes parses to an object with the members
    [short_url], [long_url], [created_at] and [access_count], in this
    order and with the record's values. *)
Theorem created_body_is_json (m : URLMapping) :
  ValidString (ShortURL m) = true -> ValidString (LongURL m) = true ->
  AccessCount m = 0%Z ->
  parse (Marshal m)
  = Some (Object [("short_url", Str (ShortURL m));
                  ("long_url", Str (LongURL m));
                  ("created_at", Str (time.RFC3339Nano (CreatedAt m)));
                  ("access_count", Number "0")]).
Proof.
  intros Hshort Hlong Hcount. unfold parse.
  set (R4 := "access_count" ++ String dquote ":0}").
  set (V3 := time.RFC3339Nano (CreatedAt m) ++ String dquote (String "," (String dquote R4))).
  set (R3 := "created_at" ++ String dquote (String ":" (String dquote V3))).
  set (V2 := encode (Copy 0) (LongURL m) ++ String dquote (String "," (String dquote R3))).
  set (R2 := "long_url" ++ String dquote (String ":" (String dquote V2))).
  set (V1 := encode (Copy 0) (ShortURL m) ++ String dquote (String "," (String dquote R2))).
  replace (Marshal m)
    with (String "{" (String dquote ("short_url" ++ String dquote (String ":" (String dquote V1))))).
  2:{ unfold Marshal, appendString, quoted, V1, R2, V2, R3, V3, R4. rewrite Hcount.
      change (strconv.FormatInt 0) with "0".
      repeat (rewrite append_cons || rewrite append_assoc || rewrite append_nil_l).
      reflexivity. }
  cbn [skip_space isSpace Ascii.eqb Bool.eqb orb String.length].
  rewrite length_append. cbn [String.length Nat.add].
  rewrite parse_value_object.
  rewrite (parse_members_string_comma _ _ _ V1 "short_url" (ShortURL m) R2);
    [|reflexivity|by apply unquote_String].
  rewrite (parse_members_string_comma _ _ _ V2 "long_url" (LongURL m) R3);
    [|reflexivity|by apply unquote_String].
  rewrite (parse_members_string_comma _ _ _ V3 "created_at" (time.RFC3339Nano (CreatedAt m)) R4);
    [|reflexivity|by apply unquote_safe, all_safe_RFC3339Nano].
  reflexivity.
Qed.

End json_round_trips.

(** ** The further properties, run *)

(** The second request of the overwrite, in the world that the first has
    left. *)
Lemma create_in_seeded :
  @createShortURL standard (POST other_body) seeded
  = (Return (created other_record, None), overwritten).
Proof. reflexivity. Qed.

(** The scenario again: one [PutItem], the item under the short code. *)
Lemma create_stores_the_record_witness :
  exists w',
    @createShortURL standard (POST example_body) fresh
    = (Return ({| StatusCode := 201;
                  Headers := {[ "Content-Type" := "application/json" ]};
                  Body := json.Marshal example_record |}, None), w')
    /\ table w' !! "17000000" = Some example_item
    /\ (forall k, k <> "17000000" -> table w' !! k = table fresh !! k)
    /\ trace w' = (trace fresh ++ [PutItemCall example_item])%list
    /\ logs w' = logs fresh.
Proof.
  apply (create_stores_the_record (spec := standard_spec) (POST example_body) fresh
           {| CreateURLRequest.LongURL := "https://example.com" |} "17000000" example_item).
  - reflexivity.
  - reflexivity.
  - reflexivity.
  - reflexivity.
Defined.

(** A table that refuses the write. *)
Lemma create_store_failure_witness :
  exists w',
    @createShortURL standard (POST example_body) (failing_at 0 "ThrottlingException" fresh)
    = (Return ({| StatusCode := 500; Headers := ∅; Body := "Error saving to DynamoDB" |},
               Some "ThrottlingException"), w')
    /\ table w' = table (failing_at 0 "ThrottlingException" fresh)
    /\ trace w' = (trace (failing_at 0 "ThrottlingException" fresh)
                   ++ [PutItemCall example_item])%list
    /\ logs w' = logs (failing_at 0 "ThrottlingException" fresh).
Proof.
  apply (create_store_failure (codec := standard) (POST example_body)
           (failing_at 0 "ThrottlingException" fresh)
           {| CreateURLRequest.LongURL := "https://example.com" |} "17000000" example_item).
  - reflexivity.
  - reflexivity.
  - reflexivity.
  - reflexivity.
Defined.

(** A table that refuses the lookup. *)
Lemma resolve_query_failure_witness :
  exists w',
    @getOriginalURL standard (GET "17000000") (failing_at 1 "ThrottlingException" seeded)
    = (Return ({| StatusCode := 500; Headers := ∅; Body := "Error querying DynamoDB" |},
               Some "ThrottlingException"), w')
    /\ table w' = table (failing_at 1 "ThrottlingException" seeded)
    /\ trace w' = (trace (failing_at 1 "ThrottlingException" seeded)
                   ++ [GetItemCall (key_for (shortURL_of (GET "17000000")))])%list
    /\ logs w' = logs (failing_at 1 "ThrottlingException" seeded).
Proof.
  apply (resolve_query_failure (spec := standard_spec)). reflexivity.
Defined.

(** An item whose [long_url] is a number. *)
Lemma resolve_undecodable_item_witness :
  exists e w',
    @getOriginalURL standard (GET "17000000") garbled
    = (Return ({| StatusCode := 500; Headers := ∅; Body := "Error unmarshaling item" |},
               Some e), w')
    /\ table w' = table garbled.
Proof.
  exists "unmarshal failed, cannot unmarshal number into Go value type string".
  destruct (resolve_undecodable_item (spec := standard_spec) (GET "17000000") garbled
              (<[ "long_url" := AttributeValueMemberN 5 ]> example_item)
              "unmarshal failed, cannot unmarshal number into Go value type string")
    as (w' & Hg & Ht & _).
  - reflexivity.
  - vm_compute. reflexivity.
  - vm_compute. reflexivity.
  - exists w'. by split.
Defined.

(** An encoder that refuses keys. *)
Lemma resolve_key_failure_witness :
  @getOriginalURL (keyless "unsupported type") (GET "17000000") seeded
  = (Return ({| StatusCode := 500; Headers := ∅; Body := "Error creating key" |},
             Some "unsupported type"), seeded).
Proof. apply (resolve_key_failure (codec := keyless "unsupported type")). reflexivity. Defined.

(** The call of the scenario that finds nothing. *)
Lemma handle_missing :
  @handleRequest standard (GET "00000000") seeded
  = (Return (plain 404 "URL not found", None),
     sent (GetItemCall (key_for "00000000")) seeded).
Proof. reflexivity. Qed.

(** A redirect whose update the table refuses. *)
Lemma handle_throttled_update :
  @handleRequest standard (GET "17000000") (failing_at 2 "ThrottlingException" seeded)
  = (Return (redirect "https://example.com", None),
     logged "Error updating access count :ThrottlingException"
       (sent (UpdateItemCall (increment (key_for "17000000")))
          (sent (GetItemCall (key_for "17000000"))
             (failing_at 2 "ThrottlingException" seeded)))).
Proof. reflexivity. Qed.

(** A lookup that the table refuses. *)
Lemma handle_throttled_lookup :
  @handleRequest standard (GET "17000000") (failing_at 1 "ThrottlingException" seeded)
  = (Return (plain 500 "Error querying DynamoDB", Some "ThrottlingException"),
     sent (GetItemCall (key_for "17000000")) (failing_at 1 "ThrottlingException" seeded)).
Proof. reflexivity. Qed.

Lemma error_exactly_with_500_witness :
  is_Some (Some "ThrottlingException")
  <-> StatusCode (plain 500 "Error querying DynamoDB") = 500%Z.
Proof. exact (error_exactly_with_500 _ _ _ _ _ handle_throttled_lookup). Defined.

Lemma table_changes_only_with_201_or_301_witness :
  table (sent (GetItemCall (key_for "00000000")) seeded) = table seeded
  \/ exists resp, Return (plain 404 "URL not found", @None string) = Return (resp, None)
                  /\ (StatusCode resp = 201 \/ StatusCode resp = 301)%Z.
Proof. exact (table_changes_only_with_201_or_301 _ _ _ _ handle_missing). Defined.

Lemma records_are_never_removed_witness :
  is_Some (table (sent (GetItemCall (key_for "00000000")) seeded) !! "17000000").
Proof.
  apply (records_are_never_removed _ _ _ _ "17000000" handle_missing).
  rewrite seeded_table. by eexists.
Defined.

Lemma log_grows_only_by_a_failed_update_witness :
  logs (logged "Error updating access count :ThrottlingException"
          (sent (UpdateItemCall (increment (key_for "17000000")))
             (sent (GetItemCall (key_for "17000000"))
                (failing_at 2 "ThrottlingException" seeded))))
  = logs (failing_at 2 "ThrottlingException" seeded)
  \/ exists resp e,
       Return (redirect "https://example.com", @None string) = Return (resp, None)
       /\ StatusCode resp = 301%Z
       /\ logs (logged "Error updating access count :ThrottlingException"
                  (sent (UpdateItemCall (increment (key_for "17000000")))
                     (sent (GetItemCall (key_for "17000000"))
                        (failing_at 2 "ThrottlingException" seeded))))
          = (logs (failing_at 2 "ThrottlingException" seeded)
             ++ [("Error updating access count :" ++ e)%string])%list.
Proof. exact (log_grows_only_by_a_failed_update _ _ _ _ handle_throttled_update). Defined.

Lemma store_traffic_by_method_witness :
  exists calls,
    trace (sent (GetItemCall (key_for "00000000")) seeded) = (trace seeded ++ calls)%list
    /\ resolve_traffic calls.
Proof.
  destruct (store_traffic_by_method _ _ _ _ handle_missing) as (calls & Ht & _ & HG & _).
  exists calls. split; [exact Ht|]. by apply HG.
Defined.

Lemma short_code_is_the_hundred_second_period_witness :
  generateShortURL fresh = (Return "17000000", ticked fresh).
Proof.
  apply (short_code_is_the_hundred_second_period fresh). vm_compute. discriminate.
Defined.

Lemma resolve_changes_only_the_counter_witness :
  table (sent (GetItemCall (key_for "00000000")) seeded) = table seeded
  \/ exists item n,
       table seeded !! shortURL_of (GET "00000000") = Some item
       /\ item !! "access_count" = Some (AttributeValueMemberN n)
       /\ table (sent (GetItemCall (key_for "00000000")) seeded)
          = <[ shortURL_of (GET "00000000")
               := <[ "access_count" := AttributeValueMemberN (n + 1) ]> item ]> (table seeded).
Proof.
  exact (resolve_changes_only_the_counter (spec := standard_spec) _ _ _ _ handle_missing).
Defined.

Lemma second_create_overwrites_witness :
  exists m1 m2 createReq2 item2,
    created example_record = created m1 /\ created other_record = created m2
    /\ ShortURL m2 = ShortURL m1
    /\ json.Unmarshal (APIGatewayProxyRequest.Body (POST other_body)) = Ok createReq2
    /\ LongURL m2 = CreateURLRequest.LongURL createReq2
    /\ @MarshalMap standard m2 = Ok item2
    /\ table overwritten !! ShortURL m1 = Some item2
    /\ (fault overwritten (length (trace overwritten)) = None ->
        forall m, @UnmarshalMap standard item2 = Ok m ->
        exists w3,
          @getOriginalURL standard (GET (ShortURL m1)) overwritten
          = (Return ({| StatusCode := 301;
                        Headers := {[ "Location" := CreateURLRequest.LongURL createReq2 ]};
                        Body := "" |}, None), w3)).
Proof.
  apply (second_create_overwrites (spec := standard_spec) (POST example_body) (POST other_body)
           fresh (created example_record) None seeded (created other_record) None overwritten).
  - exact create_in_fresh.
  - reflexivity.
  - exact create_in_seeded.
  - reflexivity.
  - vm_compute. reflexivity.
Defined.

Lemma request_body_round_trip_witness :
  json.Unmarshal (json.MarshalRequest {| CreateURLRequest.LongURL := "https://example.com" |})
  = Ok {| CreateURLRequest.LongURL := "https://example.com" |}.
Proof. apply (request_body_round_trip "https://example.com"). reflexivity. Defined.

Lemma created_body_is_json_witness :
  json.parse (json.Marshal example_record)
  = Some (json.Object [("short_url", json.Str (ShortURL example_record));
                       ("long_url", json.Str (LongURL example_record));
                       ("created_at", json.Str (time.RFC3339Nano (CreatedAt example_record)));
                       ("access_count", json.Number "0")]).
Proof. apply (created_body_is_json example_record); reflexivity. Defined.
